(** * Payment reconciliation engine: webhook gateway, matcher, ledger, SLA sweep

    A shallow embedding of
      - [backend/src/routes/webhooks.ts]  (signature middleware, the two
        provider routes, [processBkashWebhook] / [processNagadWebhook]),
      - the webhook schemas of [utils/validation.ts],
      - the SQL function [check_sla_breaches] of the database init script,
      - the alert worker of the queue module ([alertWorker] and its helpers),
    followed by the properties of the reconciliation specification.

    Conventions.  Instants are integers: milliseconds since the epoch on the
    TypeScript side ([Date.getTime]), whole seconds on the SQL side
    ([EXTRACT(EPOCH FROM ...)]).  JSON numbers are integers.  Rows of a table
    are kept in a list, in storage order; [findFirst] without [orderBy]
    returns the first row in that order. *)

From Stdlib Require Import ZArith List String Ascii Bool Lia Arith.
From Stdlib Require Import Strings.Byte.
From Stdlib Require Import Sorting.Permutation.
Import ListNotations.

#[local] Open Scope string_scope.
#[local] Open Scope list_scope.
#[local] Open Scope Z_scope.

(* ===================================================================== *)
(** ** Node's [crypto]: SHA-256 and HMAC (FIPS 180-4, RFC 2104) *)
(* ===================================================================== *)

Module Crypto.

Definition Buffer := list byte.

Definition Z_of_byte (b : byte) : Z := Z.of_N (Byte.to_N b).

Definition byte_of_Z (z : Z) : byte :=
  match Byte.of_N (Z.to_N (z mod 256)) with
  | Some b => b
  | None => x00
  end.

Definition Buffer_from_utf8 (s : string) : Buffer := list_byte_of_string s.

(** 32-bit words as [Z], wrap-around written out. *)
Definition w32 (x : Z) : Z := x mod 2 ^ 32.
Definition add32 (x y : Z) : Z := w32 (x + y).
Definition rotr (n x : Z) : Z :=
  w32 (Z.lor (Z.shiftr x n) (Z.shiftl x (32 - n))).
Definition shr (n x : Z) : Z := Z.shiftr x n.
Definition not32 (x : Z) : Z := Z.lxor x 4294967295.

Definition Ch (x y z : Z) : Z := Z.lxor (Z.land x y) (Z.land (not32 x) z).
Definition Maj (x y z : Z) : Z :=
  Z.lxor (Z.lxor (Z.land x y) (Z.land x z)) (Z.land y z).
Definition bsig0 (x : Z) : Z := Z.lxor (Z.lxor (rotr 2 x) (rotr 13 x)) (rotr 22 x).
Definition bsig1 (x : Z) : Z := Z.lxor (Z.lxor (rotr 6 x) (rotr 11 x)) (rotr 25 x).
Definition ssig0 (x : Z) : Z := Z.lxor (Z.lxor (rotr 7 x) (rotr 18 x)) (shr 3 x).
Definition ssig1 (x : Z) : Z := Z.lxor (Z.lxor (rotr 17 x) (rotr 19 x)) (shr 10 x).

(** The constants, as FIPS 180-4 defines them: the first 32 bits of the
    fractional parts of the cube roots of the first 64 primes (round
    constants) and of the square roots of the first 8 primes (initial hash
    value). *)
Definition is_prime (p : Z) : bool :=
  (1 <? p)
  && forallb (fun d => negb (p mod d =? 0))
             (filter (fun d => d * d <=? p) (map Z.of_nat (seq 2 20))).

Definition primes : list Z := filter is_prime (map Z.of_nat (seq 2 310)).

(** The integer part of the [k]-th root of [n], found bit by bit from
    [2^(bits-1)] down. *)
Fixpoint iroot (k n : Z) (bits : nat) (r : Z) : Z :=
  match bits with
  | O => r
  | S b =>
      let r' := r + 2 ^ Z.of_nat b in
      iroot k n b (if r' ^ k <=? n then r' else r)
  end.

Definition frac_root (k p : Z) : Z := iroot k (p * 2 ^ (32 * k)) 40 0 mod 2 ^ 32.

Definition K256 : list Z := Eval vm_compute in map (frac_root 3) primes.

Definition initial_words : list Z := Eval vm_compute in map (frac_root 2) (firstn 8 primes).

(** The eight chaining words. *)
Record HashState : Type := mkHash
  { ha : Z; hb : Z; hc : Z; hd : Z; he : Z; hf : Z; hg : Z; hh : Z }.

Definition H0 : HashState :=
  mkHash (nth 0 initial_words 0) (nth 1 initial_words 0) (nth 2 initial_words 0)
         (nth 3 initial_words 0) (nth 4 initial_words 0) (nth 5 initial_words 0)
         (nth 6 initial_words 0) (nth 7 initial_words 0).

(** Padding: one 0x80 byte, zeros up to 56 mod 64, the bit length on 8
    bytes, big-endian. *)
Definition be_bytes (n : nat) (x : Z) : list Z :=
  map (fun i => Z.shiftr x (8 * Z.of_nat i) mod 256) (rev (seq 0 n)).

Definition pad (msg : list Z) : list Z :=
  let len := Z.of_nat (List.length msg) in
  let zeros := Z.to_nat ((55 - len) mod 64) in
  msg ++ [128] ++ repeat 0 zeros ++ be_bytes 8 (8 * len).

Fixpoint words_of_bytes (bs : list Z) : list Z :=
  match bs with
  | b0 :: b1 :: b2 :: b3 :: rest =>
      (b0 * 16777216 + b1 * 65536 + b2 * 256 + b3) :: words_of_bytes rest
  | _ => []
  end.

(** Message schedule, newest word first: from [W(t-1) ... W(t-16)] the next
    word is ssig1 W(t-2) + W(t-7) + ssig0 W(t-15) + W(t-16). *)
Fixpoint schedule (fuel : nat) (rw : list Z) : list Z :=
  match fuel with
  | O => rw
  | S fuel' =>
      let w := add32 (add32 (ssig1 (nth 1 rw 0)) (nth 6 rw 0))
                     (add32 (ssig0 (nth 14 rw 0)) (nth 15 rw 0)) in
      schedule fuel' (w :: rw)
  end.

Definition round (st : HashState) (kw : Z * Z) : HashState :=
  let (k, w) := kw in
  let t1 := add32 (add32 (add32 (hh st) (bsig1 (he st)))
                         (add32 (Ch (he st) (hf st) (hg st)) k)) w in
  let t2 := add32 (bsig0 (ha st)) (Maj (ha st) (hb st) (hc st)) in
  mkHash (add32 t1 t2) (ha st) (hb st) (hc st)
         (add32 (hd st) t1) (he st) (hf st) (hg st).

Definition compress (st : HashState) (block : list Z) : HashState :=
  let ws := rev (schedule 48 (rev block)) in
  let r := fold_left round (combine K256 ws) st in
  mkHash (add32 (ha st) (ha r)) (add32 (hb st) (hb r))
         (add32 (hc st) (hc r)) (add32 (hd st) (hd r))
         (add32 (he st) (he r)) (add32 (hf st) (hf r))
         (add32 (hg st) (hg r)) (add32 (hh st) (hh r)).

Fixpoint blocks (fuel : nat) (ws : list Z) (st : HashState) : HashState :=
  match fuel with
  | O => st
  | S fuel' =>
      match ws with
      | [] => st
      | _ => blocks fuel' (skipn 16 ws) (compress st (firstn 16 ws))
      end
  end.

Definition digest_bytes (st : HashState) : Buffer :=
  map byte_of_Z
      (flat_map (be_bytes 4)
         [ha st; hb st; hc st; hd st; he st; hf st; hg st; hh st]).

Definition sha256 (msg : Buffer) : Buffer :=
  let ws := words_of_bytes (pad (map Z_of_byte msg)) in
  digest_bytes (blocks (List.length ws) ws H0).

(** [crypto.createHmac('sha256', key).update(msg).digest()]. *)
Definition hmac_sha256 (key msg : Buffer) : Buffer :=
  let k0 := if Nat.ltb 64 (List.length key) then sha256 key else key in
  let k := k0 ++ repeat x00 (64 - List.length k0) in
  let xorb (c : Z) (b : byte) := byte_of_Z (Z.lxor (Z_of_byte b) c) in
  sha256 (map (xorb 0x5c) k ++ sha256 (map (xorb 0x36) k ++ msg)).

(** Hexadecimal text, as [digest('hex')] prints it and
    [Buffer.from(s, 'hex')] reads it. *)
Definition hex_digit (n : Z) : ascii :=
  if n <? 10 then ascii_of_N (Z.to_N (48 + n))
  else ascii_of_N (Z.to_N (87 + n)).

Fixpoint toString_hex (b : Buffer) : string :=
  match b with
  | [] => EmptyString
  | x :: rest =>
      String (hex_digit (Z_of_byte x / 16))
        (String (hex_digit (Z_of_byte x mod 16)) (toString_hex rest))
  end.

Definition hex_value (c : ascii) : option Z :=
  let n := Z.of_N (N_of_ascii c) in
  if (48 <=? n) && (n <=? 57) then Some (n - 48)
  else if (97 <=? n) && (n <=? 102) then Some (n - 87)
  else if (65 <=? n) && (n <=? 70) then Some (n - 55)
  else None.

(** [Buffer.from(s, 'hex')]: pairs of hex digits are decoded until the
    first pair that is not two hex digits; a trailing single digit is
    dropped. *)
Fixpoint Buffer_from_hex (s : string) : Buffer :=
  match s with
  | String c1 (String c2 rest) =>
      match hex_value c1, hex_value c2 with
      | Some h, Some l => byte_of_Z (16 * h + l) :: Buffer_from_hex rest
      | _, _ => []
      end
  | _ => []
  end.

Definition hmac_hex (key msg : string) : string :=
  toString_hex (hmac_sha256 (Buffer_from_utf8 key) (Buffer_from_utf8 msg)).

(** [crypto.timingSafeEqual(a, b)]: throws a RangeError when the byte
    lengths differ ([None]), otherwise tells whether the buffers are
    equal.  Its running time is not modelled. *)
Fixpoint buffer_eqb (a b : Buffer) : bool :=
  match a, b with
  | [], [] => true
  | x :: a', y :: b' => Byte.eqb x y && buffer_eqb a' b'
  | _, _ => false
  end.

Definition timingSafeEqual (a b : Buffer) : option bool :=
  if Nat.eqb (List.length a) (List.length b) then Some (buffer_eqb a b) else None.

End Crypto.

(* ===================================================================== *)
(** ** JavaScript values the gateway handles *)
(* ===================================================================== *)

Module Js.

(** A JavaScript string is held as the bytes of its UTF-8 form, the form
    in which [update] and [Buffer.from] read it ([Crypto.Buffer_from_utf8]).
    [utf8 s] tells that a byte string is the UTF-8 form of a string: every
    character is encoded in the shortest way and none is a surrogate. *)
Definition between (lo hi : N) (c : ascii) : bool :=
  (N.leb lo (N_of_ascii c) && N.leb (N_of_ascii c) hi)%bool.

Definition continuation (c : ascii) : bool := between 128 191 c.

Fixpoint utf8 (s : string) : bool :=
  match s with
  | EmptyString => true
  | String a r =>
      if between 0 127 a then utf8 r
      else
        match r with
        | EmptyString => false
        | String b r1 =>
            if between 194 223 a then continuation b && utf8 r1
            else
              match r1 with
              | EmptyString => false
              | String c r2 =>
                  if between 224 224 a
                  then between 160 191 b && continuation c && utf8 r2
                  else if between 225 236 a || between 238 239 a
                  then continuation b && continuation c && utf8 r2
                  else if between 237 237 a
                  then between 128 159 b && continuation c && utf8 r2
                  else
                    match r2 with
                    | EmptyString => false
                    | String d r3 =>
                        if between 240 240 a
                        then between 144 191 b && continuation c
                             && continuation d && utf8 r3
                        else if between 241 243 a
                        then continuation b && continuation c
                             && continuation d && utf8 r3
                        else if between 244 244 a
                        then between 128 143 b && continuation c
                             && continuation d && utf8 r3
                        else false
                    end
              end
        end
  end.

(** [String.prototype.replace(pat, rep)] with a string pattern: only the
    first occurrence is replaced, wherever it stands. *)
Fixpoint drop (n : nat) (s : string) : string :=
  match n, s with
  | O, _ => s
  | S n', String _ s' => drop n' s'
  | S _, EmptyString => EmptyString
  end.

Fixpoint replace (pat rep s : string) : string :=
  if String.prefix pat s then String.append rep (drop (String.length pat) s)
  else match s with
       | EmptyString => EmptyString
       | String c s' => String c (replace pat rep s')
       end.

(** Truthiness of a string-or-undefined: [undefined] and the empty string
    are falsy.  [a || b] on two such values, kept only when truthy. *)
Definition truthy (v : option string) : option string :=
  match v with
  | Some EmptyString => None
  | _ => v
  end.

Definition or_else (a b : option string) : option string :=
  match truthy a with
  | Some x => Some x
  | None => truthy b
  end.

(** [parseInt(s)] without a radix: leading white space is skipped, a sign
    is read, a [0x] prefix selects base 16, and the longest prefix of
    digits is converted; [None] stands for [NaN].  The value is the integer
    the digits denote (a Number is that integer rounded to 53 bits).

    The white space skipped is [StrWhiteSpaceChar]: TAB, LF, VT, FF, CR and
    the space, and beyond ASCII the no-break space U+00A0, U+1680,
    U+2000..U+200A, the separators U+2028 and U+2029, U+202F, U+205F,
    U+3000 and the byte order mark U+FEFF, read here in their UTF-8 forms
    of two and three bytes. *)
Definition is_space (c : ascii) : bool :=
  (between 9 13 c || between 32 32 c)%bool.

Definition is_space2 (a b : ascii) : bool :=
  (between 194 194 a && between 160 160 b)%bool.

Definition is_space3 (a b c : ascii) : bool :=
  (between 225 225 a && between 154 154 b && between 128 128 c
   || between 226 226 a && between 128 128 b
      && (between 128 138 c || between 168 169 c || between 175 175 c)
   || between 226 226 a && between 129 129 b && between 159 159 c
   || between 227 227 a && between 128 128 b && between 128 128 c
   || between 239 239 a && between 187 187 b && between 191 191 c)%bool.

Fixpoint skip_spaces (s : string) : string :=
  match s with
  | EmptyString => s
  | String a r =>
      if is_space a then skip_spaces r
      else
        match r with
        | EmptyString => s
        | String b r1 =>
            if is_space2 a b then skip_spaces r1
            else
              match r1 with
              | EmptyString => s
              | String c r2 => if is_space3 a b c then skip_spaces r2 else s
              end
        end
  end.

Definition dec_value (c : ascii) : option Z :=
  let n := Z.of_N (N_of_ascii c) in
  if (48 <=? n) && (n <=? 57) then Some (n - 48) else None.

Fixpoint digits (val : ascii -> option Z) (radix : Z) (acc : option Z)
         (s : string) : option Z :=
  match s with
  | String c s' =>
      match val c with
      | Some d =>
          digits val radix
            (Some (radix * match acc with Some a => a | None => 0 end + d)) s'
      | None => acc
      end
  | EmptyString => acc
  end.

Definition parseInt (s : string) : option Z :=
  let s1 := skip_spaces s in
  let (neg, s2) :=
    match s1 with
    | String "-" r => (true, r)
    | String "+" r => (false, r)
    | _ => (false, s1)
    end in
  let mag :=
    match s2 with
    | String "0" (String "x" r) => digits Crypto.hex_value 16 None r
    | String "0" (String "X" r) => digits Crypto.hex_value 16 None r
    | _ => digits dec_value 10 None s2
    end in
  match mag with
  | Some m => Some (if neg then - m else m)
  | None => None
  end.

(** [Number.isSafeInteger]: the integers of magnitude at most 2^53 - 1.
    Each of them is a Number, and [Number.prototype.toString] prints it with
    all its decimal digits.  Beyond them a Number is an integer rounded to
    53 bits, printed with the fewest digits that read back as it and in
    exponent form from 1e21; those, and Numbers with a fraction, are not
    values of this model: [JNum n] below stands for a Number only when [n]
    is a safe integer. *)
Definition MAX_SAFE_INTEGER : Z := 2 ^ 53 - 1.

Definition Number_isSafeInteger (n : Z) : bool :=
  Z.abs n <=? MAX_SAFE_INTEGER.

(** Decimal text of an integer, as [Number.prototype.toString] prints a
    safe integer. *)
Fixpoint nat_digits (fuel : nat) (n : Z) (acc : string) : string :=
  match fuel with
  | O => acc
  | S fuel' =>
      let acc' := String (ascii_of_N (Z.to_N (48 + n mod 10))) acc in
      if n <? 10 then acc' else nat_digits fuel' (n / 10) acc'
  end.

Definition Number_toString (n : Z) : string :=
  if n <? 0 then String "-" (nat_digits (S (Z.to_nat (Z.log2 (- n)))) (- n) "")
  else nat_digits (S (Z.to_nat (Z.log2 n))) n "".

(** Parsed JSON, as [express.json()] leaves it in [req.body].  The members
    of an object are listed in the order in which [JSON.stringify] and
    [Object.keys] enumerate them. *)
#[warnings="-register-all"]
Inductive Json : Type :=
| JNull
| JBool (b : bool)
| JNum (n : Z)
| JStr (s : string)
| JArr (items : list Json)
| JObj (members : list (string * Json)).

(** [exact j]: the term [j] stands for a value that [JSON.parse] yields, and
    the functions below compute on it what the JavaScript ones compute.
    Every number is a safe integer; every string and member name is a
    string ([utf8]); within an object the member names differ from one
    another, as an object has one property per name; and no member name is
    written in digits only, because a property whose name is an array index
    is enumerated before the others, whatever its place in the text. *)
Fixpoint all_digits (s : string) : bool :=
  match s with
  | EmptyString => false
  | String c r =>
      between 48 57 c && match r with EmptyString => true | _ => all_digits r end
  end.

Fixpoint distinct (names : list string) : bool :=
  match names with
  | [] => true
  | x :: r => negb (existsb (String.eqb x) r) && distinct r
  end.

Definition member_name (k : string) : bool :=
  utf8 k && negb (all_digits k).

Fixpoint exact (j : Json) : bool :=
  match j with
  | JNull => true
  | JBool _ => true
  | JNum n => Number_isSafeInteger n
  | JStr s => utf8 s
  | JArr items =>
      let fix go (l : list Json) : bool :=
        match l with
        | [] => true
        | x :: r => exact x && go r
        end in
      go items
  | JObj members =>
      let fix go (l : list (string * Json)) : bool :=
        match l with
        | [] => true
        | (k, v) :: r => member_name k && exact v && go r
        end in
      distinct (map fst members) && go members
  end.

(** [JSON.stringify]'s string quoting. *)
Definition dquote : ascii := ascii_of_N 34.

Definition escape_char (c : ascii) : string :=
  let n := Z.of_N (N_of_ascii c) in
  if n =? 34 then String "\" (String dquote "")
  else if n =? 92 then "\\"
  else if n =? 8 then "\b"
  else if n =? 12 then "\f"
  else if n =? 10 then "\n"
  else if n =? 13 then "\r"
  else if n =? 9 then "\t"
  else if n <? 32 then
    String.append "\u00"
      (String (Crypto.hex_digit (n / 16)) (String (Crypto.hex_digit (n mod 16)) ""))
  else String c "".

Fixpoint escape (s : string) : string :=
  match s with
  | EmptyString => EmptyString
  | String c s' => String.append (escape_char c) (escape s')
  end.

Definition quote (s : string) : string :=
  String dquote (String.append (escape s) (String dquote "")).

(** [JSON.stringify(value)]: no white space, members in insertion order. *)
Fixpoint JSON_stringify (j : Json) : string :=
  match j with
  | JNull => "null"
  | JBool true => "true"
  | JBool false => "false"
  | JNum n => Number_toString n
  | JStr s => quote s
  | JArr items =>
      let fix go (l : list Json) : string :=
        match l with
        | [] => ""
        | [x] => JSON_stringify x
        | x :: r => String.append (JSON_stringify x) (String "," (go r))
        end in
      String "[" (String.append (go items) "]")
  | JObj members =>
      let fix go (l : list (string * Json)) : string :=
        match l with
        | [] => ""
        | [(k, v)] => String.append (quote k) (String ":" (JSON_stringify v))
        | (k, v) :: r =>
            String.append (quote k)
              (String ":" (String.append (JSON_stringify v) (String "," (go r))))
        end in
      String "{" (String.append (go members) "}")
  end.

(** [String(value)], as a template literal converts an interpolated value;
    [None] is [undefined]. *)
Fixpoint ToString (j : Json) : string :=
  match j with
  | JNull => "null"
  | JBool true => "true"
  | JBool false => "false"
  | JNum n => Number_toString n
  | JStr s => s
  | JArr items =>
      let fix go (l : list Json) : string :=
        match l with
        | [] => ""
        | [x] => match x with JNull => "" | _ => ToString x end
        | x :: r =>
            String.append (match x with JNull => "" | _ => ToString x end)
                          (String "," (go r))
        end in
      go items
  | JObj _ => "[object Object]"
  end.

Definition interpolate (v : option Json) : string :=
  match v with
  | Some j => ToString j
  | None => "undefined"
  end.

(** Property read [obj[key]]; [None] is [undefined]. *)
Fixpoint get (key : string) (members : list (string * Json)) : option Json :=
  match members with
  | [] => None
  | (k, v) :: r => if String.eqb k key then Some v else get key r
  end.

End Js.


(* ===================================================================== *)
(** ** The tables and the Prisma calls of the webhook path *)
(* ===================================================================== *)

Module Ledger.

Definition Id := nat.

Inductive CollectionType := BKASH | NAGAD | CASH | BANK_DEPOSIT.
Inductive CollectionStatus := PENDING | APPROVED | REJECTED.
Inductive MatchType := EXACT | FUZZY.
Inductive ReconciliationStatus := MATCHED.

Definition CollectionType_eqb (a b : CollectionType) : bool :=
  match a, b with
  | BKASH, BKASH | NAGAD, NAGAD | CASH, CASH | BANK_DEPOSIT, BANK_DEPOSIT => true
  | _, _ => false
  end.

Definition CollectionStatus_eqb (a b : CollectionStatus) : bool :=
  match a, b with
  | PENDING, PENDING | APPROVED, APPROVED | REJECTED, REJECTED => true
  | _, _ => false
  end.

(** Output of [bkashWebhookSchema.parse] / [nagadWebhookSchema.parse]. *)
Record BkashData : Type := mkBkashData
  { bk_txnId : string;
    bk_amount : Z;
    bk_currency : string;
    bk_status : string;
    bk_date : string;
    bk_customerMobile : option string;
    bk_merchantInvoiceNumber : option string;
    bk_signature : string }.

Record NagadData : Type := mkNagadData
  { ng_paymentRefId : string;
    ng_amount : Z;
    ng_currency : string;
    ng_status : string;
    ng_dateTime : string;
    ng_customerMobile : option string;
    ng_orderId : option string;
    ng_signature : string }.

Inductive Payload : Type :=
| BkashPayload (data : BkashData)
| NagadPayload (data : NagadData).

(** The columns of [collection] that the webhook path and the SLA sweep
    read or write. *)
Record Collection : Type := mkCollection
  { c_id : Id;
    c_accountId : Id;
    c_type : CollectionType;
    c_amount : Z;
    c_collectionDate : Z;
    c_txnId : option string;
    c_status : CollectionStatus;
    c_isMatched : bool;
    c_webhookData : option Payload;
    c_createdAt : Z }.

Record WebhookLog : Type := mkWebhookLog
  { wl_id : Id;
    wl_provider : CollectionType;
    wl_txnId : string;
    wl_amount : Z;
    wl_status : string;
    wl_payload : Payload;
    wl_processedAt : Z }.

Record Reconciliation : Type := mkReconciliation
  { r_collectionId : Id;
    r_webhookLogId : Id;
    r_status : ReconciliationStatus;
    r_matchedAt : Z;
    r_matchType : MatchType }.

(** A [Date] object: [None] is the Invalid Date. *)
Definition JsDate := option Z.

(** The five Prisma calls of [processBkashWebhook] / [processNagadWebhook],
    with the arguments the source passes. *)
Inductive Query : Type :=
| WebhookLogCreate (provider : CollectionType) (txnId : string) (amount : Z)
                   (status : string) (payload : Payload) (processedAt : Z)
| CollectionFindByTxnId (type : CollectionType) (txnId : string)
| CollectionFindByAmount (type : CollectionType) (amount : Z)
                         (startDate endDate : JsDate)
| CollectionUpdate (id : Id) (txnId : string) (webhookData : Payload)
| ReconciliationCreate (collectionId webhookLogId : Id) (matchedAt : Z)
                       (matchType : MatchType).

Definition Answer (q : Query) : Type :=
  match q with
  | WebhookLogCreate _ _ _ _ _ _ => WebhookLog
  | CollectionFindByTxnId _ _ => option Collection
  | CollectionFindByAmount _ _ _ _ => option Collection
  | CollectionUpdate _ _ _ => unit
  | ReconciliationCreate _ _ _ _ => unit
  end.

Inductive PrismaError : Type :=
| P2002   (* unique constraint violation *)
| P2025   (* record to update not found *)
| PrismaValidationError.  (* an Invalid Date given as a filter value *)

(** The database, with the list of calls issued so far (newest last). *)
Record Store : Type := mkStore
  { collections : list Collection;
    webhookLogs : list WebhookLog;
    reconciliations : list Reconciliation;
    queries : list Query }.

Definition logged (q : Query) (s : Store) : Store :=
  mkStore (collections s) (webhookLogs s) (reconciliations s) (queries s ++ [q]).

(** [where: { type, txnId, status: 'PENDING' }] *)
Definition whereTxnId (type : CollectionType) (txnId : string) (c : Collection) : bool :=
  CollectionType_eqb (c_type c) type
  && match c_txnId c with Some t => String.eqb t txnId | None => false end
  && CollectionStatus_eqb (c_status c) PENDING.

(** [where: { type, amount, collectionDate: { gte, lte }, status: 'PENDING',
    isMatched: false }] *)
Definition whereAmount (type : CollectionType) (amount startDate endDate : Z)
           (c : Collection) : bool :=
  CollectionType_eqb (c_type c) type
  && (c_amount c =? amount)
  && (startDate <=? c_collectionDate c) && (c_collectionDate c <=? endDate)
  && CollectionStatus_eqb (c_status c) PENDING
  && negb (c_isMatched c).

(** [orderBy: { createdAt: 'asc' }] followed by taking the first row: a row
    of least [createdAt], the first such in storage order. *)
Fixpoint oldest (rows : list Collection) : option Collection :=
  match rows with
  | [] => None
  | c :: rest =>
      match oldest rest with
      | None => Some c
      | Some m => if c_createdAt c <=? c_createdAt m then Some c else Some m
      end
  end.

(** [data: { txnId, isMatched: true, webhookData, status: 'APPROVED' }] *)
Definition matchedUpdate (txnId : string) (webhookData : Payload)
           (c : Collection) : Collection :=
  mkCollection (c_id c) (c_accountId c) (c_type c) (c_amount c)
               (c_collectionDate c) (Some txnId) APPROVED true
               (Some webhookData) (c_createdAt c).

Definition updateWhereId (id : Id) (f : Collection -> Collection)
           (rows : list Collection) : list Collection :=
  map (fun c => if Nat.eqb (c_id c) id then f c else c) rows.

Definition fresh_id (ids : list Id) : Id := S (list_max ids).

(** An [async] function body: a tree of [await]ed calls. *)
Inductive Prog (A : Type) : Type :=
| Ret (a : A)
| Throw (e : PrismaError)
| Await (q : Query) (k : Answer q -> Prog A).

Arguments Ret {A} a.
Arguments Throw {A} e.
Arguments Await {A} q k.

Section Calls.

(** Whether the schema declares [(provider, txnId)] unique on
    [webhookLog]; the Prisma schema is not part of the sources read
    here, so both settings are covered. *)
Variable webhookLog_unique : bool.

Definition sameKey (provider : CollectionType) (txnId : string)
           (w : WebhookLog) : bool :=
  CollectionType_eqb (wl_provider w) provider && String.eqb (wl_txnId w) txnId.

(** One Prisma call against the store. *)
Definition exec (q : Query) (s : Store) : (PrismaError + Answer q) * Store :=
  let s := logged q s in
  match q return (PrismaError + Answer q) * Store with
  | WebhookLogCreate provider txnId amount status payload processedAt =>
      if webhookLog_unique && existsb (sameKey provider txnId) (webhookLogs s)
      then (inl P2002, s)
      else
        let row := mkWebhookLog (fresh_id (map wl_id (webhookLogs s)))
                     provider txnId amount status payload processedAt in
        (inr row,
         mkStore (collections s) (webhookLogs s ++ [row])
                 (reconciliations s) (queries s))
  | CollectionFindByTxnId type txnId =>
      (inr (find (whereTxnId type txnId) (collections s)), s)
  | CollectionFindByAmount type amount startDate endDate =>
      match startDate, endDate with
      | Some lo, Some hi =>
          (inr (oldest (filter (whereAmount type amount lo hi) (collections s))), s)
      | _, _ => (inl PrismaValidationError, s)
      end
  | CollectionUpdate id txnId webhookData =>
      if existsb (fun c => Nat.eqb (c_id c) id) (collections s)
      then (inr tt,
            mkStore (updateWhereId id (matchedUpdate txnId webhookData) (collections s))
                    (webhookLogs s) (reconciliations s) (queries s))
      else (inl P2025, s)
  | ReconciliationCreate collectionId webhookLogId matchedAt matchType =>
      (inr tt,
       mkStore (collections s) (webhookLogs s)
               (reconciliations s ++
                  [mkReconciliation collectionId webhookLogId MATCHED matchedAt matchType])
               (queries s))
  end.

(** Run to completion with no other request in between. *)
Fixpoint run {A : Type} (p : Prog A) (s : Store) : (PrismaError + A) * Store :=
  match p with
  | Ret a => (inr a, s)
  | Throw e => (inl e, s)
  | Await q k =>
      match exec q s with
      | (inr x, s') => run (k x) s'
      | (inl e, s') => (inl e, s')
      end
  end.



End Calls.

(** *** [processBkashWebhook] and [processNagadWebhook]

    The two functions of the source are the same text up to the provider
    constant and the names of the payload's fields; [processWebhook] is
    that text, and the two are its instances. *)

Record ProcessResult : Type := mkResult
  { matched : bool;
    collectionId : option Id;
    webhookLogId : Id }.

Definition DAY_MS : Z := 24 * 60 * 60 * 1000.
Arguments DAY_MS : simpl never.

Definition isSuccess (status : string) : bool :=
  String.eqb status "SUCCESS" || String.eqb status "COMPLETED".

Definition matchTypeOf (txnId : string) (matchedCollection : Collection) : MatchType :=
  match c_txnId matchedCollection with
  | Some t => if String.eqb txnId t then EXACT else FUZZY
  | None => FUZZY
  end.

Section Process.

(** [new Date(text).getTime()]: the grammar [Date] accepts is the
    engine's; [None] is [NaN], the Invalid Date. *)
Variable Date_getTime : string -> option Z.

(** [now] is the reading of [new Date()] during the call. *)
Variable now : Z.

(** The part after the two searches: claim and record, or report no
    match. *)
Definition settle (txnId : string) (payload : Payload) (webhookLog : WebhookLog)
           (matchedCollection : option Collection) : Prog ProcessResult :=
  match matchedCollection with
  | Some c =>
      Await (CollectionUpdate (c_id c) txnId payload) (fun _ =>
      Await (ReconciliationCreate (c_id c) (wl_id webhookLog) now
               (matchTypeOf txnId c)) (fun _ =>
      Ret (mkResult true (Some (c_id c)) (wl_id webhookLog))))
  | None => Ret (mkResult false None (wl_id webhookLog))
  end.

Definition processWebhook (provider : CollectionType) (txnId : string)
           (amount : Z) (status : string) (date : string) (payload : Payload)
  : Prog ProcessResult :=
  Await (WebhookLogCreate provider txnId amount status payload now) (fun webhookLog =>
  if isSuccess status then
    Await (CollectionFindByTxnId provider txnId) (fun matchedCollection =>
    match matchedCollection with
    | Some _ => settle txnId payload webhookLog matchedCollection
    | None =>
        let paymentDate := Date_getTime date in
        let startDate := option_map (fun t => t - DAY_MS) paymentDate in
        let endDate := option_map (fun t => t + DAY_MS) paymentDate in
        Await (CollectionFindByAmount provider amount startDate endDate)
              (settle txnId payload webhookLog)
    end)
  else Ret (mkResult false None (wl_id webhookLog))).

Definition processBkashWebhook (data : BkashData) : Prog ProcessResult :=
  processWebhook BKASH (bk_txnId data) (bk_amount data) (bk_status data)
                 (bk_date data) (BkashPayload data).

Definition processNagadWebhook (data : NagadData) : Prog ProcessResult :=
  processWebhook NAGAD (ng_paymentRefId data) (ng_amount data) (ng_status data)
                 (ng_dateTime data) (NagadPayload data).

End Process.

End Ledger.

(* ===================================================================== *)
(** ** The webhook gateway: signature middleware, schemas, routes *)
(* ===================================================================== *)

Module Gateway.

Import Ledger.

Inductive Provider := bkash | nagad.

Record Env : Type := mkEnv
  { BKASH_WEBHOOK_SECRET : option string;
    NAGAD_WEBHOOK_SECRET : option string }.

Record Request : Type := mkRequest
  { headers : list (string * string);
    body : Js.Json }.

Inductive ResponseBody : Type :=
| Failure (error : string)                       (* { success: false, error } *)
| Processed (matched : bool) (collectionId : option Id)
                                                 (* { success: true, message, matched, collectionId } *)
| HandlerError (error : string).                 (* errorHandler's { error, timestamp, path, method } *)

Record Response : Type := mkResponse
  { statusCode : Z;
    json : ResponseBody }.

Inductive Middleware : Type :=
| Next
| Respond (res : Response).

Fixpoint header (name : string) (hs : list (string * string)) : option string :=
  match hs with
  | [] => None
  | (k, v) :: r => if String.eqb k name then Some v else header name r
  end.

Definition secretOf (provider : Provider) (env : Env) : option string :=
  match provider with
  | bkash => BKASH_WEBHOOK_SECRET env
  | nagad => NAGAD_WEBHOOK_SECRET env
  end.

(** [timestamp ? `${timestamp}.${JSON.stringify(req.body)}`
               : JSON.stringify(req.body)] *)
Definition signedPayload (timestamp : option string) (body : Js.Json) : string :=
  match timestamp with
  | Some t => String.append t (String "." (Js.JSON_stringify body))
  | None => Js.JSON_stringify body
  end.

Definition expectedSignature (secret : string) (timestamp : option string)
           (body : Js.Json) : string :=
  Crypto.hmac_hex secret (signedPayload timestamp body).

Definition providedSignature (signature : string) : string :=
  Js.replace "sha256=" "" signature.

Definition TOLERANCE_MS : Z := 5 * 60 * 1000.

(** The replay check made once the signature is accepted: with a
    timestamp header, [Math.abs(now - parseInt(timestamp) * 1000)] must not
    exceed five minutes. *)
Definition checkTimestamp (timestamp : option string) (now : Z) : Middleware :=
  match timestamp with
  | Some t =>
      match Js.parseInt t with
      | Some seconds =>
          if Z.abs (now - seconds * 1000) >? TOLERANCE_MS
          then Respond (mkResponse 401 (Failure "Request timestamp too old"))
          else Next
      | None => Next   (* NaN > 300000 is false *)
      end
  | None => Next
  end.

Definition signatureHeader (req : Request) : option string :=
  Js.or_else (header "x-signature" (headers req)) (header "signature" (headers req)).

Definition timestampHeader (req : Request) : option string :=
  Js.or_else (header "x-timestamp" (headers req)) (header "timestamp" (headers req)).

(** [verifyWebhookSignature(provider)(req, res, next)]; [now] is the
    reading of [Date.now()]. *)
Definition verifyWebhookSignature (provider : Provider) (env : Env) (now : Z)
           (req : Request) : Middleware :=
  let signature := signatureHeader req in
  let timestamp := timestampHeader req in
  match signature with
  | None => Respond (mkResponse 401 (Failure "Missing signature header"))
  | Some signature =>
      match Js.truthy (secretOf provider env) with
      | None => Respond (mkResponse 500 (Failure "Webhook not configured"))
      | Some secret =>
          match Crypto.timingSafeEqual
                  (Crypto.Buffer_from_hex (expectedSignature secret timestamp (body req)))
                  (Crypto.Buffer_from_hex (providedSignature signature)) with
          | None =>
              (* the RangeError lands in the catch block *)
              Respond (mkResponse 500 (Failure "Signature verification failed"))
          | Some false => Respond (mkResponse 401 (Failure "Invalid signature"))
          | Some true => checkTimestamp timestamp now
          end
      end
  end.

(** *** zod schemas *)

(** [z.string()] on a required key, [z.string().optional()],
    [z.string().default(d)], [z.number().positive()]; the outer [None] is
    a ZodError. *)
Definition zString (o : list (string * Js.Json)) (key : string) : option string :=
  match Js.get key o with
  | Some (Js.JStr s) => Some s
  | _ => None
  end.

Definition zStringOptional (o : list (string * Js.Json)) (key : string)
  : option (option string) :=
  match Js.get key o with
  | None => Some None
  | Some (Js.JStr s) => Some (Some s)
  | Some _ => None
  end.

Definition zStringDefault (d : string) (o : list (string * Js.Json)) (key : string)
  : option string :=
  match Js.get key o with
  | None => Some d
  | Some (Js.JStr s) => Some s
  | Some _ => None
  end.

Definition zNumberPositive (o : list (string * Js.Json)) (key : string) : option Z :=
  match Js.get key o with
  | Some (Js.JNum n) => if 0 <? n then Some n else None
  | _ => None
  end.

Definition bind {A B : Type} (x : option A) (f : A -> option B) : option B :=
  match x with
  | Some a => f a
  | None => None
  end.

Notation "x <- c ;; k" := (bind c (fun x => k))
  (at level 61, c at next level, right associativity).

Definition bkashWebhookSchema (body : Js.Json) : option BkashData :=
  match body with
  | Js.JObj o =>
      txnId <- zString o "txnId" ;;
      amount <- zNumberPositive o "amount" ;;
      currency <- zStringDefault "BDT" o "currency" ;;
      status <- zString o "status" ;;
      date <- zString o "date" ;;
      customerMobile <- zStringOptional o "customerMobile" ;;
      merchantInvoiceNumber <- zStringOptional o "merchantInvoiceNumber" ;;
      signature <- zString o "signature" ;;
      Some (mkBkashData txnId amount currency status date customerMobile
                        merchantInvoiceNumber signature)
  | _ => None
  end.

Definition nagadWebhookSchema (body : Js.Json) : option NagadData :=
  match body with
  | Js.JObj o =>
      paymentRefId <- zString o "paymentRefId" ;;
      amount <- zNumberPositive o "amount" ;;
      currency <- zStringDefault "BDT" o "currency" ;;
      status <- zString o "status" ;;
      dateTime <- zString o "dateTime" ;;
      customerMobile <- zStringOptional o "customerMobile" ;;
      orderId <- zStringOptional o "orderId" ;;
      signature <- zString o "signature" ;;
      Some (mkNagadData paymentRefId amount currency status dateTime customerMobile
                        orderId signature)
  | _ => None
  end.

(** [errorHandler] on what the route handlers can throw. *)
Definition errorHandler (e : PrismaError) : Response :=
  match e with
  | P2002 => mkResponse 400 (HandlerError "Unique constraint violation")
  | P2025 => mkResponse 404 (HandlerError "Record not found")
  | PrismaValidationError => mkResponse 500 (HandlerError "Internal Server Error")
  end.

Section Routes.

Variable webhookLog_unique : bool.
Variable Date_getTime : string -> option Z.
Variable env : Env.

(** The handler behind the middleware: parse, process, answer. *)
Definition handle {D : Type} (schema : Js.Json -> option D)
           (process : D -> Prog ProcessResult) (req : Request) (s : Store)
  : Response * Store :=
  match schema (body req) with
  | None => (mkResponse 400 (HandlerError "Invalid webhook payload"), s)
  | Some data =>
      match run webhookLog_unique (process data) s with
      | (inr result, s') =>
          (mkResponse 200 (Processed (matched result) (collectionId result)), s')
      | (inl e, s') => (errorHandler e, s')
      end
  end.

(** [router.post('/bkash', verifyWebhookSignature('bkash'), ...)] and
    [router.post('/nagad', verifyWebhookSignature('nagad'), ...)], each
    served with no other request in between. *)
Definition post (provider : Provider) (now : Z) (req : Request) (s : Store)
  : Response * Store :=
  match verifyWebhookSignature provider env now req with
  | Respond res => (res, s)
  | Next =>
      match provider with
      | bkash => handle bkashWebhookSchema (processBkashWebhook Date_getTime now) req s
      | nagad => handle nagadWebhookSchema (processNagadWebhook Date_getTime now) req s
      end
  end.

End Routes.

End Gateway.

(* ===================================================================== *)
(** ** The SLA sweep: the SQL function [check_sla_breaches] *)
(* ===================================================================== *)

Module Sla.

Definition Id := nat.

Inductive collection_type := CASH | BANK_DEPOSIT | BKASH | NAGAD.
Inductive collection_status := PENDING | APPROVED | REJECTED.
Inductive alert_severity := INFO | WARNING | ERROR | CRITICAL.
Inductive breach_kind := DEPOSIT_DELAY | NO_UPDATE.

(** The columns the function reads.  Instants are whole seconds since the
    epoch.  [depositHours] and [updateDays] hold the integer that the text
    [sla_settings->>'...'] denotes, before the cast to [INTEGER]; [None]
    when the key is absent (the text is NULL). *)
Record collections_row : Type := mkCollectionRow
  { account_id : Id;
    type : collection_type;
    status : collection_status;
    created_at : Z }.

Record accounts_row : Type := mkAccountRow
  { id : Id;
    bank_id : Id;
    last_contact_date : option Z;
    acc_created_at : Z }.

Record banks_row : Type := mkBankRow
  { bank : Id;
    depositHours : option Z;
    updateDays : option Z }.

Record breach : Type := mkBreach
  { breach_account_id : Id;
    breach_type : breach_kind;
    breach_hours : Z;
    severity : alert_severity }.

Definition COALESCE (v : option Z) (d : Z) : Z :=
  match v with Some x => x | None => d end.

(** PostgreSQL's [integer] is 32 bits wide and its arithmetic does not wrap:
    a cast or a product that leaves the range raises "integer out of range",
    and the error aborts the function.  [None] is the raised error. *)
Definition int4 (z : Z) : option Z :=
  if (-2147483648 <=? z) && (z <=? 2147483647) then Some z else None.

Definition is_deposit_style (t : collection_type) : bool :=
  match t with CASH | BANK_DEPOSIT => true | _ => false end.

Definition is_pending (s : collection_status) : bool :=
  match s with PENDING => true | _ => false end.

(** [CASE WHEN e > 172800 THEN 'CRITICAL' WHEN e > 86400 THEN 'ERROR'
     ELSE 'WARNING' END] *)
Definition deposit_severity (elapsed : Z) : alert_severity :=
  if elapsed >? 172800 then CRITICAL
  else if elapsed >? 86400 then ERROR
  else WARNING.

Definition update_severity (elapsed : Z) : alert_severity :=
  if elapsed >? 1209600 then CRITICAL
  else if elapsed >? 604800 then ERROR
  else WARNING.

(** [COALESCE((b.sla_settings->>'depositHours')::INTEGER * 3600, 172800)]:
    the cast and the product are [integer]. *)
Definition deposit_limit (b : banks_row) : option Z :=
  match depositHours b with
  | None => Some 172800
  | Some h =>
      match int4 h with
      | Some hours => int4 (hours * 3600)
      | None => None
      end
  end.

(** [COALESCE((b.sla_settings->>'updateDays')::INTEGER * 86400, 604800)] *)
Definition update_limit (b : banks_row) : option Z :=
  match updateDays b with
  | None => Some 604800
  | Some d =>
      match int4 d with
      | Some days => int4 (days * 86400)
      | None => None
      end
  end.

(** The rows of a query: those of each joined row in turn, unless the
    evaluation of one of them raises. *)
Fixpoint gather {A : Type} (f : A -> option (list breach)) (l : list A)
  : option (list breach) :=
  match l with
  | [] => Some []
  | x :: rest =>
      match f x with
      | None => None
      | Some rows =>
          match gather f rest with
          | None => None
          | Some more => Some (rows ++ more)
          end
      end
  end.

Section Sweep.

Variable NOW : Z.
Variable collections : list collections_row.
Variable accounts : list accounts_row.
Variable banks : list banks_row.

(** [JOIN banks b ON a.bank_id = b.id] *)
Definition banks_of (a : accounts_row) : list banks_row :=
  filter (fun b => Nat.eqb (bank_id a) (bank b)) banks.

(** [JOIN accounts a ON c.account_id = a.id] *)
Definition accounts_of (c : collections_row) : list accounts_row :=
  filter (fun a => Nat.eqb (account_id c) (id a)) accounts.

(** One joined row of the first query.  The limit is computed for the
    joined rows that pass the tests on [status] and [type], and the select
    list for the rows that pass the whole WHERE clause: these are the rows
    for which every plan of the query has to compute them.  PostgreSQL does
    not fix the order in which the conditions are evaluated, so a plan may
    compute a limit for further pairs of a collection and a bank, and raise
    where this definition returns; no plan raises when the limit of every
    bank and the age of every row fit [integer].
    [EXTRACT(EPOCH FROM ...)::INTEGER / 3600] casts the age to [integer]
    and then divides, truncating. *)
Definition deposit_row (c : collections_row) (b : banks_row) : option (list breach) :=
  let elapsed := NOW - created_at c in
  if is_pending (status c) && is_deposit_style (type c) then
    match deposit_limit b with
    | None => None
    | Some limit =>
        if elapsed >? limit then
          match int4 elapsed with
          | Some seconds =>
              Some [mkBreach (account_id c) DEPOSIT_DELAY (Z.quot seconds 3600)
                             (deposit_severity elapsed)]
          | None => None
          end
        else Some []
    end
  else Some [].

Definition deposit_breaches : option (list breach) :=
  gather (fun c =>
    gather (fun a => gather (deposit_row c) (banks_of a)) (accounts_of c))
  collections.

(** One joined row of the second query. *)
Definition update_row (a : accounts_row) (b : banks_row) : option (list breach) :=
  let elapsed := NOW - COALESCE (last_contact_date a) (acc_created_at a) in
  match update_limit b with
  | None => None
  | Some limit =>
      if elapsed >? limit then
        match int4 elapsed with
        | Some seconds =>
            Some [mkBreach (id a) NO_UPDATE (Z.quot seconds 3600)
                           (update_severity elapsed)]
        | None => None
        end
      else Some []
  end.

Definition update_breaches : option (list breach) :=
  gather (fun a => gather (update_row a) (banks_of a)) accounts.

(** The two [RETURN QUERY] blocks, in order; an error in either leaves the
    caller without any row. *)
Definition check_sla_breaches : option (list breach) :=
  match deposit_breaches with
  | None => None
  | Some deposits =>
      match update_breaches with
      | None => None
      | Some updates => Some (deposits ++ updates)
      end
  end.

End Sweep.

(** What the caller of [SELECT * FROM check_sla_breaches()] receives: the
    rows, and none when the call raised. *)
Definition returned (r : option (list breach)) : list breach :=
  match r with
  | Some rows => rows
  | None => []
  end.

(** What [n] runs of the sweep return, one run after the other, over the
    same tables at the same instant. *)
Fixpoint runs (n : nat) (NOW : Z) (cs : list collections_row)
         (accs : list accounts_row) (bs : list banks_row) : list breach :=
  match n with
  | O => []
  | S n' => returned (check_sla_breaches NOW cs accs bs) ++ runs n' NOW cs accs bs
  end.

(** The severity rule in the specification's words, read on the overrun
    ([elapsed - SLA]) and read on the elapsed time itself. *)
Definition spec_severity_by_overrun (sla elapsed : Z) : alert_severity :=
  if elapsed - sla <? 1 * sla then WARNING
  else if elapsed - sla <? 2 * sla then ERROR
  else CRITICAL.

Definition spec_severity_by_elapsed (sla elapsed : Z) : alert_severity :=
  if elapsed >? 2 * sla then CRITICAL
  else if elapsed >? 1 * sla then ERROR
  else WARNING.

End Sla.

(* ===================================================================== *)
(** ** The alert worker *)
(* ===================================================================== *)

Module Alerts.

Definition Id := nat.

Inductive AlertType := SLA_BREACH | VARIANCE | MISSED_PTP | HIGH_OVERDUE | NO_UPDATE.
Inductive Severity := INFO | WARNING | ERROR | CRITICAL.
Inductive Role := ADMIN | AGENT | AUDITOR.

Definition typeName (t : AlertType) : string :=
  match t with
  | SLA_BREACH => "SLA_BREACH"
  | VARIANCE => "VARIANCE"
  | MISSED_PTP => "MISSED_PTP"
  | HIGH_OVERDUE => "HIGH_OVERDUE"
  | NO_UPDATE => "NO_UPDATE"
  end.

Record AlertJobData : Type := mkJob
  { job_type : AlertType;
    job_accountId : option Id;
    job_agentId : option Id;
    job_data : list (string * Js.Json) }.

Record Alert : Type := mkAlert
  { alert_id : Id;
    alert_type : AlertType;
    title : string;
    description : string;
    severity : Severity;
    accountId : option Id;
    agentId : option Id;
    data : list (string * Js.Json);
    createdAt : Z }.

Record User : Type := mkUser
  { user_id : Id; email : string; role : Role; isActive : bool }.

Record Agent : Type := mkAgent
  { agent_id : Id; agent_userId : Id }.

(** The [data] of an [alert-notification] mail. *)
Record AlertMail : Type := mkAlertMail
  { alertType : AlertType;
    mail_title : string;
    mail_description : string;
    mail_severity : Severity;
    alertData : list (string * Js.Json) }.

Record EmailJob : Type := mkEmail
  { to : list string; subject : string; template : string; mail : AlertMail }.

Record WorkerStore : Type := mkWorkerStore
  { alerts : list Alert;
    users : list User;
    agents : list Agent;
    emailQueue : list EmailJob }.

Definition field (d : list (string * Js.Json)) (key : string) : string :=
  Js.interpolate (Js.get key d).

Definition cat (parts : list string) : string :=
  fold_right String.append "" parts.

Definition generateAlertTitle (t : AlertType) (d : list (string * Js.Json)) : string :=
  match t with
  | SLA_BREACH => cat ["SLA Breach: Account "; field d "fileNo"]
  | MISSED_PTP => cat ["Missed PTP: Account "; field d "fileNo"]
  | HIGH_OVERDUE => cat ["High Overdue Amount: Account "; field d "fileNo"]
  | NO_UPDATE => cat ["No Recent Updates: Account "; field d "fileNo"]
  | VARIANCE => cat ["System Alert: "; typeName t]
  end.

Definition taka : string := String (ascii_of_N 224) (String (ascii_of_N 167) (String (ascii_of_N 179) "")).

Definition generateAlertDescription (t : AlertType) (d : list (string * Js.Json)) : string :=
  match t with
  | SLA_BREACH =>
      cat ["Account "; field d "fileNo";
           " has breached SLA requirements. No update for ";
           field d "daysSinceUpdate"; " days."]
  | MISSED_PTP =>
      cat ["Account "; field d "fileNo"; " missed PTP date "; field d "ptpDate";
           ". Amount: "; taka; field d "ptpAmount"]
  | HIGH_OVERDUE =>
      cat ["Account "; field d "fileNo"; " has high overdue amount: "; taka;
           field d "overdueAmount"]
  | NO_UPDATE | VARIANCE => cat ["Alert triggered for "; typeName t]
  end.

Definition getAlertSeverity (t : AlertType) : Severity :=
  match t with
  | SLA_BREACH | MISSED_PTP => ERROR
  | HIGH_OVERDUE => CRITICAL
  | NO_UPDATE | VARIANCE => WARNING
  end.

(** [[...new Set(recipients)]]: first occurrences, in order. *)
Fixpoint unique (seen l : list string) : list string :=
  match l with
  | [] => []
  | x :: r =>
      if existsb (String.eqb x) seen then unique seen r
      else x :: unique (x :: seen) r
  end.

Definition getAlertRecipients (s : WorkerStore) (agentId : option Id) : list string :=
  let admins :=
    map email
        (filter (fun u => match role u with ADMIN => isActive u | _ => false end)
                (users s)) in
  let agentMail :=
    match agentId with
    | None => []
    | Some aid =>
        match find (fun a => Nat.eqb (agent_id a) aid) (agents s) with
        | None => []
        | Some a =>
            match find (fun u => Nat.eqb (user_id u) (agent_userId a)) (users s) with
            | Some u => if String.eqb (email u) "" then [] else [email u]
            | None => []
            end
        end
    end in
  unique [] (admins ++ agentMail).

(** The processor of the [alert-processing] queue, one job; [now] is the
    creation instant of the alert row. *)
Definition alertWorker (now : Z) (job : AlertJobData) (s : WorkerStore) : WorkerStore :=
  let alert :=
    mkAlert (S (list_max (map alert_id (alerts s))))
            (job_type job)
            (generateAlertTitle (job_type job) (job_data job))
            (generateAlertDescription (job_type job) (job_data job))
            (getAlertSeverity (job_type job))
            (job_accountId job) (job_agentId job) (job_data job) now in
  let recipients := getAlertRecipients s (job_agentId job) in
  let mails :=
    match recipients with
    | [] => []
    | _ => [mkEmail recipients (cat ["Alert: "; title alert]) "alert-notification"
                    (mkAlertMail (job_type job) (title alert) (description alert)
                                 (severity alert) (job_data job))]
    end in
  mkWorkerStore (alerts s ++ [alert]) (users s) (agents s) (emailQueue s ++ mails).

(** Jobs taken from the queue one after the other. *)
Definition processAll (now : Z) (jobs : list AlertJobData) (s : WorkerStore) : WorkerStore :=
  fold_left (fun st job => alertWorker now job st) jobs s.

Definition MS_PER_DAY : Z := 86400000.

(** The (type, account, day) combination of an alert row. *)
Definition combination (a : Alert) : AlertType * option Id * Z :=
  (alert_type a, accountId a, createdAt a / MS_PER_DAY).

End Alerts.

(* ===================================================================== *)
(** ** A [Date] reader for the format [toISOString] prints *)
(* ===================================================================== *)

Module Iso.

(** [YYYY-MM-DDTHH:mm:ss.sssZ] to milliseconds since the epoch; any other
    text is [None].  It instantiates [Date_getTime] in the worked
    examples; the general results hold for every reader. *)
Definition num2 (a b : ascii) : option Z :=
  match Js.dec_value a, Js.dec_value b with
  | Some x, Some y => Some (10 * x + y)
  | _, _ => None
  end.

Definition days_from_civil (y m d : Z) : Z :=
  let y' := if m <=? 2 then y - 1 else y in
  let era := y' / 400 in
  let yoe := y' - era * 400 in
  let mp := (m + 9) mod 12 in
  let doy := (153 * mp + 2) / 5 + d - 1 in
  let doe := yoe * 365 + yoe / 4 - yoe / 100 + doy in
  era * 146097 + doe - 719468.

Definition days_in_month (y m : Z) : Z :=
  if m =? 2 then
    if ((y mod 4 =? 0) && negb (y mod 100 =? 0)) || (y mod 400 =? 0) then 29 else 28
  else if (m =? 4) || (m =? 6) || (m =? 9) || (m =? 11) then 30
  else 31.

Definition getTime (s : string) : option Z :=
  match list_ascii_of_string s with
  | [y1; y2; y3; y4; "-"; m1; m2; "-"; d1; d2; "T"; h1; h2; ":"; i1; i2; ":";
     s1; s2; "."; f1; f2; f3; "Z"]%char =>
      match num2 y1 y2, num2 y3 y4, num2 m1 m2, num2 d1 d2, num2 h1 h2,
            num2 i1 i2, num2 s1 s2, num2 "0" f1, num2 f2 f3 with
      | Some yh, Some yl, Some m, Some d, Some h, Some i, Some sec, Some fh, Some fl =>
          let y := 100 * yh + yl in
          if (1 <=? m) && (m <=? 12) && (1 <=? d) && (d <=? days_in_month y m)
             && (h <=? 23) && (i <=? 59) && (sec <=? 59)
          then Some ((((days_from_civil y m d * 24 + h) * 60 + i) * 60 + sec) * 1000
                     + 100 * fh + fl)
          else None
      | _, _, _, _, _, _, _, _, _ => None
      end
  | _ => None
  end.

End Iso.

(* ===================================================================== *)
(** ** The collection schemas and the manual verification route *)
(* ===================================================================== *)

Module Validation.

Import Ledger.

(** Output of [createCollectionSchema.parse]. *)
Record CollectionInput : Type := mkCollectionInput
  { in_type : CollectionType;
    in_amount : Z;
    in_collectionDate : string;
    in_txnId : option string;
    in_slipNo : option string;
    in_cashReceipt : option string;
    in_proofImages : option (list string) }.

(** Output of [verifyCollectionSchema.parse]. *)
Record VerifyInput : Type := mkVerifyInput
  { v_status : CollectionStatus;
    v_rejectionReason : option string }.

(** [z.enum(['BKASH', 'NAGAD', 'CASH', 'BANK_DEPOSIT'])] *)
Definition zCollectionType (o : list (string * Js.Json)) (key : string)
  : option CollectionType :=
  match Js.get key o with
  | Some (Js.JStr s) =>
      if String.eqb s "BKASH" then Some BKASH
      else if String.eqb s "NAGAD" then Some NAGAD
      else if String.eqb s "CASH" then Some CASH
      else if String.eqb s "BANK_DEPOSIT" then Some BANK_DEPOSIT
      else None
  | _ => None
  end.

(** [z.enum(['APPROVED', 'REJECTED'])] *)
Definition zVerdict (o : list (string * Js.Json)) (key : string)
  : option CollectionStatus :=
  match Js.get key o with
  | Some (Js.JStr s) =>
      if String.eqb s "APPROVED" then Some APPROVED
      else if String.eqb s "REJECTED" then Some REJECTED
      else None
  | _ => None
  end.

(** [z.array(z.string()).optional()] *)
Fixpoint allStrings (items : list Js.Json) : option (list string) :=
  match items with
  | [] => Some []
  | Js.JStr s :: rest =>
      match allStrings rest with
      | Some l => Some (s :: l)
      | None => None
      end
  | _ :: _ => None
  end.

Definition zStringArrayOptional (o : list (string * Js.Json)) (key : string)
  : option (option (list string)) :=
  match Js.get key o with
  | None => Some None
  | Some (Js.JArr items) => option_map Some (allStrings items)
  | Some _ => None
  end.

(** [!!value] on an optional string. *)
Definition present (v : option string) : bool :=
  match Js.truthy v with
  | Some _ => true
  | None => false
  end.

Section Schemas.

(** [z.string().datetime()]: zod's test of an ISO 8601 date-time text. *)
Variable isDatetime : string -> bool.

Definition zDatetime (o : list (string * Js.Json)) (key : string) : option string :=
  match Js.get key o with
  | Some (Js.JStr s) => if isDatetime s then Some s else None
  | _ => None
  end.

(** The [refine] of [createCollectionSchema]. *)
Definition requiredFieldsPresent (data : CollectionInput) : bool :=
  match in_type data with
  | BKASH | NAGAD => present (in_txnId data)
  | BANK_DEPOSIT => present (in_slipNo data)
  | CASH => present (in_cashReceipt data)
  end.

Definition createCollectionSchema (body : Js.Json) : option CollectionInput :=
  match body with
  | Js.JObj o =>
      Gateway.bind (zCollectionType o "type") (fun type =>
      Gateway.bind (Gateway.zNumberPositive o "amount") (fun amount =>
      Gateway.bind (zDatetime o "collectionDate") (fun collectionDate =>
      Gateway.bind (Gateway.zStringOptional o "txnId") (fun txnId =>
      Gateway.bind (Gateway.zStringOptional o "slipNo") (fun slipNo =>
      Gateway.bind (Gateway.zStringOptional o "cashReceipt") (fun cashReceipt =>
      Gateway.bind (zStringArrayOptional o "proofImages") (fun proofImages =>
      let data := mkCollectionInput type amount collectionDate txnId slipNo
                                    cashReceipt proofImages in
      if requiredFieldsPresent data then Some data else None)))))))
  | _ => None
  end.

End Schemas.

(** The [refine] of [verifyCollectionSchema]. *)
Definition reasonGiven (data : VerifyInput) : bool :=
  match v_status data with
  | REJECTED => present (v_rejectionReason data)
  | _ => true
  end.

Definition verifyCollectionSchema (body : Js.Json) : option VerifyInput :=
  match body with
  | Js.JObj o =>
      Gateway.bind (zVerdict o "status") (fun status =>
      Gateway.bind (Gateway.zStringOptional o "rejectionReason") (fun rejectionReason =>
      let data := mkVerifyInput status rejectionReason in
      if reasonGiven data then Some data else None))
  | _ => None
  end.

End Validation.

Module Verify.

Import Ledger Validation.

(** The columns of [collection] that only the verification route writes,
    kept beside the store: the entry of a row is the last one with its id. *)
Record VerifiedColumns : Type := mkVerified
  { vc_collectionId : Id;
    rejectionReason : option string;
    verifiedById : Id;
    verifiedAt : Z }.

Record EventLog : Type := mkEventLog
  { ev_userId : Id;
    ev_action : string;
    ev_resource : string;
    ev_resourceId : Id;
    ev_oldStatus : CollectionStatus;
    ev_newStatus : CollectionStatus;
    ev_newRejectionReason : option string;
    ev_ipAddress : string;
    ev_userAgent : option string }.

Record Office : Type := mkOffice
  { store : Store;
    verified : list VerifiedColumns;
    eventLogs : list EventLog }.

(** What the auth middleware and express leave on the request. *)
Record Caller : Type := mkCaller
  { userId : Id;
    ip : string;
    userAgentHeader : option string }.

Inductive VerifyResponse : Type :=
| Updated (collection : Collection) (columns : VerifiedColumns)   (* 200, the row *)
| ValidationError                                                (* 400, from the ZodError *)
| NotFound                                                       (* 404 "Collection not found" *)
| AlreadyVerified (currentStatus : CollectionStatus).            (* 400 *)

Definition verifyStatusCode (r : VerifyResponse) : Z :=
  match r with
  | Updated _ _ => 200
  | ValidationError => 400
  | NotFound => 404
  | AlreadyVerified _ => 400
  end.

(** [data: { status, rejectionReason, verifiedById, verifiedAt }] on the
    columns the store keeps. *)
Definition withStatus (status : CollectionStatus) (c : Collection) : Collection :=
  mkCollection (c_id c) (c_accountId c) (c_type c) (c_amount c) (c_collectionDate c)
               (c_txnId c) status (c_isMatched c) (c_webhookData c) (c_createdAt c).

(** [POST /:id/verify] once [requireAdminOrAuditor] and [idParamSchema]
    have let the request through; [now] is the reading of [new Date()]. *)
Definition verifyRoute (caller : Caller) (now : Z) (id : Id) (body : Js.Json)
           (o : Office) : VerifyResponse * Office :=
  match verifyCollectionSchema body with
  | None => (ValidationError, o)
  | Some input =>
      match find (fun c => Nat.eqb (c_id c) id) (collections (store o)) with
      | None => (NotFound, o)
      | Some existingCollection =>
          match c_status existingCollection with
          | PENDING =>
              let columns :=
                mkVerified id
                  (match v_status input with
                   | REJECTED => v_rejectionReason input
                   | _ => None
                   end)
                  (userId caller) now in
              let s := store o in
              let s' := mkStore (updateWhereId id (withStatus (v_status input)) (collections s))
                                (webhookLogs s) (reconciliations s) (queries s) in
              let event :=
                mkEventLog (userId caller) "UPDATE" "collection" id
                           (c_status existingCollection) (v_status input)
                           (v_rejectionReason input) (ip caller) (userAgentHeader caller) in
              (Updated (withStatus (v_status input) existingCollection) columns,
               mkOffice s' (verified o ++ [columns]) (eventLogs o ++ [event]))
          | currentStatus => (AlreadyVerified currentStatus, o)
          end
      end
  end.

(** Webhook deliveries and manual verifications, one after the other. *)
Inductive Action : Type :=
| Delivered (provider : CollectionType) (now : Z) (txnId : string) (amount : Z)
            (status date : string) (payload : Payload)
| Verified (caller : Caller) (now : Z) (id : Id) (body : Js.Json).

Definition act (webhookLog_unique : bool) (Date_getTime : string -> option Z)
           (a : Action) (o : Office) : Office :=
  match a with
  | Delivered provider now txnId amount status date payload =>
      mkOffice
        (snd (run webhookLog_unique
                  (processWebhook Date_getTime now provider txnId amount status date payload)
                  (store o)))
        (verified o) (eventLogs o)
  | Verified caller now id body => snd (verifyRoute caller now id body o)
  end.

Definition actAll (webhookLog_unique : bool) (Date_getTime : string -> option Z)
           (actions : list Action) (o : Office) : Office :=
  fold_left (fun st a => act webhookLog_unique Date_getTime a st) actions o.

End Verify.

(* ===================================================================== *)
(** * Properties *)
(* ===================================================================== *)

(** ** The primitives *)

Module CryptoFacts.

Import Crypto.

Example constants_as_published :
  List.length K256 = 64%nat /\ nth 0 K256 0 = 0x428a2f98 /\ nth 63 K256 0 = 0xc67178f2
  /\ ha H0 = 0x6a09e667 /\ hh H0 = 0x5be0cd19.
Proof. repeat split. Qed.

(** Published test vectors (FIPS 180-4, RFC 4231). *)
Example sha256_empty :
  toString_hex (sha256 []) =
  "e3b0c44298fc1c149afbf4c8996fb92427ae41e4649b934ca495991b7852b855".
Proof. vm_compute. reflexivity. Qed.

Example sha256_abc :
  toString_hex (sha256 (Buffer_from_utf8 "abc")) =
  "ba7816bf8f01cfea414140de5dae2223b00361a396177a9cb410ff61f20015ad".
Proof. vm_compute. reflexivity. Qed.

Example sha256_two_blocks :
  toString_hex (sha256 (Buffer_from_utf8
    "abcdbcdecdefdefgefghfghighijhijkijkljklmklmnlmnomnopnopq")) =
  "248d6a61d20638b8e5c026930c3e6039a33ce45964ff2167f6ecedd419db06c1".
Proof. vm_compute. reflexivity. Qed.

Example hmac_sha256_fox :
  hmac_hex "key" "The quick brown fox jumps over the lazy dog" =
  "f7bc83f430538424b13298e6aa6fb143ef4d59a14946175997479dbc2d1a3cd8".
Proof. vm_compute. reflexivity. Qed.

Example hmac_sha256_rfc4231_2 :
  hmac_hex "Jefe" "what do ya want for nothing?" =
  "5bdcc146bf60754e6a042426089575c75a003f089d2739839dec58b964ec3843".
Proof. vm_compute. reflexivity. Qed.


Lemma sha256_length (msg : Buffer) : List.length (sha256 msg) = 32%nat.
Proof. reflexivity. Qed.

Lemma hmac_sha256_length (key msg : Buffer) :
  List.length (hmac_sha256 key msg) = 32%nat.
Proof. unfold hmac_sha256. apply sha256_length. Qed.

Lemma hex_pair (x : byte) (rest : string) :
  Buffer_from_hex
    (String (hex_digit (Z_of_byte x / 16))
       (String (hex_digit (Z_of_byte x mod 16)) rest))
  = x :: Buffer_from_hex rest.
Proof. destruct x; reflexivity. Qed.

(** Reading back what [digest('hex')] printed gives the digest. *)
Lemma Buffer_from_hex_toString (b : Buffer) :
  Buffer_from_hex (toString_hex b) = b.
Proof.
  induction b as [|x b IH]; [reflexivity|].
  cbn [toString_hex]. rewrite hex_pair, IH. reflexivity.
Qed.

Lemma buffer_eqb_eq (a b : Buffer) : buffer_eqb a b = true <-> a = b.
Proof.
  revert b. induction a as [|x a IH]; intros [|y b]; simpl; split;
    try congruence; try reflexivity.
  - intros H. apply andb_prop in H as [Hxy Hab].
    apply Byte.byte_dec_bl in Hxy. apply IH in Hab. congruence.
  - intros H. injection H as -> ->.
    rewrite (proj2 (IH b) eq_refl), andb_true_r.
    apply Byte.byte_dec_lb. reflexivity.
Qed.

End CryptoFacts.

(** ** The gateway *)

Module GatewayFacts.

Import Ledger Gateway.

Definition digestOf (secret : string) (req : Request) : Crypto.Buffer :=
  Crypto.hmac_sha256 (Crypto.Buffer_from_utf8 secret)
    (Crypto.Buffer_from_utf8 (signedPayload (timestampHeader req) (body req))).

Definition providedBytes (signature : string) : Crypto.Buffer :=
  Crypto.Buffer_from_hex (providedSignature signature).

Lemma expected_decoded (secret : string) (req : Request) :
  Crypto.Buffer_from_hex (expectedSignature secret (timestampHeader req) (body req))
  = digestOf secret req.
Proof. apply CryptoFacts.Buffer_from_hex_toString. Qed.

(** The middleware once a signature header and a secret are there: the
    comparison of the decoded header with the digest decides. *)
Lemma verify_compare provider env now req signature secret :
  signatureHeader req = Some signature ->
  Js.truthy (secretOf provider env) = Some secret ->
  verifyWebhookSignature provider env now req =
  match Crypto.timingSafeEqual (digestOf secret req) (providedBytes signature) with
  | None => Respond (mkResponse 500 (Failure "Signature verification failed"))
  | Some false => Respond (mkResponse 401 (Failure "Invalid signature"))
  | Some true => checkTimestamp (timestampHeader req) now
  end.
Proof.
  intros Hsig Hsec. unfold verifyWebhookSignature.
  rewrite Hsig, Hsec, expected_decoded. reflexivity.
Qed.

Lemma timingSafeEqual_throws (a b : Crypto.Buffer) :
  List.length a <> List.length b -> Crypto.timingSafeEqual a b = None.
Proof.
  intros H. unfold Crypto.timingSafeEqual.
  destruct (Nat.eqb_spec (List.length a) (List.length b)); [contradiction|reflexivity].
Qed.

Lemma timingSafeEqual_differ (a b : Crypto.Buffer) :
  List.length a = List.length b -> a <> b -> Crypto.timingSafeEqual a b = Some false.
Proof.
  intros Hl Hne. unfold Crypto.timingSafeEqual. rewrite Hl, Nat.eqb_refl.
  destruct (Crypto.buffer_eqb a b) eqn:E; [|reflexivity].
  apply CryptoFacts.buffer_eqb_eq in E. contradiction.
Qed.

Lemma timingSafeEqual_same (a : Crypto.Buffer) :
  Crypto.timingSafeEqual a a = Some true.
Proof.
  unfold Crypto.timingSafeEqual. rewrite Nat.eqb_refl.
  rewrite (proj2 (CryptoFacts.buffer_eqb_eq a a) eq_refl). reflexivity.
Qed.

Lemma post_rejected uniq D env provider now req s res :
  verifyWebhookSignature provider env now req = Respond res ->
  post uniq D env provider now req s = (res, s).
Proof. intros H. unfold post. rewrite H. reflexivity. Qed.

(** A worked request: provider bKash, secret [whsec_bkash], no timestamp
    header, signed by the provider over the serialised body. *)
Definition env0 : Env := mkEnv (Some "whsec_bkash") (Some "whsec_nagad").

Definition body0 : Js.Json :=
  Js.JObj [ ("txnId", Js.JStr "X1"); ("amount", Js.JNum 10000);
            ("currency", Js.JStr "BDT"); ("status", Js.JStr "SUCCESS");
            ("date", Js.JStr "2024-03-01T13:00:00.000Z");
            ("signature", Js.JStr "sig") ].

Definition sign (secret : string) (body : Js.Json) : string :=
  String.append "sha256=" (expectedSignature secret None body).

Definition signed0 : Request :=
  mkRequest [("x-signature", sign "whsec_bkash" body0)] body0.

(** The same signature over a body whose amount was altered. *)
Definition tampered0 : Request :=
  mkRequest (headers signed0)
    (Js.JObj [ ("txnId", Js.JStr "X1"); ("amount", Js.JNum 90000);
               ("currency", Js.JStr "BDT"); ("status", Js.JStr "SUCCESS");
               ("date", Js.JStr "2024-03-01T13:00:00.000Z");
               ("signature", Js.JStr "sig") ]).

(** A signature header that decodes to two bytes. *)
Definition short0 : Request := mkRequest [("x-signature", "sha256=abcd")] body0.

Example signed0_passes : verifyWebhookSignature bkash env0 0 signed0 = Next.
Proof. vm_compute. reflexivity. Qed.

Example tampered0_rejected uniq D s :
  post uniq D env0 bkash 0 tampered0 s
  = (mkResponse 401 (Failure "Invalid signature"), s).
Proof. apply post_rejected. vm_compute. reflexivity. Qed.

(** [signature.replace('sha256=', '')] removes the prefix when the header
    starts with it, and leaves a header in which the text does not occur as
    it is. *)
Fixpoint occurs (pat s : string) : bool :=
  String.prefix pat s
  || match s with
     | EmptyString => false
     | String _ s' => occurs pat s'
     end.

Lemma providedSignature_prefixed (hex : string) :
  providedSignature (String.append "sha256=" hex) = hex.
Proof. destruct hex; reflexivity. Qed.

Lemma providedSignature_plain (signature : string) :
  occurs "sha256=" signature = false -> providedSignature signature = signature.
Proof.
  unfold providedSignature.
  induction signature as [|c s IH]; intros H.
  - reflexivity.
  - cbn [occurs] in H. apply orb_false_elim in H as [Hp Ho].
    cbn [Js.replace]. rewrite Hp. now rewrite (IH Ho).
Qed.

(** C10.  A signature header that, once ["sha256="] is removed and the rest
    read as hex, is not 32 bytes long makes the comparison throw, and the
    gateway answers 500 "Signature verification failed"; a 32-byte
    signature that differs from the digest is answered 401.  In both cases
    the store is left as it was. *)
Theorem C10_length_mismatch_is_500 uniq D env provider now req s signature secret :
  signatureHeader req = Some signature ->
  Js.truthy (secretOf provider env) = Some secret ->
  (List.length (providedBytes signature) <> 32%nat ->
     Crypto.timingSafeEqual (digestOf secret req) (providedBytes signature) = None
     /\ post uniq D env provider now req s
        = (mkResponse 500 (Failure "Signature verification failed"), s))
  /\ (List.length (providedBytes signature) = 32%nat ->
      providedBytes signature <> digestOf secret req ->
      post uniq D env provider now req s
      = (mkResponse 401 (Failure "Invalid signature"), s)).
Proof.
  intros Hsig Hsec. split.
  - intros Hlen.
    assert (Hthrow : Crypto.timingSafeEqual (digestOf secret req) (providedBytes signature) = None).
    { apply timingSafeEqual_throws. unfold digestOf.
      rewrite CryptoFacts.hmac_sha256_length. congruence. }
    split; [exact Hthrow|].
    apply post_rejected. rewrite (verify_compare _ _ _ _ _ _ Hsig Hsec), Hthrow.
    reflexivity.
  - intros Hlen Hne. apply post_rejected.
    rewrite (verify_compare _ _ _ _ _ _ Hsig Hsec).
    rewrite timingSafeEqual_differ; [reflexivity| |congruence].
    unfold digestOf. rewrite CryptoFacts.hmac_sha256_length. congruence.
Qed.

Lemma C10_witness :
  let s := mkStore [] [] [] [] in
  (List.length (providedBytes "sha256=abcd") <> 32%nat ->
     Crypto.timingSafeEqual (digestOf "whsec_bkash" short0) (providedBytes "sha256=abcd") = None
     /\ post false Iso.getTime env0 bkash 0 short0 s
        = (mkResponse 500 (Failure "Signature verification failed"), s))
  /\ (List.length (providedBytes "sha256=abcd") = 32%nat ->
      providedBytes "sha256=abcd" <> digestOf "whsec_bkash" short0 ->
      post false Iso.getTime env0 bkash 0 short0 s
      = (mkResponse 401 (Failure "Invalid signature"), s)).
Proof.
  apply (C10_length_mismatch_is_500 false Iso.getTime env0 bkash 0 short0
           (mkStore [] [] [] []) "sha256=abcd" "whsec_bkash").
  - reflexivity.
  - reflexivity.
Defined.

Example short0_answer :
  List.length (providedBytes "sha256=abcd") = 2%nat
  /\ verifyWebhookSignature bkash env0 0 short0
     = Respond (mkResponse 500 (Failure "Signature verification failed")).
Proof. split; vm_compute; reflexivity. Qed.

Lemma timingSafeEqual_true (a b : Crypto.Buffer) :
  Crypto.timingSafeEqual a b = Some true -> a = b.
Proof.
  unfold Crypto.timingSafeEqual.
  destruct (Nat.eqb (List.length a) (List.length b)); [|discriminate].
  intros [= E]. now apply CryptoFacts.buffer_eqb_eq.
Qed.

(** The claim of C3 as stated: a signature that does not match is answered
    401 "Invalid signature" and nothing is persisted. *)
Definition mismatchAnswered401 (uniq : bool) (D : string -> option Z) (env : Env)
           (provider : Provider) (now : Z) (req : Request) (s : Store) : Prop :=
  forall signature secret,
    signatureHeader req = Some signature ->
    Js.truthy (secretOf provider env) = Some secret ->
    providedBytes signature <> digestOf secret req ->
    post uniq D env provider now req s
    = (mkResponse 401 (Failure "Invalid signature"), s).

(** C3.  The request [short0] carries the header [x-signature: sha256=abcd]
    for the secret [whsec_bkash].  The header decodes to two bytes, which
    cannot be the 32 bytes of the digest: it is a mismatch.  The comparison
    throws on the unequal lengths and the [catch] block answers 500
    "Signature verification failed", where the claim, the branch for a
    mismatch of equal length ([tampered0]: the same body with its amount
    altered after signing) and the route's documentation say 401.  Nothing
    is persisted in either case. *)
Theorem C3_short_signature_is_answered_500 :
  let s := mkStore [] [] [] [] in
  signatureHeader short0 = Some "sha256=abcd"
  /\ List.length (providedBytes "sha256=abcd") = 2%nat
  /\ List.length (digestOf "whsec_bkash" short0) = 32%nat
  /\ Crypto.timingSafeEqual (digestOf "whsec_bkash" short0) (providedBytes "sha256=abcd")
     = None
  /\ post false Iso.getTime env0 bkash 0 short0 s
     = (mkResponse 500 (Failure "Signature verification failed"), s)
  /\ post false Iso.getTime env0 bkash 0 tampered0 s
     = (mkResponse 401 (Failure "Invalid signature"), s)
  /\ ~ mismatchAnswered401 false Iso.getTime env0 bkash 0 short0 s.
Proof.
  cbv zeta.
  assert (E : post false Iso.getTime env0 bkash 0 short0 (mkStore [] [] [] [])
              = (mkResponse 500 (Failure "Signature verification failed"),
                 mkStore [] [] [] [])).
  { apply post_rejected. vm_compute. reflexivity. }
  split; [reflexivity|]. split; [reflexivity|].
  split; [apply CryptoFacts.hmac_sha256_length|].
  split; [apply timingSafeEqual_throws;
          unfold digestOf; rewrite CryptoFacts.hmac_sha256_length; discriminate|].
  split; [exact E|]. split; [apply tampered0_rejected|].
  intros H. specialize (H "sha256=abcd" "whsec_bkash" eq_refl eq_refl).
  assert (Hne : providedBytes "sha256=abcd" <> digestOf "whsec_bkash" short0).
  { intros Eq. apply (f_equal (@List.length byte)) in Eq.
    unfold digestOf in Eq. rewrite CryptoFacts.hmac_sha256_length in Eq.
    discriminate Eq. }
  specialize (H Hne). rewrite E in H. discriminate H.
Qed.

End GatewayFacts.

(** ** The ledger and the matcher *)

Module LedgerFacts.

Import Ledger.

Lemma CollectionType_eqb_eq a b : CollectionType_eqb a b = true <-> a = b.
Proof. destruct a, b; simpl; split; congruence. Qed.

Lemma CollectionStatus_eqb_eq a b : CollectionStatus_eqb a b = true <-> a = b.
Proof. destruct a, b; simpl; split; congruence. Qed.

Lemma whereTxnId_true type txnId c :
  whereTxnId type txnId c = true <->
  c_type c = type /\ c_txnId c = Some txnId /\ c_status c = PENDING.
Proof.
  unfold whereTxnId. rewrite !andb_true_iff, CollectionType_eqb_eq,
    CollectionStatus_eqb_eq.
  destruct (c_txnId c) as [t|].
  - rewrite String.eqb_eq. intuition congruence.
  - intuition congruence.
Qed.

Lemma whereAmount_true type amount lo hi c :
  whereAmount type amount lo hi c = true <->
  c_type c = type /\ c_amount c = amount
  /\ lo <= c_collectionDate c <= hi
  /\ c_status c = PENDING /\ c_isMatched c = false.
Proof.
  unfold whereAmount. rewrite !andb_true_iff, CollectionType_eqb_eq,
    CollectionStatus_eqb_eq, Z.eqb_eq, !Z.leb_le, negb_true_iff.
  intuition.
Qed.

Lemma oldest_None rows : oldest rows = None <-> rows = [].
Proof.
  destruct rows as [|c rest]; simpl; [tauto|].
  destruct (oldest rest) as [m|]; [destruct (c_createdAt c <=? c_createdAt m)|];
    split; discriminate.
Qed.

(** [oldest] returns a row of the list whose [createdAt] is least. *)
Lemma oldest_Some rows c :
  oldest rows = Some c ->
  In c rows /\ forall c', In c' rows -> c_createdAt c <= c_createdAt c'.
Proof.
  revert c. induction rows as [|x rest IH]; simpl; [discriminate|].
  intros c. destruct (oldest rest) as [m|] eqn:E.
  - destruct (IH m eq_refl) as [Hin Hmin].
    destruct (Z.leb_spec (c_createdAt x) (c_createdAt m)); intros [= <-].
    + split; [now left|]. intros c' [<-|Hc']; [lia|]. specialize (Hmin c' Hc'). lia.
    + split; [now right|]. intros c' [<-|Hc']; [lia|]. now apply Hmin.
  - apply oldest_None in E. subst rest. intros [= <-].
    split; [now left|]. intros c' [<-|[]]. lia.
Qed.

Lemma existsb_id rows c :
  In c rows -> existsb (fun x => Nat.eqb (c_id x) (c_id c)) rows = true.
Proof.
  intros H. apply existsb_exists. exists c. split; [exact H|apply Nat.eqb_refl].
Qed.

Lemma matchTypeOf_exact txnId c :
  c_txnId c = Some txnId -> matchTypeOf txnId c = EXACT.
Proof. intros H. unfold matchTypeOf. rewrite H, String.eqb_refl. reflexivity. Qed.

Lemma matchTypeOf_fuzzy txnId c :
  c_txnId c <> Some txnId -> matchTypeOf txnId c = FUZZY.
Proof.
  intros H. unfold matchTypeOf. destruct (c_txnId c) as [t|]; [|reflexivity].
  destruct (String.eqb_spec txnId t); [congruence|reflexivity].
Qed.

Section Runs.

Variable webhookLog_unique : bool.
Variable Date_getTime : string -> option Z.
Variable now : Z.

Variables (provider : CollectionType) (txnId : string) (amount : Z)
          (status date : string) (payload : Payload).

#[local] Abbreviation process :=
  (processWebhook Date_getTime now provider txnId amount status date payload).

(** The calls, as [processWebhook] issues them. *)
Definition qCreate : Query := WebhookLogCreate provider txnId amount status payload now.
Definition qExact : Query := CollectionFindByTxnId provider txnId.
Definition qFuzzy : Query :=
  CollectionFindByAmount provider amount
    (option_map (fun t => t - DAY_MS) (Date_getTime date))
    (option_map (fun t => t + DAY_MS) (Date_getTime date)).
Definition qUpdate (c : Collection) : Query := CollectionUpdate (c_id c) txnId payload.

(** The rows a delivery adds. *)
Definition newLog (s : Store) : WebhookLog :=
  mkWebhookLog (fresh_id (map wl_id (webhookLogs s))) provider txnId amount
               status payload now.
Definition qRecord (s : Store) (c : Collection) : Query :=
  ReconciliationCreate (c_id c) (wl_id (newLog s)) now (matchTypeOf txnId c).
Definition newReconciliation (s : Store) (c : Collection) : Reconciliation :=
  mkReconciliation (c_id c) (wl_id (newLog s)) MATCHED now (matchTypeOf txnId c).

(** The insert is refused: the key is declared unique and already there. *)
Definition duplicateKey (s : Store) : bool :=
  webhookLog_unique && existsb (sameKey provider txnId) (webhookLogs s).

(** Rows the second search examines. *)
Definition fuzzyCandidates (s : Store) : list Collection :=
  match Date_getTime date with
  | Some t => filter (whereAmount provider amount (t - DAY_MS) (t + DAY_MS))
                     (collections s)
  | None => []
  end.

(** The store after a delivery that claimed [c], and after one that
    claimed nothing. *)
Definition claimed (s : Store) (c : Collection) (issued : list Query) : Store :=
  mkStore (updateWhereId (c_id c) (matchedUpdate txnId payload) (collections s))
          (webhookLogs s ++ [newLog s])
          (reconciliations s ++ [newReconciliation s c])
          (queries s ++ issued).

Definition recorded (s : Store) (issued : list Query) : Store :=
  mkStore (collections s) (webhookLogs s ++ [newLog s]) (reconciliations s)
          (queries s ++ issued).

Lemma run_duplicate s :
  duplicateKey s = true ->
  run webhookLog_unique process s = (inl P2002, logged qCreate s).
Proof.
  intros H. unfold processWebhook. cbn [run]. unfold exec. cbn.
  unfold duplicateKey in H. rewrite H. reflexivity.
Qed.

Lemma run_other_status s :
  duplicateKey s = false -> isSuccess status = false ->
  run webhookLog_unique process s
  = (inr (mkResult false None (wl_id (newLog s))), recorded s [qCreate]).
Proof.
  intros H Hst. unfold processWebhook. cbn [run]. unfold exec. cbn.
  unfold duplicateKey in H. rewrite H, Hst. reflexivity.
Qed.

Lemma run_exact s c :
  duplicateKey s = false -> isSuccess status = true ->
  find (whereTxnId provider txnId) (collections s) = Some c ->
  run webhookLog_unique process s
  = (inr (mkResult true (Some (c_id c)) (wl_id (newLog s))),
     claimed s c [qCreate; qExact; qUpdate c; qRecord s c]).
Proof.
  intros H Hst Hf. unfold processWebhook. cbn [run]. unfold exec. cbn.
  unfold duplicateKey in H. rewrite H, Hst. cbn. rewrite Hf. cbn.
  rewrite (existsb_id _ _ (proj1 (find_some _ _ Hf))). cbn.
  unfold claimed. rewrite <- ?app_assoc. reflexivity.
Qed.

Lemma run_invalid_date s :
  duplicateKey s = false -> isSuccess status = true ->
  find (whereTxnId provider txnId) (collections s) = None ->
  Date_getTime date = None ->
  run webhookLog_unique process s
  = (inl PrismaValidationError, recorded s [qCreate; qExact; qFuzzy]).
Proof.
  intros H Hst Hf Hd. unfold processWebhook. cbn [run]. unfold exec. cbn.
  unfold duplicateKey in H. rewrite H, Hst. cbn. rewrite Hf. cbn.
  unfold qFuzzy. rewrite Hd. cbn.
  unfold recorded, logged. cbn. rewrite <- ?app_assoc. reflexivity.
Qed.

Lemma run_fuzzy s c :
  duplicateKey s = false -> isSuccess status = true ->
  find (whereTxnId provider txnId) (collections s) = None ->
  oldest (fuzzyCandidates s) = Some c ->
  run webhookLog_unique process s
  = (inr (mkResult true (Some (c_id c)) (wl_id (newLog s))),
     claimed s c [qCreate; qExact; qFuzzy; qUpdate c; qRecord s c]).
Proof.
  intros H Hst Hf Ho. unfold processWebhook. cbn [run]. unfold exec. cbn.
  unfold duplicateKey in H. rewrite H, Hst. cbn. rewrite Hf. cbn.
  unfold fuzzyCandidates in Ho. unfold qFuzzy.
  destruct (Date_getTime date) as [t|]; [|discriminate]. cbn.
  rewrite Ho. cbn.
  assert (Hin : In c (collections s)).
  { apply oldest_Some in Ho as [Hin _]. apply filter_In in Hin. tauto. }
  rewrite (existsb_id _ _ Hin). cbn.
  unfold claimed. rewrite <- ?app_assoc. reflexivity.
Qed.

Lemma run_unmatched s t :
  duplicateKey s = false -> isSuccess status = true ->
  find (whereTxnId provider txnId) (collections s) = None ->
  Date_getTime date = Some t ->
  fuzzyCandidates s = [] ->
  run webhookLog_unique process s
  = (inr (mkResult false None (wl_id (newLog s))),
     recorded s [qCreate; qExact; qFuzzy]).
Proof.
  intros H Hst Hf Hd Hc. unfold processWebhook. cbn [run]. unfold exec. cbn.
  unfold duplicateKey in H. rewrite H, Hst. cbn. rewrite Hf. cbn.
  unfold fuzzyCandidates in Hc. unfold qFuzzy. rewrite Hd in *. cbn.
  rewrite Hc. cbn.
  unfold recorded, logged. cbn. rewrite <- ?app_assoc. reflexivity.
Qed.

(** Every delivery is of one of three kinds: refused at the insert, recorded
    without a claim, or recorded with the claim of a pending row of the
    provider. *)
Inductive Delivery (s : Store) : (PrismaError + ProcessResult) * Store -> Prop :=
| Refused :
    duplicateKey s = true ->
    Delivery s (inl P2002, logged qCreate s)
| Unclaimed o issued :
    duplicateKey s = false ->
    o = inr (mkResult false None (wl_id (newLog s))) \/ o = inl PrismaValidationError ->
    Delivery s (o, recorded s issued)
| Claimed c issued :
    duplicateKey s = false ->
    In c (collections s) -> c_type c = provider -> c_status c = PENDING ->
    Delivery s (inr (mkResult true (Some (c_id c)) (wl_id (newLog s))),
                claimed s c issued).

Lemma fuzzyCandidates_In s c :
  In c (fuzzyCandidates s) ->
  exists t, Date_getTime date = Some t /\ In c (collections s)
            /\ whereAmount provider amount (t - DAY_MS) (t + DAY_MS) c = true.
Proof.
  unfold fuzzyCandidates. destruct (Date_getTime date) as [t|]; [|intros []].
  intros H. apply filter_In in H. exists t. tauto.
Qed.

Lemma run_Delivery s : Delivery s (run webhookLog_unique process s).
Proof.
  destruct (duplicateKey s) eqn:Hd.
  { rewrite run_duplicate by assumption. now constructor. }
  destruct (isSuccess status) eqn:Hst.
  2:{ rewrite run_other_status by assumption. constructor; auto. }
  destruct (find (whereTxnId provider txnId) (collections s)) as [c|] eqn:Hf.
  { rewrite (run_exact s c) by assumption.
    apply find_some in Hf as [Hin Hw]. apply whereTxnId_true in Hw as (?&?&?).
    now constructor. }
  destruct (Date_getTime date) as [t|] eqn:Ht.
  2:{ rewrite run_invalid_date by assumption. constructor; auto. }
  destruct (oldest (fuzzyCandidates s)) as [c|] eqn:Ho.
  - rewrite (run_fuzzy s c) by assumption.
    apply oldest_Some in Ho as [Hin _].
    apply fuzzyCandidates_In in Hin as (t' & _ & Hin & Hw).
    apply whereAmount_true in Hw as (?&?&?&?&?). now constructor.
  - apply oldest_None in Ho. rewrite (run_unmatched s t) by assumption.
    constructor; auto.
Qed.

(** C4.  When a pending row of the provider already carries the event's
    transaction id, a SUCCESS (or COMPLETED) event that the ledger records
    claims such a row, whatever other rows would pass the amount-and-window
    search: the reconciliation is of type EXACT, and the calls issued are the
    insert, the search by transaction id, the update and the reconciliation
    insert -- the amount-and-window search is not made. *)
Theorem C4_exact_match_precedence s :
  isSuccess status = true ->
  duplicateKey s = false ->
  (exists c0, In c0 (collections s) /\ c_type c0 = provider
              /\ c_status c0 = PENDING /\ c_txnId c0 = Some txnId) ->
  exists c,
    In c (collections s) /\ c_type c = provider /\ c_status c = PENDING
    /\ c_txnId c = Some txnId
    /\ run webhookLog_unique process s
       = (inr (mkResult true (Some (c_id c)) (wl_id (newLog s))),
          claimed s c [qCreate; qExact; qUpdate c; qRecord s c])
    /\ r_matchType (newReconciliation s c) = EXACT
    /\ (forall type amount' startDate endDate,
          ~ In (CollectionFindByAmount type amount' startDate endDate)
               [qCreate; qExact; qUpdate c; qRecord s c]).
Proof.
  intros Hst Hd (c0 & Hin0 & Hty0 & Hs0 & Htx0).
  destruct (find (whereTxnId provider txnId) (collections s)) as [c|] eqn:Hf.
  - pose proof (find_some _ _ Hf) as [Hin Hw].
    apply whereTxnId_true in Hw as (Hty & Htx & Hs).
    exists c. repeat split; try assumption.
    + now apply run_exact.
    + cbn. now apply matchTypeOf_exact.
    + unfold qCreate, qExact, qUpdate, qRecord. cbn.
      intros ty a lo hi [H|[H|[H|[H|[]]]]]; discriminate H.
  - exfalso. pose proof (find_none _ _ Hf c0 Hin0) as Hw.
    assert (whereTxnId provider txnId c0 = true) by (apply whereTxnId_true; auto).
    congruence.
Qed.

(** C5.  When the search by transaction id finds nothing and two or more rows
    pass the amount-and-window search, a SUCCESS event that the ledger
    records claims a candidate whose creation instant is the earliest among
    the candidates; the reconciliation is of type FUZZY. *)
Theorem C5_fifo_tie_break s :
  isSuccess status = true ->
  duplicateKey s = false ->
  find (whereTxnId provider txnId) (collections s) = None ->
  (2 <= List.length (fuzzyCandidates s))%nat ->
  exists c,
    In c (fuzzyCandidates s)
    /\ (forall c', In c' (fuzzyCandidates s) -> c_createdAt c <= c_createdAt c')
    /\ run webhookLog_unique process s
       = (inr (mkResult true (Some (c_id c)) (wl_id (newLog s))),
          claimed s c [qCreate; qExact; qFuzzy; qUpdate c; qRecord s c])
    /\ r_matchType (newReconciliation s c) = FUZZY.
Proof.
  intros Hst Hd Hf Hlen.
  destruct (oldest (fuzzyCandidates s)) as [c|] eqn:Ho.
  2:{ apply oldest_None in Ho. rewrite Ho in Hlen. cbn in Hlen. lia. }
  pose proof (oldest_Some _ _ Ho) as [Hin Hmin].
  exists c. repeat split; try assumption.
  - now apply run_fuzzy.
  - cbn. apply matchTypeOf_fuzzy. intros Htx.
    apply fuzzyCandidates_In in Hin as (t & _ & Hin & Hw).
    apply whereAmount_true in Hw as (Hty & _ & _ & Hs & _).
    pose proof (find_none _ _ Hf c Hin) as Hn.
    assert (whereTxnId provider txnId c = true) by (apply whereTxnId_true; auto).
    congruence.
Qed.

Definition HOUR_MS : Z := 60 * 60 * 1000.

Lemma DAY_MS_is_24_hours : DAY_MS = 24 * HOUR_MS /\ DAY_MS = 86400000.
Proof. split; reflexivity. Qed.

Lemma fuzzyCandidates_iff s t c :
  Date_getTime date = Some t ->
  (In c (fuzzyCandidates s) <->
   In c (collections s) /\ c_type c = provider /\ c_amount c = amount
   /\ c_status c = PENDING /\ c_isMatched c = false
   /\ Z.abs (c_collectionDate c - t) <= DAY_MS).
Proof.
  intros Ht. unfold fuzzyCandidates. rewrite Ht, filter_In, whereAmount_true.
  split; intros H; decompose [and] H; repeat split; try assumption; lia.
Qed.


(** C7, as amended.  A delivery that claims a row writes the event's
    transaction id into it whatever id it carried: the rows with the claimed
    id become [matchedUpdate txnId payload] of themselves, so their
    transaction id is the event's, and every other row is left as it was. *)
Theorem C7_txnId_overwritten s r s' :
  run webhookLog_unique process s = (inr r, s') ->
  matched r = true ->
  exists c,
    In c (collections s) /\ collectionId r = Some (c_id c)
    /\ collections s' = updateWhereId (c_id c) (matchedUpdate txnId payload) (collections s)
    /\ (forall c', In c' (collections s') -> c_id c' = c_id c -> c_txnId c' = Some txnId)
    /\ (forall c', In c' (collections s) -> c_id c' <> c_id c -> In c' (collections s')).
Proof.
  intros Hrun Hm. pose proof (run_Delivery s) as D. rewrite Hrun in D.
  inversion D as [Hd Ho | o issued Hd Ho | c issued Hd Hin Hty Hs]; subst.
  - destruct Ho as [Ho|Ho]; [|discriminate]. injection Ho as ->. discriminate Hm.
  - exists c. cbn. repeat split; try assumption.
    + intros c' Hc' Hid. unfold updateWhereId in Hc'. apply in_map_iff in Hc' as (x & Hx & _).
      destruct (Nat.eqb_spec (c_id x) (c_id c)) as [E|E]; subst c'; [reflexivity|].
      congruence.
    + intros c' Hc' Hid. unfold updateWhereId. apply in_map_iff. exists c'.
      split; [|assumption].
      destruct (Nat.eqb_spec (c_id c') (c_id c)); [contradiction|reflexivity].
Qed.

(** *** Processing one delivery after the other *)

(** No two reconciliations point at the same collection. *)
Definition matchedOnce (s : Store) : Prop :=
  NoDup (map r_collectionId (reconciliations s)).

(** A collection that a reconciliation points at is no longer pending. *)
Definition claimsSettled (s : Store) : Prop :=
  forall r c, In r (reconciliations s) -> In c (collections s) ->
              c_id c = r_collectionId r -> c_status c <> PENDING.

Lemma delivery_keeps_invariant s :
  matchedOnce s /\ claimsSettled s ->
  matchedOnce (snd (run webhookLog_unique process s))
  /\ claimsSettled (snd (run webhookLog_unique process s)).
Proof.
  intros [Hnd Hset]. pose proof (run_Delivery s) as D.
  destruct (run webhookLog_unique process s) as [o s'].
  inversion D as [Hd Ho | o' issued Hd Ho | c issued Hd Hin Hty Hs]; subst; cbn;
    try (split; assumption).
  split.
  - unfold matchedOnce. cbn. rewrite map_app. apply NoDup_app; [exact Hnd| |].
    + cbn. constructor; [intros []|constructor].
    + intros a Ha [<-|[]]. apply in_map_iff in Ha as (r & Hr & Hrin).
      cbn in Hr. exact (Hset r c Hrin Hin (eq_sym Hr) Hs).
  - intros r c' Hr Hc' Hid. cbn in Hr, Hc'.
    unfold updateWhereId in Hc'. apply in_map_iff in Hc' as (x & Hx & Hxin).
    destruct (Nat.eqb_spec (c_id x) (c_id c)) as [E|E]; subst c'.
    + cbn. discriminate.
    + apply in_app_or in Hr as [Hr|[<-|[]]].
      * exact (Hset r x Hr Hxin Hid).
      * cbn in Hid. contradiction.
Qed.

End Runs.

(** Deliveries of either provider, each run to completion before the next
    begins. *)
Inductive Event : Type :=
| BkashEvent (now : Z) (data : BkashData)
| NagadEvent (now : Z) (data : NagadData).

Definition handler (Date_getTime : string -> option Z) (e : Event) : Prog ProcessResult :=
  match e with
  | BkashEvent now data => processBkashWebhook Date_getTime now data
  | NagadEvent now data => processNagadWebhook Date_getTime now data
  end.

Definition deliver (webhookLog_unique : bool) (Date_getTime : string -> option Z)
           (e : Event) (s : Store) : Store :=
  snd (run webhookLog_unique (handler Date_getTime e) s).

Definition deliverAll (webhookLog_unique : bool) (Date_getTime : string -> option Z)
           (events : list Event) (s : Store) : Store :=
  fold_left (fun st e => deliver webhookLog_unique Date_getTime e st) events s.


(** *** Worked scenarios *)

(** 2024-03-01T12:00:00Z, and the event of 13:00 that day. *)
Definition T0 : Z := 1709294400000.

Definition eventX1 : BkashData :=
  mkBkashData "X1" 10000 "BDT" "SUCCESS" "2024-03-01T13:00:00.000Z" None None "sig".

Definition eventX2 : BkashData :=
  mkBkashData "X2" 10000 "BDT" "SUCCESS" "2024-03-01T13:30:00.000Z" None None "sig".

(** Two collections submitted with the agents' own references, and one that
    carries the provider's transaction id. *)
Definition older : Collection :=
  mkCollection 1%nat 100%nat BKASH 10000 T0 (Some "REF-1") PENDING false None T0.

Definition newer : Collection :=
  mkCollection 2%nat 101%nat BKASH 10000 (T0 + HOUR_MS) (Some "REF-2") PENDING false None
               (T0 + HOUR_MS).

Definition carrier : Collection :=
  mkCollection 3%nat 102%nat BKASH 10000 (T0 + 2 * HOUR_MS) (Some "X1") PENDING false None
               (T0 + 2 * HOUR_MS).

Definition atEdge : Collection :=
  mkCollection 4%nat 103%nat BKASH 10000 (T0 + 25 * HOUR_MS) (Some "REF-4") PENDING false None
               (T0 + 25 * HOUR_MS).

Definition storeOf (rows : list Collection) : Store := mkStore rows [] [] [].

Example eventX1_instant : Iso.getTime (bk_date eventX1) = Some (T0 + HOUR_MS).
Proof. reflexivity. Qed.

Lemma C4_witness :
  let s := storeOf [older; newer; carrier] in
  exists c,
    In c (collections s) /\ c_type c = BKASH /\ c_status c = PENDING
    /\ c_txnId c = Some "X1"
    /\ run false (processBkashWebhook Iso.getTime (T0 + HOUR_MS) eventX1) s
       = (inr (mkResult true (Some (c_id c)) 1%nat),
          claimed (T0 + HOUR_MS) BKASH "X1" 10000 "SUCCESS" (BkashPayload eventX1) s c
            [qCreate (T0 + HOUR_MS) BKASH "X1" 10000 "SUCCESS" (BkashPayload eventX1);
             qExact BKASH "X1"; qUpdate "X1" (BkashPayload eventX1) c;
             qRecord (T0 + HOUR_MS) BKASH "X1" 10000 "SUCCESS" (BkashPayload eventX1) s c])
    /\ r_matchType (newReconciliation (T0 + HOUR_MS) BKASH "X1" 10000 "SUCCESS"
                      (BkashPayload eventX1) s c) = EXACT
    /\ (forall type amount' startDate endDate,
          ~ In (CollectionFindByAmount type amount' startDate endDate)
               [qCreate (T0 + HOUR_MS) BKASH "X1" 10000 "SUCCESS" (BkashPayload eventX1);
                qExact BKASH "X1"; qUpdate "X1" (BkashPayload eventX1) c;
                qRecord (T0 + HOUR_MS) BKASH "X1" 10000 "SUCCESS" (BkashPayload eventX1) s c]).
Proof.
  apply (C4_exact_match_precedence false Iso.getTime (T0 + HOUR_MS) BKASH "X1" 10000
           "SUCCESS" "2024-03-01T13:00:00.000Z" (BkashPayload eventX1)
           (storeOf [older; newer; carrier])).
  - reflexivity.
  - reflexivity.
  - exists carrier. cbn. auto 6.
Defined.

(** [newer] stands first in the table, [older] was created first. *)
Lemma C5_witness :
  let s := storeOf [newer; older] in
  let cands := fuzzyCandidates Iso.getTime BKASH 10000 "2024-03-01T13:00:00.000Z" s in
  exists c,
    In c cands
    /\ (forall c', In c' cands -> c_createdAt c <= c_createdAt c')
    /\ run false (processBkashWebhook Iso.getTime (T0 + HOUR_MS) eventX1) s
       = (inr (mkResult true (Some (c_id c)) 1%nat),
          claimed (T0 + HOUR_MS) BKASH "X1" 10000 "SUCCESS" (BkashPayload eventX1) s c
            [qCreate (T0 + HOUR_MS) BKASH "X1" 10000 "SUCCESS" (BkashPayload eventX1);
             qExact BKASH "X1";
             qFuzzy Iso.getTime BKASH 10000 "2024-03-01T13:00:00.000Z";
             qUpdate "X1" (BkashPayload eventX1) c;
             qRecord (T0 + HOUR_MS) BKASH "X1" 10000 "SUCCESS" (BkashPayload eventX1) s c])
    /\ r_matchType (newReconciliation (T0 + HOUR_MS) BKASH "X1" 10000 "SUCCESS"
                      (BkashPayload eventX1) s c) = FUZZY.
Proof.
  apply (C5_fifo_tie_break false Iso.getTime (T0 + HOUR_MS) BKASH "X1" 10000
           "SUCCESS" "2024-03-01T13:00:00.000Z" (BkashPayload eventX1)
           (storeOf [newer; older])).
  - reflexivity.
  - reflexivity.
  - reflexivity.
  - vm_compute. lia.
Defined.

Example fifo_claims_older :
  fst (run false (processBkashWebhook Iso.getTime (T0 + HOUR_MS) eventX1)
           (storeOf [newer; older]))
  = inr (mkResult true (Some 1%nat) 1%nat).
Proof. vm_compute. reflexivity. Qed.


(** The four rows at the edges of the window of the event of 13:00: collected
    24 hours after it, 24 hours before it, and one hour further out on either
    side.  Each is the only row of its store. *)
Definition rowAt (collectionDate : Z) : Collection :=
  mkCollection 4%nat 103%nat BKASH 10000 collectionDate (Some "REF-4") PENDING false None
               collectionDate.

Example edge_row_is_claimed :
  fst (run false (processBkashWebhook Iso.getTime (T0 + HOUR_MS) eventX1) (storeOf [atEdge]))
  = inr (mkResult true (Some 4%nat) 1%nat).
Proof. vm_compute. reflexivity. Qed.

Example rows_at_the_edges :
  let delivery row :=
    fst (run false (processBkashWebhook Iso.getTime (T0 + HOUR_MS) eventX1)
             (storeOf [row])) in
  delivery (rowAt (T0 + HOUR_MS + 24 * HOUR_MS)) = inr (mkResult true (Some 4%nat) 1%nat)
  /\ delivery (rowAt (T0 + HOUR_MS - 24 * HOUR_MS)) = inr (mkResult true (Some 4%nat) 1%nat)
  /\ delivery (rowAt (T0 + HOUR_MS + 24 * HOUR_MS + 1)) = inr (mkResult false None 1%nat)
  /\ delivery (rowAt (T0 + HOUR_MS - 24 * HOUR_MS - 1)) = inr (mkResult false None 1%nat)
  /\ delivery (rowAt (T0 + HOUR_MS + 25 * HOUR_MS)) = inr (mkResult false None 1%nat)
  /\ delivery (rowAt (T0 + HOUR_MS - 25 * HOUR_MS)) = inr (mkResult false None 1%nat).
Proof. vm_compute. repeat split. Qed.

Lemma C7_witness :
  let s := storeOf [older] in
  let s' := snd (run false (processBkashWebhook Iso.getTime (T0 + HOUR_MS) eventX1) s) in
  exists c,
    In c (collections s) /\ Some 1%nat = Some (c_id c)
    /\ collections s' = updateWhereId (c_id c) (matchedUpdate "X1" (BkashPayload eventX1))
                                      (collections s)
    /\ (forall c', In c' (collections s') -> c_id c' = c_id c -> c_txnId c' = Some "X1")
    /\ (forall c', In c' (collections s) -> c_id c' <> c_id c -> In c' (collections s')).
Proof.
  apply (C7_txnId_overwritten false Iso.getTime (T0 + HOUR_MS) BKASH "X1" 10000
           "SUCCESS" "2024-03-01T13:00:00.000Z" (BkashPayload eventX1)
           (storeOf [older]) (mkResult true (Some 1%nat) 1%nat)).
  - vm_compute. reflexivity.
  - reflexivity.
Defined.

(** The claim of C7 as stated: a claimed row that carried a transaction id
    keeps it. *)
Definition keepsCarriedId (s s' : Store) : Prop :=
  forall c c', In c (collections s) -> In c' (collections s') ->
               c_id c' = c_id c -> c_txnId c <> None -> c_txnId c' = c_txnId c.

(** [older] carries the agent's reference REF-1; the event X1 claims it by
    amount and window, and the row then carries X1. *)
Lemma C7_counterexample :
  let s := storeOf [older] in
  let out := run false (processBkashWebhook Iso.getTime (T0 + HOUR_MS) eventX1) s in
  fst out = inr (mkResult true (Some 1%nat) 1%nat)
  /\ map r_matchType (reconciliations (snd out)) = [FUZZY]
  /\ map c_txnId (collections (snd out)) = [Some "X1"]
  /\ ~ keepsCarriedId s (snd out).
Proof.
  cbv zeta. repeat split; try (vm_compute; reflexivity).
  intros H.
  specialize (H older (matchedUpdate "X1" (BkashPayload eventX1) older)).
  assert (E : c_txnId (matchedUpdate "X1" (BkashPayload eventX1) older) = c_txnId older).
  { apply H.
    - now left.
    - vm_compute. now left.
    - reflexivity.
    - discriminate. }
  discriminate E.
Qed.


Example two_events_two_rows :
  map r_collectionId
      (reconciliations
         (deliverAll false Iso.getTime
            [BkashEvent (T0 + HOUR_MS) eventX1; BkashEvent (T0 + 2 * HOUR_MS) eventX2]
            (storeOf [older; newer])))
  = [1%nat; 2%nat].
Proof. vm_compute. reflexivity. Qed.



End LedgerFacts.

(** ** Deliveries through the routes *)

Module EndToEnd.

Import Ledger Gateway LedgerFacts GatewayFacts.

(** The idempotency key of a request whose body passes the provider's
    schema. *)
Definition keyOf (provider : Provider) (req : Request) : option (CollectionType * string) :=
  match provider with
  | bkash => option_map (fun d => (BKASH, bk_txnId d)) (bkashWebhookSchema (body req))
  | nagad => option_map (fun d => (NAGAD, ng_paymentRefId d)) (nagadWebhookSchema (body req))
  end.

(** The same request delivered [n] times, one delivery after the other: the
    answers, first delivery first, and the store at the end. *)
Fixpoint deliveries (uniq : bool) (D : string -> option Z) (env : Env)
         (provider : Provider) (now : Z) (n : nat) (req : Request) (s : Store)
  : list Response * Store :=
  match n with
  | O => ([], s)
  | S n' =>
      let (res, s1) := post uniq D env provider now req s in
      let (rest, s2) := deliveries uniq D env provider now n' req s1 in
      (res :: rest, s2)
  end.

(** Rows whose status differs between two stores (an update keeps the rows in
    place). *)
Definition statusChanges (s s' : Store) : nat :=
  List.length
    (filter (fun p => negb (CollectionStatus_eqb (c_status (fst p)) (c_status (snd p))))
            (combine (collections s) (collections s'))).

(** The claim of C1 as stated, for [n] deliveries of [req] from [s]: one
    webhookLog row, one reconciliation, at most one status transition, and
    every delivery answered as the first was. *)
Definition idempotent (uniq : bool) (D : string -> option Z) (env : Env)
           (provider : Provider) (now : Z) (n : nat) (req : Request) (s : Store) : Prop :=
  let out := deliveries uniq D env provider now n req s in
  List.length (webhookLogs (snd out)) = S (List.length (webhookLogs s))
  /\ List.length (reconciliations (snd out)) = S (List.length (reconciliations s))
  /\ (statusChanges s (snd out) <= 1)%nat
  /\ (forall res, In res (fst out) -> Some res = hd_error (fst out)).

Lemma post_accepted uniq D env provider now req s ty txn :
  verifyWebhookSignature provider env now req = Next ->
  keyOf provider req = Some (ty, txn) ->
  exists amount status date payload,
    post uniq D env provider now req s
    = match run uniq (processWebhook D now ty txn amount status date payload) s with
      | (inr result, s') =>
          (mkResponse 200 (Processed (matched result) (collectionId result)), s')
      | (inl e, s') => (errorHandler e, s')
      end.
Proof.
  intros Hv Hk. unfold post. rewrite Hv. unfold keyOf in Hk.
  destruct provider; unfold handle;
    [destruct (bkashWebhookSchema (body req)) as [d|]
    |destruct (nagadWebhookSchema (body req)) as [d|]];
    try discriminate Hk; cbn in Hk; injection Hk as E1 E2; subst ty txn.
  - exists (bk_amount d), (bk_status d), (bk_date d), (BkashPayload d). reflexivity.
  - exists (ng_amount d), (ng_status d), (ng_dateTime d), (NagadPayload d). reflexivity.
Qed.

(** C1, as amended.  A delivery that passes the gateway and the schema is
    processed on its own; no earlier outcome is looked up.  If the key
    (provider, transaction id) is unique and already logged, the insert is
    refused: the answer is 400 "Unique constraint violation" and no table
    changes.  Otherwise the delivery adds exactly one webhookLog row and
    either leaves reconciliations and collections as they were, or adds one
    reconciliation for a pending row and updates the rows of that id only.
    Without a unique key, [n] deliveries of the request leave [n] more
    webhookLog rows. *)
Theorem C1_every_delivery_is_processed uniq D env provider now req s ty txn :
  verifyWebhookSignature provider env now req = Next ->
  keyOf provider req = Some (ty, txn) ->
  let out := post uniq D env provider now req s in
  (uniq && existsb (sameKey ty txn) (webhookLogs s) = true ->
   fst out = mkResponse 400 (HandlerError "Unique constraint violation")
   /\ collections (snd out) = collections s
   /\ webhookLogs (snd out) = webhookLogs s
   /\ reconciliations (snd out) = reconciliations s)
  /\ (uniq && existsb (sameKey ty txn) (webhookLogs s) = false ->
      List.length (webhookLogs (snd out)) = S (List.length (webhookLogs s))
      /\ ((reconciliations (snd out) = reconciliations s
           /\ collections (snd out) = collections s)
          \/ exists c r payload,
               In c (collections s) /\ c_status c = PENDING
               /\ r_collectionId r = c_id c
               /\ reconciliations (snd out) = reconciliations s ++ [r]
               /\ collections (snd out)
                  = updateWhereId (c_id c) (matchedUpdate txn payload) (collections s)
               /\ fst out = mkResponse 200 (Processed true (Some (c_id c)))))
  /\ (uniq = false ->
      forall n,
        List.length (webhookLogs (snd (deliveries uniq D env provider now n req s)))
        = (n + List.length (webhookLogs s))%nat).
Proof.
  intros Hv Hk out.
  assert (Hone : forall s0,
    uniq && existsb (sameKey ty txn) (webhookLogs s0) = false ->
    let out0 := post uniq D env provider now req s0 in
    List.length (webhookLogs (snd out0)) = S (List.length (webhookLogs s0))
    /\ ((reconciliations (snd out0) = reconciliations s0
         /\ collections (snd out0) = collections s0)
        \/ exists c r payload,
             In c (collections s0) /\ c_status c = PENDING
             /\ r_collectionId r = c_id c
             /\ reconciliations (snd out0) = reconciliations s0 ++ [r]
             /\ collections (snd out0)
                = updateWhereId (c_id c) (matchedUpdate txn payload) (collections s0)
             /\ fst out0 = mkResponse 200 (Processed true (Some (c_id c))))).
  { intros s0 Hd out0. subst out0.
    destruct (post_accepted uniq D env provider now req s0 ty txn Hv Hk)
      as (amount & status & date & payload & ->).
    pose proof (run_Delivery uniq D now ty txn amount status date payload s0) as Dl.
    destruct (run uniq (processWebhook D now ty txn amount status date payload) s0)
      as [o s'].
    inversion Dl as [Hd' | o' issued Hd' Ho | c issued Hd' Hin Hty Hs]; subst.
    - unfold duplicateKey in Hd'. congruence.
    - destruct Ho as [-> | ->]; cbn; rewrite length_app; cbn;
        (split; [lia|left; split; reflexivity]).
    - cbn. rewrite length_app. cbn. split; [lia|]. right.
      exists c, (newReconciliation now (c_type c) txn amount status payload s0 c), payload.
      repeat split; assumption. }
  split; [|split].
  - intros Hd. subst out.
    destruct (post_accepted uniq D env provider now req s ty txn Hv Hk)
      as (amount & status & date & payload & ->).
    rewrite (run_duplicate uniq D now ty txn amount status date payload s Hd).
    cbn. repeat split.
  - apply Hone.
  - intros Hu n. revert s out. induction n as [|n IH]; intros s out; [reflexivity|].
    cbn [deliveries].
    assert (Hd : uniq && existsb (sameKey ty txn) (webhookLogs s) = false)
      by (rewrite Hu; reflexivity).
    destruct (Hone s Hd) as [Hlen _].
    destruct (post uniq D env provider now req s) as [res s1]. cbn in Hlen.
    specialize (IH s1).
    destruct (deliveries uniq D env provider now n req s1) as [rest s2].
    cbn in *. rewrite IH, Hlen. lia.
Qed.

Lemma C1_witness :
  let s := storeOf [older; newer] in
  let out := post false Iso.getTime env0 bkash (T0 + HOUR_MS) signed0 s in
  (false && existsb (sameKey BKASH "X1") (webhookLogs s) = true ->
   fst out = mkResponse 400 (HandlerError "Unique constraint violation")
   /\ collections (snd out) = collections s
   /\ webhookLogs (snd out) = webhookLogs s
   /\ reconciliations (snd out) = reconciliations s)
  /\ (false && existsb (sameKey BKASH "X1") (webhookLogs s) = false ->
      List.length (webhookLogs (snd out)) = S (List.length (webhookLogs s))
      /\ ((reconciliations (snd out) = reconciliations s
           /\ collections (snd out) = collections s)
          \/ exists c r payload,
               In c (collections s) /\ c_status c = PENDING
               /\ r_collectionId r = c_id c
               /\ reconciliations (snd out) = reconciliations s ++ [r]
               /\ collections (snd out)
                  = updateWhereId (c_id c) (matchedUpdate "X1" payload) (collections s)
               /\ fst out = mkResponse 200 (Processed true (Some (c_id c)))))
  /\ (false = false ->
      forall n,
        List.length
          (webhookLogs (snd (deliveries false Iso.getTime env0 bkash (T0 + HOUR_MS) n signed0 s)))
        = (n + List.length (webhookLogs s))%nat).
Proof.
  apply (C1_every_delivery_is_processed false Iso.getTime env0 bkash (T0 + HOUR_MS)
           signed0 (storeOf [older; newer]) BKASH "X1").
  - vm_compute. reflexivity.
  - reflexivity.
Defined.

(** The signed request for X1, delivered twice to a store with two pending
    rows of the event's amount inside the window. *)
Example redelivery_without_unique_key :
  let out := deliveries false Iso.getTime env0 bkash (T0 + HOUR_MS) 2 signed0
                        (storeOf [older; newer]) in
  fst out = [ mkResponse 200 (Processed true (Some 1%nat));
              mkResponse 200 (Processed true (Some 2%nat)) ]
  /\ map wl_txnId (webhookLogs (snd out)) = ["X1"; "X1"]
  /\ map r_collectionId (reconciliations (snd out)) = [1%nat; 2%nat]
  /\ map c_status (collections (snd out)) = [APPROVED; APPROVED].
Proof. vm_compute. repeat split. Qed.

Example redelivery_with_unique_key :
  let out := deliveries true Iso.getTime env0 bkash (T0 + HOUR_MS) 2 signed0
                        (storeOf [older; newer]) in
  fst out = [ mkResponse 200 (Processed true (Some 1%nat));
              mkResponse 400 (HandlerError "Unique constraint violation") ]
  /\ map wl_txnId (webhookLogs (snd out)) = ["X1"]
  /\ map r_collectionId (reconciliations (snd out)) = [1%nat].
Proof. vm_compute. repeat split. Qed.

(** Neither setting of the schema makes the second delivery a replay. *)
Lemma C1_counterexample :
  ~ idempotent false Iso.getTime env0 bkash (T0 + HOUR_MS) 2 signed0 (storeOf [older; newer])
  /\ ~ idempotent true Iso.getTime env0 bkash (T0 + HOUR_MS) 2 signed0 (storeOf [older; newer]).
Proof.
  split; unfold idempotent; cbv zeta; intros (Hlogs & Hrecs & Hchg & Hsame).
  - assert (E : List.length
                  (webhookLogs
                     (snd (deliveries false Iso.getTime env0 bkash (T0 + HOUR_MS) 2 signed0
                                      (storeOf [older; newer])))) = 2%nat)
      by (vm_compute; reflexivity).
    rewrite E in Hlogs. discriminate Hlogs.
  - assert (E : fst (deliveries true Iso.getTime env0 bkash (T0 + HOUR_MS) 2 signed0
                                (storeOf [older; newer]))
                = [ mkResponse 200 (Processed true (Some 1%nat));
                    mkResponse 400 (HandlerError "Unique constraint violation") ])
      by (vm_compute; reflexivity).
    rewrite E in Hsame.
    specialize (Hsame (mkResponse 400 (HandlerError "Unique constraint violation"))
                      (or_intror (or_introl eq_refl))).
    discriminate Hsame.
Qed.

End EndToEnd.

(** ** The SLA sweep *)

Module SlaFacts.

Import Sla.

Lemma int4_Some z y : int4 z = Some y -> y = z /\ -2147483648 <= z <= 2147483647.
Proof.
  unfold int4.
  destruct (Z.leb_spec (-2147483648) z) as [Hlo|Hlo];
    destruct (Z.leb_spec z 2147483647) as [Hhi|Hhi]; cbn;
    intros [= <-]; split; [reflexivity|lia].
Qed.

Lemma int4_None z : int4 z <> None <-> -2147483648 <= z <= 2147483647.
Proof.
  unfold int4.
  destruct (Z.leb_spec (-2147483648) z) as [Hlo|Hlo];
    destruct (Z.leb_spec z 2147483647) as [Hhi|Hhi]; cbn;
    split; intros E; try discriminate; try lia; congruence.
Qed.

(** *** Rows gathered over a list *)

Lemma gather_In {A : Type} (f : A -> option (list breach)) (l : list A) rows :
  gather f l = Some rows ->
  forall br, In br rows <-> exists x part, In x l /\ f x = Some part /\ In br part.
Proof.
  revert rows. induction l as [|x l IH]; cbn; intros rows H br.
  - injection H as <-. split; [intros []|intros (x & part & [] & _)].
  - destruct (f x) as [part|] eqn:Hx; [|discriminate].
    destruct (gather f l) as [more|]; [|discriminate].
    injection H as <-. rewrite in_app_iff, (IH more eq_refl br). split.
    + intros [Hbr|(y & p & Hy & Hf & Hp)].
      * exists x, part. auto.
      * exists y, p. auto.
    + intros (y & p & [<-|Hy] & Hf & Hp).
      * left. congruence.
      * right. exists y, p. auto.
Qed.

Lemma gather_defined {A : Type} (f : A -> option (list breach)) (l : list A) rows x :
  gather f l = Some rows -> In x l -> exists part, f x = Some part.
Proof.
  revert rows. induction l as [|y l IH]; cbn; intros rows H Hin; [contradiction|].
  destruct (f y) as [part|] eqn:Hy; [|discriminate].
  destruct (gather f l) as [more|]; [|discriminate].
  destruct Hin as [<-|Hin]; [now exists part|]. now apply (IH more).
Qed.

Lemma gather_returns {A : Type} (f : A -> option (list breach)) (l : list A) :
  (forall x, In x l -> f x <> None) -> exists rows, gather f l = Some rows.
Proof.
  induction l as [|x l IH]; cbn; intros H; [now exists []|].
  destruct (f x) as [part|] eqn:Hx.
  2:{ exfalso. apply (H x); auto. }
  destruct IH as [more ->]; [intros y Hy; apply H; auto|].
  now exists (part ++ more).
Qed.

(** *** The limits *)

Lemma deposit_limit_value b limit :
  deposit_limit b = Some limit ->
  limit = COALESCE (option_map (fun h => h * 3600) (depositHours b)) (48 * 3600).
Proof.
  unfold deposit_limit. destruct (depositHours b) as [h|]; cbn.
  - destruct (int4 h) as [hours|] eqn:Eh; [|discriminate].
    apply int4_Some in Eh as [-> _]. intros H. now apply int4_Some in H as [-> _].
  - now intros [= <-].
Qed.


(** *** One joined row *)

Lemma deposit_row_inv NOW c b part br :
  deposit_row NOW c b = Some part -> In br part ->
  status c = PENDING /\ (type c = CASH \/ type c = BANK_DEPOSIT)
  /\ exists limit,
       deposit_limit b = Some limit /\ NOW - created_at c > limit
       /\ br = mkBreach (account_id c) DEPOSIT_DELAY (Z.quot (NOW - created_at c) 3600)
                        (deposit_severity (NOW - created_at c)).
Proof.
  unfold deposit_row. intros H Hin.
  destruct (status c); cbn in H; try (injection H as <-; contradiction).
  destruct (type c); cbn in H; try (injection H as <-; contradiction);
    (destruct (deposit_limit b) as [limit|]; [|discriminate]);
    (destruct (Z.gtb_spec (NOW - created_at c) limit);
       [|injection H as <-; contradiction]);
    (destruct (int4 (NOW - created_at c)) as [seconds|] eqn:Es; [|discriminate]);
    apply int4_Some in Es as [-> _]; injection H as <-; destruct Hin as [<-|[]];
    (split; [reflexivity|]); (split; [auto|]); exists limit; repeat split; auto; lia.
Qed.

Lemma deposit_row_late NOW c b part :
  deposit_row NOW c b = Some part ->
  status c = PENDING -> is_deposit_style (type c) = true ->
  NOW - created_at c > COALESCE (option_map (fun h => h * 3600) (depositHours b)) (48 * 3600) ->
  In (mkBreach (account_id c) DEPOSIT_DELAY (Z.quot (NOW - created_at c) 3600)
               (deposit_severity (NOW - created_at c))) part.
Proof.
  unfold deposit_row. intros H Hs Ht Hlate. rewrite Hs, Ht in H. cbn in H.
  destruct (deposit_limit b) as [limit|] eqn:El; [|discriminate].
  apply deposit_limit_value in El. rewrite <- El in Hlate.
  destruct (Z.gtb_spec (NOW - created_at c) limit); [|lia].
  destruct (int4 (NOW - created_at c)) as [seconds|] eqn:Es; [|discriminate].
  apply int4_Some in Es as [-> _]. injection H as <-. now left.
Qed.

Lemma update_row_inv NOW a b part br :
  update_row NOW a b = Some part -> In br part ->
  exists limit,
    update_limit b = Some limit
    /\ NOW - COALESCE (last_contact_date a) (acc_created_at a) > limit
    /\ br = mkBreach (id a) NO_UPDATE
              (Z.quot (NOW - COALESCE (last_contact_date a) (acc_created_at a)) 3600)
              (update_severity (NOW - COALESCE (last_contact_date a) (acc_created_at a))).
Proof.
  unfold update_row. intros H Hin.
  set (e := NOW - COALESCE (last_contact_date a) (acc_created_at a)) in *.
  destruct (update_limit b) as [limit|]; [|discriminate].
  destruct (Z.gtb_spec e limit); [|injection H as <-; contradiction].
  destruct (int4 e) as [seconds|] eqn:Es; [|discriminate].
  apply int4_Some in Es as [-> _]. injection H as <-. destruct Hin as [<-|[]].
  exists limit. repeat split; auto. lia.
Qed.


(** *** The two queries *)

Lemma deposit_breaches_inv NOW cs accs bs rows br :
  deposit_breaches NOW cs accs bs = Some rows -> In br rows ->
  exists c a b limit,
    In c cs /\ In a accs /\ In b bs
    /\ account_id c = id a /\ bank_id a = bank b
    /\ status c = PENDING /\ (type c = CASH \/ type c = BANK_DEPOSIT)
    /\ deposit_limit b = Some limit /\ NOW - created_at c > limit
    /\ br = mkBreach (account_id c) DEPOSIT_DELAY (Z.quot (NOW - created_at c) 3600)
                     (deposit_severity (NOW - created_at c)).
Proof.
  unfold deposit_breaches. intros H Hin.
  apply (proj1 (gather_In _ _ _ H br)) in Hin as (c & pc & Hc & Hpc & Hin).
  apply (proj1 (gather_In _ _ _ Hpc br)) in Hin as (a & pa & Ha & Hpa & Hin).
  apply (proj1 (gather_In _ _ _ Hpa br)) in Hin as (b & pb & Hb & Hpb & Hin).
  unfold accounts_of in Ha. apply filter_In in Ha as [Ha Hca].
  unfold banks_of in Hb. apply filter_In in Hb as [Hb Hab].
  apply Nat.eqb_eq in Hca, Hab.
  destruct (deposit_row_inv NOW c b pb br Hpb Hin) as (Hs & Ht & limit & Hl & Hlate & ->).
  exists c, a, b, limit. repeat split; auto.
Qed.

Lemma deposit_breaches_In NOW cs accs bs rows c a b :
  deposit_breaches NOW cs accs bs = Some rows ->
  In c cs -> In a accs -> In b bs ->
  account_id c = id a -> bank_id a = bank b ->
  status c = PENDING -> is_deposit_style (type c) = true ->
  NOW - created_at c > COALESCE (option_map (fun h => h * 3600) (depositHours b)) (48 * 3600) ->
  In (mkBreach (account_id c) DEPOSIT_DELAY (Z.quot (NOW - created_at c) 3600)
               (deposit_severity (NOW - created_at c))) rows.
Proof.
  unfold deposit_breaches. intros H Hc Ha Hb Hca Hab Hs Ht Hlate.
  assert (Ha' : In a (accounts_of accs c)).
  { unfold accounts_of. apply filter_In. split; [exact Ha|]. now apply Nat.eqb_eq. }
  assert (Hb' : In b (banks_of bs a)).
  { unfold banks_of. apply filter_In. split; [exact Hb|]. now apply Nat.eqb_eq. }
  destruct (gather_defined _ _ _ c H Hc) as [pc Hpc].
  destruct (gather_defined _ _ _ a Hpc Ha') as [pa Hpa].
  destruct (gather_defined _ _ _ b Hpa Hb') as [pb Hpb].
  apply (proj2 (gather_In _ _ _ H _)). exists c, pc. repeat split; auto.
  apply (proj2 (gather_In _ _ _ Hpc _)). exists a, pa. repeat split; auto.
  apply (proj2 (gather_In _ _ _ Hpa _)). exists b, pb. repeat split; auto.
  now apply (deposit_row_late NOW c b).
Qed.

Lemma update_breaches_inv NOW accs bs rows br :
  update_breaches NOW accs bs = Some rows -> In br rows ->
  exists a b limit,
    In a accs /\ In b bs /\ bank_id a = bank b
    /\ update_limit b = Some limit
    /\ NOW - COALESCE (last_contact_date a) (acc_created_at a) > limit
    /\ br = mkBreach (id a) NO_UPDATE
              (Z.quot (NOW - COALESCE (last_contact_date a) (acc_created_at a)) 3600)
              (update_severity (NOW - COALESCE (last_contact_date a) (acc_created_at a))).
Proof.
  unfold update_breaches. intros H Hin.
  apply (proj1 (gather_In _ _ _ H br)) in Hin as (a & pa & Ha & Hpa & Hin).
  apply (proj1 (gather_In _ _ _ Hpa br)) in Hin as (b & pb & Hb & Hpb & Hin).
  unfold banks_of in Hb. apply filter_In in Hb as [Hb Hab]. apply Nat.eqb_eq in Hab.
  destruct (update_row_inv NOW a b pb br Hpb Hin) as (limit & Hl & Hlate & ->).
  exists a, b, limit. repeat split; auto.
Qed.


Lemma check_sla_breaches_Some NOW cs accs bs rows :
  check_sla_breaches NOW cs accs bs = Some rows ->
  exists deposits updates,
    deposit_breaches NOW cs accs bs = Some deposits
    /\ update_breaches NOW accs bs = Some updates
    /\ rows = deposits ++ updates.
Proof.
  unfold check_sla_breaches.
  destruct (deposit_breaches NOW cs accs bs) as [d|]; [|discriminate].
  destruct (update_breaches NOW accs bs) as [u|]; [|discriminate].
  intros [= <-]. now exists d, u.
Qed.

(** *** When the call returns *)

(** Nothing the function computes leaves the range of [integer]: the
    configured hours and days, their products with 3600 and 86400, and the
    ages in seconds of the collections and of the accounts' last contacts. *)
Definition withinInteger (NOW : Z) (cs : list collections_row)
           (accs : list accounts_row) (bs : list banks_row) : Prop :=
  (forall b, In b bs -> deposit_limit b <> None /\ update_limit b <> None)
  /\ (forall c, In c cs -> int4 (NOW - created_at c) <> None)
  /\ (forall a, In a accs ->
        int4 (NOW - COALESCE (last_contact_date a) (acc_created_at a)) <> None).

Lemma check_sla_breaches_returns NOW cs accs bs :
  withinInteger NOW cs accs bs ->
  exists rows, check_sla_breaches NOW cs accs bs = Some rows.
Proof.
  intros (Hb & Hc & Ha). unfold check_sla_breaches.
  assert (Hd : exists d, deposit_breaches NOW cs accs bs = Some d).
  { unfold deposit_breaches. apply gather_returns. intros c Hcin.
    assert (G : exists r, gather (fun a => gather (deposit_row NOW c) (banks_of bs a))
                            (accounts_of accs c) = Some r); [|destruct G as [r ->]; discriminate].
    apply gather_returns. intros a Hain.
    assert (G : exists r, gather (deposit_row NOW c) (banks_of bs a) = Some r);
      [|destruct G as [r ->]; discriminate].
    apply gather_returns. intros b Hbin.
    unfold banks_of in Hbin. apply filter_In in Hbin as [Hbin _].
    unfold deposit_row.
    destruct (is_pending (status c) && is_deposit_style (type c)); [|discriminate].
    destruct (deposit_limit b) as [limit|] eqn:El;
      [|exfalso; now apply (proj1 (Hb b Hbin))].
    destruct (NOW - created_at c >? limit); [|discriminate].
    destruct (int4 (NOW - created_at c)) eqn:Es; [discriminate|].
    exfalso. now apply (Hc c Hcin). }
  assert (Hu : exists u, update_breaches NOW accs bs = Some u).
  { unfold update_breaches. apply gather_returns. intros a Hain.
    assert (G : exists r, gather (update_row NOW a) (banks_of bs a) = Some r);
      [|destruct G as [r ->]; discriminate].
    apply gather_returns. intros b Hbin.
    unfold banks_of in Hbin. apply filter_In in Hbin as [Hbin _].
    unfold update_row.
    destruct (update_limit b) as [limit|] eqn:El;
      [|exfalso; now apply (proj2 (Hb b Hbin))].
    destruct (_ >? limit); [|discriminate].
    destruct (int4 _) eqn:Es; [discriminate|].
    exfalso. now apply (Ha a Hain). }
  destruct Hd as [d ->], Hu as [u ->]. now exists (d ++ u).
Qed.

(** C8, as amended.  Over tables in which the configured hours and days,
    their products in seconds and the ages in seconds fit a 32-bit integer,
    the sweep returns, and for every PENDING collection of type CASH or
    BANK_DEPOSIT whose age exceeds the bank's deposit SLA hours (48 hours
    when the bank configures none) its rows include a DEPOSIT_DELAY row for
    the collection's account.  The severity depends on the age alone, by
    fixed thresholds: CRITICAL above 48 hours, ERROR above 24 hours and up
    to 48, WARNING up to 24 hours.  In particular a CASH collection aged 50
    hours against a 24-hour SLA yields CRITICAL. *)
Theorem C8_deposit_delay_severity NOW cs accs bs c a b :
  withinInteger NOW cs accs bs ->
  In c cs -> In a accs -> In b bs ->
  account_id c = id a -> bank_id a = bank b ->
  status c = PENDING -> type c = CASH \/ type c = BANK_DEPOSIT ->
  NOW - created_at c > COALESCE (option_map (fun h => h * 3600) (depositHours b)) (48 * 3600) ->
  let elapsed := NOW - created_at c in
  exists rows,
    check_sla_breaches NOW cs accs bs = Some rows
    /\ (exists sev,
          In (mkBreach (account_id c) DEPOSIT_DELAY (Z.quot elapsed 3600) sev) rows
          /\ (elapsed > 48 * 3600 -> sev = CRITICAL)
          /\ (24 * 3600 < elapsed <= 48 * 3600 -> sev = ERROR)
          /\ (elapsed <= 24 * 3600 -> sev = WARNING))
    /\ (type c = CASH -> depositHours b = Some 24 -> elapsed = 50 * 3600 ->
        In (mkBreach (account_id c) DEPOSIT_DELAY 50 CRITICAL) rows).
Proof.
  intros Hfit Hc Ha Hb Hca Hab Hs Ht Hlate elapsed.
  destruct (check_sla_breaches_returns NOW cs accs bs Hfit) as [rows Hrows].
  exists rows. split; [exact Hrows|].
  assert (Hd : is_deposit_style (type c) = true) by (destruct Ht as [-> | ->]; reflexivity).
  assert (Hin : In (mkBreach (account_id c) DEPOSIT_DELAY (Z.quot elapsed 3600)
                             (deposit_severity elapsed)) rows).
  { apply check_sla_breaches_Some in Hrows as (d & u & Hdep & _ & ->).
    apply in_or_app. left.
    now apply (deposit_breaches_In NOW cs accs bs d c a b). }
  split.
  - exists (deposit_severity elapsed). split; [exact Hin|].
    unfold deposit_severity. repeat split; intros H.
    + destruct (Z.gtb_spec elapsed 172800); [reflexivity|lia].
    + destruct (Z.gtb_spec elapsed 172800); [lia|].
      destruct (Z.gtb_spec elapsed 86400); [reflexivity|lia].
    + destruct (Z.gtb_spec elapsed 172800); [lia|].
      destruct (Z.gtb_spec elapsed 86400); [lia|reflexivity].
  - intros _ _ He. rewrite He in Hin. exact Hin.
Qed.

(** The example of the specification: bank 1 with a 24-hour deposit SLA, a
    CASH collection created 50 hours before the sweep. *)
Definition bank24 : banks_row := mkBankRow 1%nat (Some 24) (Some 7).
Definition bank48 : banks_row := mkBankRow 2%nat (Some 48) (Some 7).
Definition account24 : accounts_row := mkAccountRow 10%nat 1%nat (Some 1000000) 0.
Definition account48 : accounts_row := mkAccountRow 20%nat 2%nat (Some 1000000) 0.
Definition NOW0 : Z := 1000000.
Definition cash50h (account : Id) : collections_row :=
  mkCollectionRow account CASH PENDING (NOW0 - 50 * 3600).

Lemma C8_witness :
  let elapsed := NOW0 - created_at (cash50h 10%nat) in
  exists rows,
    check_sla_breaches NOW0 [cash50h 10%nat] [account24] [bank24] = Some rows
    /\ (exists sev,
          In (mkBreach 10%nat DEPOSIT_DELAY (Z.quot elapsed 3600) sev) rows
          /\ (elapsed > 48 * 3600 -> sev = CRITICAL)
          /\ (24 * 3600 < elapsed <= 48 * 3600 -> sev = ERROR)
          /\ (elapsed <= 24 * 3600 -> sev = WARNING))
    /\ (CASH = CASH -> Some 24 = Some 24 -> elapsed = 50 * 3600 ->
        In (mkBreach 10%nat DEPOSIT_DELAY 50 CRITICAL) rows).
Proof.
  apply (C8_deposit_delay_severity NOW0 [cash50h 10%nat] [account24] [bank24]
           (cash50h 10%nat) account24 bank24).
  - unfold withinInteger. split; [|split]; intros x [<-|[]];
      try split; vm_compute; discriminate.
  - now left.
  - now left.
  - now left.
  - reflexivity.
  - reflexivity.
  - reflexivity.
  - now left.
  - reflexivity.
Defined.

Example sweep_50h_against_24h :
  check_sla_breaches NOW0 [cash50h 10%nat] [account24] [bank24]
  = Some [mkBreach 10%nat DEPOSIT_DELAY 50 CRITICAL].
Proof. reflexivity. Qed.

Example sweep_50h_against_48h :
  check_sla_breaches NOW0 [cash50h 20%nat] [account48] [bank48]
  = Some [mkBreach 20%nat DEPOSIT_DELAY 50 CRITICAL].
Proof. reflexivity. Qed.

Example tables_of_the_example_are_within_integer :
  withinInteger NOW0 [cash50h 10%nat] [account24] [bank24].
Proof.
  unfold withinInteger. split; [|split]; intros x [<-|[]];
    try split; vm_compute; discriminate.
Qed.

(** A second bank whose deposit SLA is 596524 hours: the product with 3600
    leaves the range, the first query raises on the pending collection of
    that bank, and the caller receives no row, not even the one of account
    10.  With 596523 hours the product fits and the sweep returns. *)
Definition bankFar (hours : Z) : banks_row := mkBankRow 3%nat (Some hours) None.
Definition accountFar : accounts_row := mkAccountRow 40%nat 3%nat (Some 1000000) 0.

Example product_leaves_the_range :
  deposit_limit (bankFar 596523) = Some 2147482800
  /\ deposit_limit (bankFar 596524) = None
  /\ update_limit (mkBankRow 3%nat None (Some 24855)) = Some 2147472000
  /\ update_limit (mkBankRow 3%nat None (Some 24856)) = None.
Proof. repeat split; reflexivity. Qed.

Example sweep_raises_on_an_overflowing_bank :
  check_sla_breaches NOW0 [cash50h 10%nat; cash50h 40%nat] [account24; accountFar]
    [bank24; bankFar 596524] = None
  /\ check_sla_breaches NOW0 [cash50h 10%nat; cash50h 40%nat] [account24; accountFar]
       [bank24; bankFar 596523]
     = Some [mkBreach 10%nat DEPOSIT_DELAY 50 CRITICAL].
Proof. split; reflexivity. Qed.

(** The claim of C8 as stated, for a reading [rule] of "relative to that
    bank's SLA": the row emitted for a breaching collection carries the
    severity the rule gives for the bank's SLA and the collection's age. *)
Definition severityRelativeToSla (rule : Z -> Z -> alert_severity) (NOW : Z)
           (cs : list collections_row) (accs : list accounts_row)
           (bs : list banks_row) : Prop :=
  forall c a b limit rows,
    In c cs -> In a accs -> In b bs ->
    account_id c = id a -> bank_id a = bank b ->
    status c = PENDING -> is_deposit_style (type c) = true ->
    deposit_limit b = Some limit ->
    NOW - created_at c > limit ->
    check_sla_breaches NOW cs accs bs = Some rows ->
    In (mkBreach (account_id c) DEPOSIT_DELAY (Z.quot (NOW - created_at c) 3600)
                 (rule limit (NOW - created_at c)))
       rows.

(** Against a 48-hour SLA, 50 hours is an overrun of 2 hours (WARNING by the
    overrun, ERROR by the elapsed time): the sweep says CRITICAL. *)
Lemma C8_counterexample :
  ~ severityRelativeToSla spec_severity_by_overrun NOW0 [cash50h 20%nat] [account48] [bank48]
  /\ ~ severityRelativeToSla spec_severity_by_elapsed NOW0 [cash50h 20%nat] [account48] [bank48].
Proof.
  split; intros H;
    specialize (H (cash50h 20%nat) account48 bank48 (48 * 3600)
                  [mkBreach 20%nat DEPOSIT_DELAY 50 CRITICAL]
                  (or_introl eq_refl) (or_introl eq_refl) (or_introl eq_refl)
                  eq_refl eq_refl eq_refl eq_refl eq_refl eq_refl eq_refl);
    destruct H as [H|[]]; discriminate H.
Qed.

(** The (type, account) combination of a candidate; the day is that of the
    run. *)
Definition breachKey (br : breach) : breach_kind * Id :=
  (breach_type br, breach_account_id br).

(** The claim of C9 as stated, on the sweep: over [n] runs, no combination is
    emitted twice. *)
Definition duplicateSafe (n : nat) (NOW : Z) (cs : list collections_row)
           (accs : list accounts_row) (bs : list banks_row) : Prop :=
  NoDup (map breachKey (runs n NOW cs accs bs)).

Lemma runs_concat n NOW cs accs bs :
  runs n NOW cs accs bs
  = List.concat (repeat (returned (check_sla_breaches NOW cs accs bs)) n).
Proof. induction n as [|n IH]; cbn; [reflexivity|]. now rewrite IH. Qed.

Lemma runs_length n NOW cs accs bs :
  List.length (runs n NOW cs accs bs)
  = (n * List.length (returned (check_sla_breaches NOW cs accs bs)))%nat.
Proof.
  induction n as [|n IH]; cbn; [reflexivity|]. rewrite length_app, IH. reflexivity.
Qed.

End SlaFacts.

(** ** The alert worker *)

Module AlertFacts.

Import Alerts.

Lemma alertWorker_alerts now job s :
  map combination (alerts (alertWorker now job s))
  = map combination (alerts s) ++ [(job_type job, job_accountId job, now / MS_PER_DAY)].
Proof. unfold alertWorker. cbn. rewrite map_app. reflexivity. Qed.

Lemma processAll_alerts now jobs s :
  map combination (alerts (processAll now jobs s))
  = map combination (alerts s)
    ++ map (fun job => (job_type job, job_accountId job, now / MS_PER_DAY)) jobs.
Proof.
  revert s. induction jobs as [|job jobs IH]; intros s; cbn.
  - now rewrite app_nil_r.
  - unfold processAll in IH. rewrite IH, alertWorker_alerts, <- app_assoc. reflexivity.
Qed.

(** The claim of C9 as stated, on the alert records: no two carry the same
    (type, account, day). *)
Definition alertsDistinct (s : WorkerStore) : Prop :=
  NoDup (map combination (alerts s)).

Definition noAlerts : WorkerStore :=
  mkWorkerStore [] [mkUser 1%nat "admin@example.com" ADMIN true] [] [].

Definition breachJob : AlertJobData :=
  mkJob SLA_BREACH (Some 10%nat) None
        [("fileNo", Js.JStr "F-001"); ("daysSinceUpdate", Js.JNum 3)].

Example one_job_one_alert :
  map (fun a => (title a, description a, severity a))
      (alerts (alertWorker 1709294400000 breachJob noAlerts))
  = [("SLA Breach: Account F-001",
      "Account F-001 has breached SLA requirements. No update for 3 days.",
      ERROR)]
  /\ map to (emailQueue (alertWorker 1709294400000 breachJob noAlerts))
     = [["admin@example.com"]].
Proof. vm_compute. split; reflexivity. Qed.

(** C9, as amended.  Neither the sweep nor the alert worker remembers what
    was emitted.  The sweep is a function of the tables and the instant:
    [n] runs over unchanged tables return the candidates of one run [n]
    times over.  The alert worker creates one alert record per job, with the
    job's type and account and the day of processing, whatever alerts exist
    already. *)
Theorem C9_every_run_emits_again :
  (forall n NOW cs accs bs,
      Sla.runs n NOW cs accs bs
      = List.concat (repeat (Sla.returned (Sla.check_sla_breaches NOW cs accs bs)) n)
      /\ List.length (Sla.runs n NOW cs accs bs)
         = (n * List.length (Sla.returned (Sla.check_sla_breaches NOW cs accs bs)))%nat)
  /\ (forall now jobs s,
         map combination (alerts (processAll now jobs s))
         = map combination (alerts s)
           ++ map (fun job => (job_type job, job_accountId job, now / MS_PER_DAY)) jobs).
Proof.
  split.
  - intros. split; [apply SlaFacts.runs_concat|apply SlaFacts.runs_length].
  - apply processAll_alerts.
Qed.

(** Two runs of the sweep over one late collection return its combination
    twice; two jobs for one account on one day leave two alert records. *)
Lemma C9_counterexample :
  ~ SlaFacts.duplicateSafe 2 SlaFacts.NOW0 [SlaFacts.cash50h 10%nat]
      [SlaFacts.account24] [SlaFacts.bank24]
  /\ ~ alertsDistinct (processAll 1709294400000 [breachJob; breachJob] noAlerts).
Proof.
  split; intros H.
  - unfold SlaFacts.duplicateSafe in H. vm_compute in H.
    inversion H as [|x l Hnin _]. apply Hnin. now left.
  - unfold alertsDistinct in H. rewrite processAll_alerts in H. cbn in H.
    inversion H as [|x l Hnin _]. apply Hnin. now left.
Qed.

End AlertFacts.

(* ===================================================================== *)
(** * Further properties of the code *)
(* ===================================================================== *)

(** ** The gateway: order of the checks, replay window, schema failures *)

Module GatewayMore.

Import Ledger Gateway GatewayFacts.

Lemma hex_text_has_no_prefix (b : Crypto.Buffer) :
  occurs "sha256=" (Crypto.toString_hex b) = false.
Proof.
  induction b as [|x b IH]; [reflexivity|].
  cbn [Crypto.toString_hex].
  destruct x; cbn; exact IH.
Qed.

Lemma expected_read_back (secret : string) (req : Request) (signature : string) :
  signature = expectedSignature secret (timestampHeader req) (body req)
  \/ signature = String.append "sha256="
                   (expectedSignature secret (timestampHeader req) (body req)) ->
  providedBytes signature = digestOf secret req.
Proof.
  intros [-> | ->]; unfold providedBytes.
  - rewrite providedSignature_plain; [apply expected_decoded|].
    unfold expectedSignature, Crypto.hmac_hex. apply hex_text_has_no_prefix.
  - rewrite providedSignature_prefixed. apply expected_decoded.
Qed.

(** Without a usable secret for the provider no request is let through: a
    request without a signature header is answered 401, any other 500
    "Webhook not configured", and the store is left as it was. *)
Theorem unset_secret_is_never_accepted uniq D env provider now req s :
  Js.truthy (secretOf provider env) = None ->
  verifyWebhookSignature provider env now req <> Next
  /\ (signatureHeader req = None ->
      post uniq D env provider now req s
      = (mkResponse 401 (Failure "Missing signature header"), s))
  /\ (signatureHeader req <> None ->
      post uniq D env provider now req s
      = (mkResponse 500 (Failure "Webhook not configured"), s)).
Proof.
  intros Hsec. unfold post, verifyWebhookSignature. rewrite Hsec.
  destruct (signatureHeader req) as [sig|]; repeat split; try discriminate;
    intros H; try reflexivity; congruence.
Qed.

Definition envNoNagad : Env := mkEnv (Some "whsec_bkash") (Some "").

Lemma unset_secret_is_never_accepted_witness :
  let s := mkStore [] [] [] [] in
  verifyWebhookSignature nagad envNoNagad 0 signed0 <> Next
  /\ (signatureHeader signed0 = None ->
      post false Iso.getTime envNoNagad nagad 0 signed0 s
      = (mkResponse 401 (Failure "Missing signature header"), s))
  /\ (signatureHeader signed0 <> None ->
      post false Iso.getTime envNoNagad nagad 0 signed0 s
      = (mkResponse 500 (Failure "Webhook not configured"), s)).
Proof.
  apply (unset_secret_is_never_accepted false Iso.getTime envNoNagad nagad 0 signed0
           (mkStore [] [] [] [])).
  reflexivity.
Defined.

(** A request that carries the HMAC the provider computes with the shared
    secret, as bare hex or behind ["sha256="], passes the comparison
    whatever its headers and its body, for a body on which the model is
    exact ([Js.exact]: whole numbers up to 2^53 - 1 in magnitude, member
    names distinct and not array indices): only the timestamp check
    remains, and without a timestamp header the request is let through. *)
Theorem provider_signature_is_accepted provider env now req secret :
  Js.exact (body req) = true ->
  Js.truthy (secretOf provider env) = Some secret ->
  signatureHeader req = Some (expectedSignature secret (timestampHeader req) (body req))
  \/ signatureHeader req
     = Some (String.append "sha256="
               (expectedSignature secret (timestampHeader req) (body req))) ->
  verifyWebhookSignature provider env now req = checkTimestamp (timestampHeader req) now
  /\ (timestampHeader req = None -> verifyWebhookSignature provider env now req = Next).
Proof.
  intros _ Hsec Hsig.
  assert (Hv : verifyWebhookSignature provider env now req
               = checkTimestamp (timestampHeader req) now).
  { destruct Hsig as [Hsig|Hsig];
      rewrite (verify_compare provider env now req _ secret Hsig Hsec);
      rewrite (expected_read_back secret req _); auto;
      rewrite timingSafeEqual_same; reflexivity. }
  split; [exact Hv|]. intros Hts. rewrite Hv, Hts. reflexivity.
Qed.

Lemma provider_signature_is_accepted_witness :
  verifyWebhookSignature bkash env0 0 signed0 = checkTimestamp (timestampHeader signed0) 0
  /\ (timestampHeader signed0 = None -> verifyWebhookSignature bkash env0 0 signed0 = Next).
Proof.
  apply (provider_signature_is_accepted bkash env0 0 signed0 "whsec_bkash").
  - reflexivity.
  - reflexivity.
  - right. reflexivity.
Defined.

(** What [Js.exact] leaves out, and why: the texts below are the model's,
    and [JSON.stringify] prints these two numbers as [1e+21] and
    [9007199254740992]. *)
Example numbers_beyond_the_safe_integers :
  Js.exact (Js.JNum (10 ^ 21)) = false
  /\ Js.JSON_stringify (Js.JNum (10 ^ 21)) = "1000000000000000000000"
  /\ Js.exact (Js.JNum (2 ^ 53 + 1)) = false
  /\ Js.JSON_stringify (Js.JNum (2 ^ 53 + 1)) = "9007199254740993"
  /\ Js.exact (Js.JNum (2 ^ 53 - 1)) = true
  /\ Js.JSON_stringify (Js.JNum (2 ^ 53 - 1)) = "9007199254740991"
  /\ Js.exact body0 = true
  /\ Js.exact (Js.JObj [("b", Js.JNum 1); ("2", Js.JNum 2)]) = false
  /\ Js.exact (Js.JObj [("a", Js.JNum 1); ("a", Js.JNum 2)]) = false
  /\ Js.exact (Js.JObj [("", Js.JArr [Js.JNull; Js.JStr "a2"]); ("a2", Js.JNum (-7))]) = true.
Proof. repeat split; vm_compute; reflexivity. Qed.

(** A request is let through only with the HMAC of its own canonical
    string: when the middleware calls [next], the signature header, with
    ["sha256="] removed and read as hex, is the HMAC-SHA256, keyed by the
    provider's secret, of [timestamp + "." + JSON.stringify(body)] when a
    timestamp header is there and of [JSON.stringify(body)] otherwise.  A
    body altered after signing is therefore let through only if the
    serialised text of the altered body has the digest that was signed. *)
Theorem accepted_request_carries_its_digest provider env now req :
  Js.exact (body req) = true ->
  verifyWebhookSignature provider env now req = Next ->
  exists signature secret,
    signatureHeader req = Some signature
    /\ Js.truthy (secretOf provider env) = Some secret
    /\ Crypto.Buffer_from_hex (Js.replace "sha256=" "" signature)
       = Crypto.hmac_sha256 (Crypto.Buffer_from_utf8 secret)
           (Crypto.Buffer_from_utf8
              match timestampHeader req with
              | Some t => String.append t (String "." (Js.JSON_stringify (body req)))
              | None => Js.JSON_stringify (body req)
              end).
Proof.
  intros _ Hnext.
  destruct (signatureHeader req) as [signature|] eqn:Hsig.
  2:{ unfold verifyWebhookSignature in Hnext. rewrite Hsig in Hnext. discriminate. }
  destruct (Js.truthy (secretOf provider env)) as [secret|] eqn:Hsec.
  2:{ unfold verifyWebhookSignature in Hnext. rewrite Hsig, Hsec in Hnext. discriminate. }
  exists signature, secret. split; [reflexivity|]. split; [reflexivity|].
  rewrite (verify_compare provider env now req signature secret Hsig Hsec) in Hnext.
  destruct (Crypto.timingSafeEqual (digestOf secret req) (providedBytes signature))
    as [[|]|] eqn:E; try discriminate Hnext.
  symmetry. exact (timingSafeEqual_true _ _ E).
Qed.

Lemma accepted_request_carries_its_digest_witness :
  exists signature secret,
    signatureHeader signed0 = Some signature
    /\ Js.truthy (secretOf bkash env0) = Some secret
    /\ Crypto.Buffer_from_hex (Js.replace "sha256=" "" signature)
       = Crypto.hmac_sha256 (Crypto.Buffer_from_utf8 secret)
           (Crypto.Buffer_from_utf8
              match timestampHeader signed0 with
              | Some t => String.append t (String "." (Js.JSON_stringify (body signed0)))
              | None => Js.JSON_stringify (body signed0)
              end).
Proof.
  apply (accepted_request_carries_its_digest bkash env0 0 signed0).
  - reflexivity.
  - vm_compute. reflexivity.
Defined.

(** The replay window, for a correctly signed request whose timestamp header
    reads as [seconds]: it is let through when the clock is within five
    minutes of it, either side and the bounds included, and answered 401
    "Request timestamp too old" otherwise, a timestamp in the future
    included; the store is left as it was. *)
Theorem timestamp_window uniq D env provider now req s signature secret t seconds :
  signatureHeader req = Some signature ->
  Js.truthy (secretOf provider env) = Some secret ->
  providedBytes signature = digestOf secret req ->
  timestampHeader req = Some t ->
  Js.parseInt t = Some seconds ->
  (Z.abs (now - seconds * 1000) <= 300000 ->
   verifyWebhookSignature provider env now req = Next)
  /\ (300000 < Z.abs (now - seconds * 1000) ->
      post uniq D env provider now req s
      = (mkResponse 401 (Failure "Request timestamp too old"), s)).
Proof.
  intros Hsig Hsec Heq Hts Hp.
  assert (Hv : verifyWebhookSignature provider env now req
               = checkTimestamp (Some t) now).
  { rewrite (verify_compare provider env now req _ secret Hsig Hsec), Heq,
      timingSafeEqual_same, Hts. reflexivity. }
  unfold checkTimestamp in Hv. rewrite Hp in Hv. unfold TOLERANCE_MS in Hv.
  split; intros H.
  - rewrite Hv. destruct (Z.gtb_spec (Z.abs (now - seconds * 1000)) (5 * 60 * 1000));
      [lia|reflexivity].
  - apply post_rejected. rewrite Hv.
    destruct (Z.gtb_spec (Z.abs (now - seconds * 1000)) (5 * 60 * 1000));
      [reflexivity|lia].
Qed.

(** The request of [signed0] with a timestamp header, signed over
    [timestamp + "." + body]. *)
Definition stamped (t : string) : Request :=
  mkRequest [ ("x-timestamp", t);
              ("x-signature",
               String.append "sha256=" (expectedSignature "whsec_bkash" (Some t) body0)) ]
            body0.

Lemma timestamp_window_witness :
  let s := mkStore [] [] [] [] in
  (Z.abs (1709298301000 - 1709298000 * 1000) <= 300000 ->
   verifyWebhookSignature bkash env0 1709298301000 (stamped "1709298000") = Next)
  /\ (300000 < Z.abs (1709298301000 - 1709298000 * 1000) ->
      post false Iso.getTime env0 bkash 1709298301000 (stamped "1709298000") s
      = (mkResponse 401 (Failure "Request timestamp too old"), s)).
Proof.
  apply (timestamp_window false Iso.getTime env0 bkash 1709298301000
           (stamped "1709298000") (mkStore [] [] [] [])
           (String.append "sha256="
              (expectedSignature "whsec_bkash" (Some "1709298000") body0))
           "whsec_bkash" "1709298000" 1709298000).
  - reflexivity.
  - reflexivity.
  - apply expected_read_back. right. reflexivity.
  - reflexivity.
  - reflexivity.
Defined.

Example stale_by_one_second :
  verifyWebhookSignature bkash env0 1709298301000 (stamped "1709298000")
  = Respond (mkResponse 401 (Failure "Request timestamp too old"))
  /\ verifyWebhookSignature bkash env0 1709298300000 (stamped "1709298000") = Next.
Proof. split; vm_compute; reflexivity. Qed.

(** What [parseInt] reads in a timestamp header.  White space before the
    number is skipped, the no-break space and the byte order mark included
    (here in UTF-8: bytes 194 160 and 239 187 191); the number ends at the
    first character that is not a digit. *)
Definition nbsp : string := String (ascii_of_N 194) (String (ascii_of_N 160) "").
Definition bom : string :=
  String (ascii_of_N 239) (String (ascii_of_N 187) (String (ascii_of_N 191) "")).

Example parseInt_readings :
  Js.parseInt "1709298000" = Some 1709298000
  /\ Js.parseInt " 1709298000" = Some 1709298000
  /\ Js.parseInt (String.append nbsp "1709298000") = Some 1709298000
  /\ Js.parseInt (String.append bom (String.append nbsp " 1709298000")) = Some 1709298000
  /\ Js.parseInt "1709298000.75" = Some 1709298000
  /\ Js.parseInt "1e3" = Some 1
  /\ Js.parseInt "-12" = Some (-12)
  /\ Js.parseInt "0x10" = Some 16
  /\ Js.parseInt "yesterday" = None
  /\ Js.parseInt "- 12" = None
  /\ Js.parseInt ".5" = None
  /\ Js.parseInt "0x" = None
  /\ Js.parseInt nbsp = None.
Proof. repeat split; reflexivity. Qed.

(** A correctly signed request whose timestamp header does not start with a
    number ([parseInt] gives [NaN]: after the white space and a sign there
    is no digit) is let through whatever the clock reads: [NaN > 300000]
    is false, so the replay check does not apply to it.  The header is a
    string ([Js.utf8]) and the body one on which the model is exact. *)
Theorem unreadable_timestamp_skips_replay_check provider env now req signature secret t :
  Js.exact (body req) = true ->
  signatureHeader req = Some signature ->
  Js.truthy (secretOf provider env) = Some secret ->
  providedBytes signature = digestOf secret req ->
  timestampHeader req = Some t ->
  Js.utf8 t = true ->
  Js.parseInt t = None ->
  verifyWebhookSignature provider env now req = Next.
Proof.
  intros _ Hsig Hsec Heq Hts _ Hp.
  rewrite (verify_compare provider env now req _ secret Hsig Hsec), Heq,
    timingSafeEqual_same, Hts.
  unfold checkTimestamp. rewrite Hp. reflexivity.
Qed.

Lemma unreadable_timestamp_skips_replay_check_witness :
  verifyWebhookSignature bkash env0 4102444800000 (stamped "yesterday") = Next.
Proof.
  apply (unreadable_timestamp_skips_replay_check bkash env0 4102444800000
           (stamped "yesterday")
           (String.append "sha256="
              (expectedSignature "whsec_bkash" (Some "yesterday") body0))
           "whsec_bkash" "yesterday").
  - reflexivity.
  - reflexivity.
  - reflexivity.
  - apply expected_read_back. right. reflexivity.
  - reflexivity.
  - reflexivity.
  - reflexivity.
Defined.

(** The same request with the timestamp written after a no-break space:
    [parseInt] reads the number, and a stale one is refused. *)
Example timestamp_after_a_no_break_space :
  verifyWebhookSignature bkash env0 4102444800000
    (stamped (String.append nbsp "1709298000"))
  = Respond (mkResponse 401 (Failure "Request timestamp too old"))
  /\ verifyWebhookSignature bkash env0 1709298000000
       (stamped (String.append nbsp "1709298000"))
     = Next.
Proof. split; vm_compute; reflexivity. Qed.

(** A request that passed the signature check but whose body has no positive
    number under [amount] (absent, not a number, zero or negative) is
    answered 400 "Invalid webhook payload" on either route; no Prisma call is
    made and no row is written, not even a webhookLog row. *)
Theorem amount_not_positive_is_refused uniq D env provider now req s o :
  verifyWebhookSignature provider env now req = Next ->
  body req = Js.JObj o ->
  zNumberPositive o "amount" = None ->
  post uniq D env provider now req s
  = (mkResponse 400 (HandlerError "Invalid webhook payload"), s).
Proof.
  intros Hv Hb Ha. unfold post. rewrite Hv.
  destruct provider; unfold handle, bkashWebhookSchema, nagadWebhookSchema;
    rewrite Hb; unfold bind; rewrite Ha.
  - destruct (zString o "txnId"); reflexivity.
  - destruct (zString o "paymentRefId"); reflexivity.
Qed.

Definition zeroAmount : Js.Json :=
  Js.JObj [ ("txnId", Js.JStr "X1"); ("amount", Js.JNum 0);
            ("status", Js.JStr "SUCCESS");
            ("date", Js.JStr "2024-03-01T13:00:00.000Z");
            ("signature", Js.JStr "sig") ].

Definition signedZero : Request :=
  mkRequest [("x-signature", sign "whsec_bkash" zeroAmount)] zeroAmount.

Lemma amount_not_positive_is_refused_witness :
  let s := mkStore [] [] [] [] in
  post false Iso.getTime env0 bkash 0 signedZero s
  = (mkResponse 400 (HandlerError "Invalid webhook payload"), s).
Proof.
  apply (amount_not_positive_is_refused false Iso.getTime env0 bkash 0 signedZero
           (mkStore [] [] [] [])
           [ ("txnId", Js.JStr "X1"); ("amount", Js.JNum 0);
             ("status", Js.JStr "SUCCESS");
             ("date", Js.JStr "2024-03-01T13:00:00.000Z");
             ("signature", Js.JStr "sig") ]).
  - vm_compute. reflexivity.
  - reflexivity.
  - reflexivity.
Defined.

End GatewayMore.

(** ** The ledger: what a delivery writes and what it leaves alone *)

Module LedgerMore.

Import Ledger LedgerFacts.

(** The columns a collection is submitted with. *)
Definition submitted (c : Collection) : Id * Id * CollectionType * Z * Z * Z :=
  (c_id c, c_accountId c, c_type c, c_amount c, c_collectionDate c, c_createdAt c).

(** Every reconciliation points at a collection and at a webhookLog row that
    exist. *)
Definition linked (s : Store) : Prop :=
  forall r, In r (reconciliations s) ->
    (exists c, In c (collections s) /\ c_id c = r_collectionId r)
    /\ (exists w, In w (webhookLogs s) /\ wl_id w = r_webhookLogId r).

(** Every collection a reconciliation points at is APPROVED and flagged
    matched. *)
Definition reconciledApproved (s : Store) : Prop :=
  forall r c, In r (reconciliations s) -> In c (collections s) ->
              c_id c = r_collectionId r ->
              c_status c = APPROVED /\ c_isMatched c = true.

Lemma updateWhereId_ids id f rows :
  (forall c, c_id (f c) = c_id c) ->
  map c_id (updateWhereId id f rows) = map c_id rows.
Proof.
  intros Hf. unfold updateWhereId. rewrite map_map. apply map_ext.
  intros c. destruct (Nat.eqb (c_id c) id); [apply Hf|reflexivity].
Qed.

Lemma updateWhereId_submitted id txnId payload rows :
  map submitted (updateWhereId id (matchedUpdate txnId payload) rows) = map submitted rows.
Proof.
  unfold updateWhereId. rewrite map_map. apply map_ext.
  intros c. destruct (Nat.eqb (c_id c) id); reflexivity.
Qed.

Lemma same_id_same_row (rows : list Collection) a b :
  NoDup (map c_id rows) -> In a rows -> In b rows -> c_id a = c_id b -> a = b.
Proof.
  induction rows as [|x rows IH]; cbn; [intros _ []|].
  intros Hnd Ha Hb Hid. apply NoDup_cons_iff in Hnd as [Hx Hnd].
  destruct Ha as [<-|Ha], Hb as [<-|Hb]; auto.
  - exfalso. apply Hx. rewrite Hid. now apply in_map.
  - exfalso. apply Hx. rewrite <- Hid. now apply in_map.
Qed.

Lemma updateWhereId_other id f rows c :
  In c rows -> c_id c <> id -> In c (updateWhereId id f rows).
Proof.
  intros Hin Hne. unfold updateWhereId. apply in_map_iff. exists c.
  split; [|exact Hin]. destruct (Nat.eqb_spec (c_id c) id); [contradiction|reflexivity].
Qed.

Lemma matchTypeOf_iff txnId c :
  matchTypeOf txnId c = EXACT <-> c_txnId c = Some txnId.
Proof.
  split; intros H.
  - unfold matchTypeOf in H. destruct (c_txnId c) as [t|]; [|discriminate].
    destruct (String.eqb_spec txnId t); [congruence|discriminate].
  - now apply matchTypeOf_exact.
Qed.

Section OneDelivery.

Variable webhookLog_unique : bool.
Variable Date_getTime : string -> option Z.
Variable now : Z.
Variables (provider : CollectionType) (txnId : string) (amount : Z)
          (status date : string) (payload : Payload).

#[local] Abbreviation process :=
  (processWebhook Date_getTime now provider txnId amount status date payload).
#[local] Abbreviation theLog :=
  (newLog now provider txnId amount status payload).
#[local] Abbreviation dup :=
  (duplicateKey webhookLog_unique provider txnId).

(** The three shapes of the store after a delivery. *)
Lemma delivery_store s :
  (dup s = true
   /\ snd (run webhookLog_unique process s)
      = logged (qCreate now provider txnId amount status payload) s)
  \/ (dup s = false
      /\ exists issued,
           snd (run webhookLog_unique process s)
           = recorded now provider txnId amount status payload s issued)
  \/ (dup s = false
      /\ exists c issued,
           In c (collections s) /\ c_type c = provider /\ c_status c = PENDING
           /\ run webhookLog_unique process s
              = (inr (mkResult true (Some (c_id c)) (wl_id (theLog s))),
                 claimed now provider txnId amount status payload s c issued)).
Proof.
  pose proof (run_Delivery webhookLog_unique Date_getTime now provider txnId amount
                           status date payload s) as Dl.
  destruct (run webhookLog_unique process s) as [o s'].
  inversion Dl as [Hd | o' issued Hd Ho | c issued Hd Hin Hty Hs]; subst.
  - left. now split.
  - right. left. split; [assumption|]. now exists issued.
  - right. right. split; [assumption|]. exists c, issued. auto.
Qed.

(** An event whose status is neither SUCCESS nor COMPLETED (the comparison
    is exact, so "success" in lower case is such a status) is logged and
    nothing else: one Prisma call, no search, no collection or
    reconciliation touched, and the answer says unmatched. *)
Theorem other_status_is_only_logged s :
  status <> "SUCCESS" -> status <> "COMPLETED" ->
  dup s = false ->
  let out := run webhookLog_unique process s in
  fst out = inr (mkResult false None (wl_id (theLog s)))
  /\ collections (snd out) = collections s
  /\ reconciliations (snd out) = reconciliations s
  /\ webhookLogs (snd out)
     = webhookLogs s
       ++ [mkWebhookLog (wl_id (theLog s)) provider txnId amount status payload now]
  /\ queries (snd out)
     = queries s ++ [WebhookLogCreate provider txnId amount status payload now].
Proof.
  intros H1 H2 Hd out. subst out.
  assert (Hst : isSuccess status = false).
  { unfold isSuccess. destruct (String.eqb_spec status "SUCCESS"); [contradiction|].
    destruct (String.eqb_spec status "COMPLETED"); [contradiction|reflexivity]. }
  rewrite (run_other_status webhookLog_unique Date_getTime now provider txnId amount
             status date payload s Hd Hst).
  cbn. repeat split.
Qed.

(** Unless the insert itself is refused, a delivery leaves its webhookLog
    row behind whatever happens next: no match, a claim, or an error thrown
    by a later call. *)
Theorem delivery_always_leaves_its_log_row s :
  dup s = false ->
  webhookLogs (snd (run webhookLog_unique process s)) = webhookLogs s ++ [theLog s]
  /\ wl_provider (theLog s) = provider /\ wl_txnId (theLog s) = txnId
  /\ wl_amount (theLog s) = amount /\ wl_status (theLog s) = status
  /\ wl_payload (theLog s) = payload.
Proof.
  intros Hd. split; [|now repeat split].
  destruct (delivery_store s) as [[Hd' _]|[[_ (issued & ->)]|[_ (c & issued & _ & _ & _ & ->)]]];
    [congruence|reflexivity|reflexivity].
Qed.

(** Only pending rows of the event's provider are claimed: the collection
    named in an answer was in the table, PENDING and of the provider's type,
    when the delivery began. *)
Theorem only_pending_rows_of_the_provider_are_claimed s r s' cid :
  run webhookLog_unique process s = (inr r, s') ->
  collectionId r = Some cid ->
  matched r = true
  /\ exists c, In c (collections s) /\ c_id c = cid /\ c_type c = provider
               /\ c_status c = PENDING.
Proof.
  intros Hrun Hcid.
  pose proof (run_Delivery webhookLog_unique Date_getTime now provider txnId amount
                           status date payload s) as Dl.
  rewrite Hrun in Dl.
  inversion Dl as [Hd | o' issued Hd Ho | c issued Hd Hin Hty Hs]; subst.
  - destruct Ho as [Ho|Ho]; [|discriminate]. injection Ho as ->. discriminate Hcid.
  - cbn in Hcid. injection Hcid as <-. split; [reflexivity|]. exists c. auto.
Qed.

(** The reconciliation written for a claim is EXACT exactly when the claimed
    row carried the event's transaction id before the update (the type is
    read off the row as it was fetched, not as it was updated). *)
Theorem match_type_tells_the_prior_id s r s' :
  run webhookLog_unique process s = (inr r, s') ->
  matched r = true ->
  exists c rec,
    In c (collections s) /\ collectionId r = Some (c_id c)
    /\ reconciliations s' = reconciliations s ++ [rec]
    /\ r_collectionId rec = c_id c /\ r_webhookLogId rec = webhookLogId r
    /\ (r_matchType rec = EXACT <-> c_txnId c = Some txnId)
    /\ (r_matchType rec = FUZZY <-> c_txnId c <> Some txnId).
Proof.
  intros Hrun Hm.
  pose proof (run_Delivery webhookLog_unique Date_getTime now provider txnId amount
                           status date payload s) as Dl.
  rewrite Hrun in Dl.
  inversion Dl as [Hd | o' issued Hd Ho | c issued Hd Hin Hty Hs]; subst.
  - destruct Ho as [Ho|Ho]; [|discriminate]. injection Ho as ->. discriminate Hm.
  - exists c, (newReconciliation now (c_type c) txnId amount status payload s c).
    cbn. repeat split; try assumption; try reflexivity.
    + apply matchTypeOf_iff.
    + apply matchTypeOf_iff.
    + intros Hf He. apply matchTypeOf_iff in He. congruence.
    + intros Hne. destruct (matchTypeOf txnId c) eqn:E; [|reflexivity].
      apply matchTypeOf_iff in E. contradiction.
Qed.

Lemma delivery_keeps_submitted s :
  map submitted (collections (snd (run webhookLog_unique process s)))
  = map submitted (collections s).
Proof.
  destruct (delivery_store s) as [[_ ->]|[[_ (issued & ->)]|[_ (c & issued & _ & _ & _ & ->)]]];
    try reflexivity.
  cbn. apply updateWhereId_submitted.
Qed.

Lemma delivery_keeps_settled_rows s c :
  NoDup (map c_id (collections s)) ->
  In c (collections s) -> c_status c <> PENDING ->
  In c (collections (snd (run webhookLog_unique process s))).
Proof.
  intros Hnd Hin Hs.
  destruct (delivery_store s) as [[_ ->]|[[_ (issued & ->)]|[_ (c0 & issued & Hin0 & _ & Hs0 & ->)]]];
    try exact Hin.
  cbn. apply updateWhereId_other; [exact Hin|].
  intros Hid. apply (same_id_same_row _ _ _ Hnd Hin Hin0) in Hid. congruence.
Qed.

Lemma delivery_keeps_linked s :
  linked s -> linked (snd (run webhookLog_unique process s)).
Proof.
  intros Hl.
  destruct (delivery_store s) as [[_ ->]|[[_ (issued & ->)]|[_ (c0 & issued & Hin0 & _ & _ & ->)]]].
  - exact Hl.
  - intros r Hr. cbn in Hr. destruct (Hl r Hr) as [Hc (w & Hw & Hwid)].
    split; [exact Hc|]. exists w. cbn. split; [apply in_or_app; now left|exact Hwid].
  - intros r Hr. cbn in Hr |- *.
    assert (Hids : forall x, In x (collections s) ->
                     exists y, In y (updateWhereId (c_id c0) (matchedUpdate txnId payload)
                                                   (collections s))
                               /\ c_id y = c_id x).
    { intros x Hx.
      exists (if Nat.eqb (c_id x) (c_id c0) then matchedUpdate txnId payload x else x).
      split.
      - unfold updateWhereId. apply in_map_iff. now exists x.
      - destruct (Nat.eqb (c_id x) (c_id c0)); reflexivity. }
    apply in_app_or in Hr as [Hr|[<-|[]]].
    + destruct (Hl r Hr) as [(c & Hc & Hcid) (w & Hw & Hwid)]. split.
      * destruct (Hids c Hc) as (y & Hy & Hyid). exists y. split; [exact Hy|congruence].
      * exists w. split; [apply in_or_app; now left|exact Hwid].
    + cbn. split.
      * destruct (Hids c0 Hin0) as (y & Hy & Hyid). now exists y.
      * exists (theLog s). split; [apply in_or_app; right; now left|reflexivity].
Qed.

Lemma delivery_keeps_reconciledApproved s :
  reconciledApproved s -> reconciledApproved (snd (run webhookLog_unique process s)).
Proof.
  intros Hra.
  destruct (delivery_store s) as [[_ ->]|[[_ (issued & ->)]|[_ (c0 & issued & Hin0 & _ & _ & ->)]]];
    try exact Hra.
  intros r c Hr Hc Hid. cbn in Hr, Hc.
  unfold updateWhereId in Hc. apply in_map_iff in Hc as (x & Hx & Hxin).
  destruct (Nat.eqb_spec (c_id x) (c_id c0)) as [E|E]; subst c.
  - cbn. split; reflexivity.
  - apply in_app_or in Hr as [Hr|[<-|[]]].
    + exact (Hra r x Hr Hxin Hid).
    + cbn in Hid. contradiction.
Qed.

End OneDelivery.

Lemma delivery_keeps_ids uniq D now provider txnId amount status date payload s :
  map c_id (collections
              (snd (run uniq (processWebhook D now provider txnId amount status date payload) s)))
  = map c_id (collections s).
Proof.
  pose proof (delivery_keeps_submitted uniq D now provider txnId amount status date payload s)
    as H.
  apply (f_equal (map (fun t : Id * Id * CollectionType * Z * Z * Z =>
                         fst (fst (fst (fst (fst t))))))) in H.
  rewrite !map_map in H. exact H.
Qed.

(** Deliveries never add, remove or reorder collections, and never alter the
    columns a collection was submitted with (id, account, type, amount,
    collection date, creation date): after any sequence of deliveries these
    read as before, row by row. *)
Theorem deliveries_keep_submitted_columns uniq D events s :
  map submitted (collections (deliverAll uniq D events s))
  = map submitted (collections s).
Proof.
  revert s. induction events as [|e events IH]; intros s; [reflexivity|].
  cbn [deliverAll fold_left]. fold (deliverAll uniq D events (deliver uniq D e s)).
  rewrite IH. unfold deliver, handler. destruct e as [now d|now d];
    apply delivery_keeps_submitted.
Qed.

(** With ids unique in the table, a collection that is APPROVED or REJECTED
    is left exactly as it is by every sequence of deliveries: the webhook
    path only ever writes to PENDING rows. *)
Theorem settled_rows_are_never_touched uniq D events s c :
  NoDup (map c_id (collections s)) ->
  In c (collections s) -> c_status c <> PENDING ->
  In c (collections (deliverAll uniq D events s)).
Proof.
  revert s. induction events as [|e events IH]; intros s Hnd Hin Hs; [exact Hin|].
  cbn [deliverAll fold_left]. fold (deliverAll uniq D events (deliver uniq D e s)).
  apply IH; [| |exact Hs]; unfold deliver, handler; destruct e as [now d|now d].
  - unfold processBkashWebhook. now rewrite delivery_keeps_ids.
  - unfold processNagadWebhook. now rewrite delivery_keeps_ids.
  - now apply delivery_keeps_settled_rows.
  - now apply delivery_keeps_settled_rows.
Qed.

(** Reconciliations stay linked: from a store in which every reconciliation
    points at an existing collection and an existing webhookLog row, every
    sequence of deliveries leads to such a store. *)
Theorem reconciliations_stay_linked uniq D events s :
  linked s -> linked (deliverAll uniq D events s).
Proof.
  revert s. induction events as [|e events IH]; intros s Hl; [exact Hl|].
  cbn [deliverAll fold_left]. apply IH. unfold deliver, handler.
  destruct e as [now d|now d]; now apply delivery_keeps_linked.
Qed.

(** Every reconciled collection is APPROVED and flagged matched: the property
    holds after every sequence of deliveries from a store that has it. *)
Theorem reconciled_rows_are_approved uniq D events s :
  reconciledApproved s -> reconciledApproved (deliverAll uniq D events s).
Proof.
  revert s. induction events as [|e events IH]; intros s Hl; [exact Hl|].
  cbn [deliverAll fold_left]. apply IH. unfold deliver, handler.
  destruct e as [now d|now d]; now apply delivery_keeps_reconciledApproved.
Qed.

(** *** Worked inputs *)

Definition eventFailed : BkashData :=
  mkBkashData "X9" 10000 "BDT" "FAILED" "2024-03-01T13:00:00.000Z" None None "sig".

Definition eventNoDate : BkashData :=
  mkBkashData "X1" 10000 "BDT" "SUCCESS" "1 March, about one o'clock" None None "sig".

Definition rejected : Collection :=
  mkCollection 5%nat 104%nat BKASH 10000 T0 (Some "REF-5") REJECTED false None T0.

Lemma other_status_is_only_logged_witness :
  let s := storeOf [older] in
  let out := run false (processBkashWebhook Iso.getTime (T0 + HOUR_MS) eventFailed) s in
  fst out = inr (mkResult false None 1%nat)
  /\ collections (snd out) = collections s
  /\ reconciliations (snd out) = reconciliations s
  /\ webhookLogs (snd out)
     = webhookLogs s
       ++ [mkWebhookLog 1%nat BKASH "X9" 10000 "FAILED" (BkashPayload eventFailed)
                        (T0 + HOUR_MS)]
  /\ queries (snd out)
     = queries s
       ++ [WebhookLogCreate BKASH "X9" 10000 "FAILED" (BkashPayload eventFailed)
                            (T0 + HOUR_MS)].
Proof.
  apply (other_status_is_only_logged false Iso.getTime (T0 + HOUR_MS) BKASH "X9" 10000
           "FAILED" "2024-03-01T13:00:00.000Z" (BkashPayload eventFailed)
           (storeOf [older])).
  - discriminate.
  - discriminate.
  - reflexivity.
Defined.

(** The date of [eventNoDate] cannot be read and no row carries X1: the
    second search throws, and the log row is there all the same. *)
Lemma delivery_always_leaves_its_log_row_witness :
  let s := storeOf [older] in
  let row := newLog (T0 + HOUR_MS) BKASH "X1" 10000 "SUCCESS" (BkashPayload eventNoDate) s in
  webhookLogs (snd (run false (processBkashWebhook Iso.getTime (T0 + HOUR_MS) eventNoDate) s))
  = webhookLogs s ++ [row]
  /\ wl_provider row = BKASH /\ wl_txnId row = "X1"
  /\ wl_amount row = 10000 /\ wl_status row = "SUCCESS"
  /\ wl_payload row = BkashPayload eventNoDate.
Proof.
  apply (delivery_always_leaves_its_log_row false Iso.getTime (T0 + HOUR_MS) BKASH "X1"
           10000 "SUCCESS" "1 March, about one o'clock" (BkashPayload eventNoDate)
           (storeOf [older])).
  reflexivity.
Defined.

Example unreadable_date_throws :
  fst (run false (processBkashWebhook Iso.getTime (T0 + HOUR_MS) eventNoDate)
           (storeOf [older]))
  = inl PrismaValidationError.
Proof. vm_compute. reflexivity. Qed.

Lemma only_pending_rows_of_the_provider_are_claimed_witness :
  let s := storeOf [rejected; older] in
  true = true
  /\ exists c, In c (collections s) /\ c_id c = 1%nat /\ c_type c = BKASH
               /\ c_status c = PENDING.
Proof.
  apply (only_pending_rows_of_the_provider_are_claimed false Iso.getTime (T0 + HOUR_MS)
           BKASH "X1" 10000 "SUCCESS" "2024-03-01T13:00:00.000Z" (BkashPayload eventX1)
           (storeOf [rejected; older]) (mkResult true (Some 1%nat) 1%nat)
           (snd (run false (processBkashWebhook Iso.getTime (T0 + HOUR_MS) eventX1)
                     (storeOf [rejected; older])))
           1%nat).
  - vm_compute. reflexivity.
  - reflexivity.
Defined.

Lemma match_type_tells_the_prior_id_witness :
  let s := storeOf [older; carrier] in
  let s' := snd (run false (processBkashWebhook Iso.getTime (T0 + HOUR_MS) eventX1) s) in
  exists c rec,
    In c (collections s) /\ Some 3%nat = Some (c_id c)
    /\ reconciliations s' = reconciliations s ++ [rec]
    /\ r_collectionId rec = c_id c /\ r_webhookLogId rec = 1%nat
    /\ (r_matchType rec = EXACT <-> c_txnId c = Some "X1")
    /\ (r_matchType rec = FUZZY <-> c_txnId c <> Some "X1").
Proof.
  apply (match_type_tells_the_prior_id false Iso.getTime (T0 + HOUR_MS)
           BKASH "X1" 10000 "SUCCESS" "2024-03-01T13:00:00.000Z" (BkashPayload eventX1)
           (storeOf [older; carrier]) (mkResult true (Some 3%nat) 1%nat)).
  - vm_compute. reflexivity.
  - reflexivity.
Defined.

Lemma settled_rows_are_never_touched_witness :
  In rejected
     (collections
        (deliverAll false Iso.getTime
           [BkashEvent (T0 + HOUR_MS) eventX1; BkashEvent (T0 + 2 * HOUR_MS) eventX2]
           (storeOf [rejected; older]))).
Proof.
  apply (settled_rows_are_never_touched false Iso.getTime
           [BkashEvent (T0 + HOUR_MS) eventX1; BkashEvent (T0 + 2 * HOUR_MS) eventX2]
           (storeOf [rejected; older]) rejected).
  - cbn. repeat constructor; cbn; intuition discriminate.
  - now left.
  - discriminate.
Defined.

Lemma reconciliations_stay_linked_witness :
  linked (deliverAll false Iso.getTime
            [BkashEvent (T0 + HOUR_MS) eventX1; BkashEvent (T0 + 2 * HOUR_MS) eventX2]
            (storeOf [older; newer])).
Proof.
  apply (reconciliations_stay_linked false Iso.getTime
           [BkashEvent (T0 + HOUR_MS) eventX1; BkashEvent (T0 + 2 * HOUR_MS) eventX2]
           (storeOf [older; newer])).
  intros r [].
Defined.

Lemma reconciled_rows_are_approved_witness :
  reconciledApproved
    (deliverAll false Iso.getTime
       [BkashEvent (T0 + HOUR_MS) eventX1; BkashEvent (T0 + 2 * HOUR_MS) eventX2]
       (storeOf [older; newer])).
Proof.
  apply (reconciled_rows_are_approved false Iso.getTime
           [BkashEvent (T0 + HOUR_MS) eventX1; BkashEvent (T0 + 2 * HOUR_MS) eventX2]
           (storeOf [older; newer])).
  intros r c [].
Defined.

End LedgerMore.

(** ** A delivery that fails half-way *)

Module RouteMore.

Import Ledger Gateway LedgerFacts GatewayFacts.

(** The calls of a delivery are not wrapped in a transaction.  On the bKash
    route, a verified SUCCESS event whose date cannot be read and whose
    transaction id no pending row carries is answered 500, and its webhookLog
    row stays in the table with no reconciliation beside it. *)
Theorem unreadable_date_answers_500_and_keeps_the_log_row uniq D env now req s data :
  verifyWebhookSignature bkash env now req = Next ->
  bkashWebhookSchema (body req) = Some data ->
  isSuccess (bk_status data) = true ->
  duplicateKey uniq BKASH (bk_txnId data) s = false ->
  find (whereTxnId BKASH (bk_txnId data)) (collections s) = None ->
  D (bk_date data) = None ->
  let out := post uniq D env bkash now req s in
  fst out = mkResponse 500 (HandlerError "Internal Server Error")
  /\ webhookLogs (snd out)
     = webhookLogs s
       ++ [newLog now BKASH (bk_txnId data) (bk_amount data) (bk_status data)
                  (BkashPayload data) s]
  /\ reconciliations (snd out) = reconciliations s
  /\ collections (snd out) = collections s.
Proof.
  intros Hv Hp Hst Hd Hf Hdate out. subst out.
  unfold post. rewrite Hv. unfold handle. rewrite Hp.
  unfold processBkashWebhook.
  rewrite (run_invalid_date uniq D now BKASH (bk_txnId data) (bk_amount data)
             (bk_status data) (bk_date data) (BkashPayload data) s Hd Hst Hf Hdate).
  cbn. repeat split.
Qed.

Definition bodyNoDate : Js.Json :=
  Js.JObj [ ("txnId", Js.JStr "X1"); ("amount", Js.JNum 10000);
            ("currency", Js.JStr "BDT"); ("status", Js.JStr "SUCCESS");
            ("date", Js.JStr "1 March, about one o'clock");
            ("signature", Js.JStr "sig") ].

Definition signedNoDate : Request :=
  mkRequest [("x-signature", sign "whsec_bkash" bodyNoDate)] bodyNoDate.

Lemma unreadable_date_answers_500_and_keeps_the_log_row_witness :
  let s := storeOf [older] in
  let out := post false Iso.getTime env0 bkash (T0 + HOUR_MS) signedNoDate s in
  fst out = mkResponse 500 (HandlerError "Internal Server Error")
  /\ webhookLogs (snd out)
     = webhookLogs s
       ++ [newLog (T0 + HOUR_MS) BKASH "X1" 10000 "SUCCESS"
                  (BkashPayload LedgerMore.eventNoDate) s]
  /\ reconciliations (snd out) = reconciliations s
  /\ collections (snd out) = collections s.
Proof.
  apply (unreadable_date_answers_500_and_keeps_the_log_row false Iso.getTime env0
           (T0 + HOUR_MS) signedNoDate (storeOf [older]) LedgerMore.eventNoDate).
  - vm_compute. reflexivity.
  - reflexivity.
  - reflexivity.
  - reflexivity.
  - reflexivity.
  - reflexivity.
Defined.

End RouteMore.

(** ** The SLA sweep: what it returns and what it never returns *)

Module SlaMore.

Import Sla SlaFacts.


(** The WARNING level of a DEPOSIT_DELAY is out of reach for a bank whose
    deposit SLA is 24 hours or more: when every bank's limit is at least 24
    hours, every DEPOSIT_DELAY row is ERROR or CRITICAL, and when every limit
    is at least 48 hours (the default included) every row is CRITICAL. *)
Theorem deposit_severity_floor NOW cs accs bs rows br :
  (forall b limit, In b bs -> deposit_limit b = Some limit -> 24 * 3600 <= limit) ->
  check_sla_breaches NOW cs accs bs = Some rows ->
  In br rows ->
  breach_type br = DEPOSIT_DELAY ->
  (severity br = ERROR \/ severity br = CRITICAL)
  /\ ((forall b limit, In b bs -> deposit_limit b = Some limit -> 48 * 3600 <= limit) ->
      severity br = CRITICAL).
Proof.
  intros H24 Hrows Hin Hty.
  apply check_sla_breaches_Some in Hrows as (d & u & Hd & Hu & ->).
  apply in_app_or in Hin as [Hin|Hin].
  2:{ apply (update_breaches_inv NOW accs bs u) in Hin
        as (a & b & l & _ & _ & _ & _ & _ & ->); [discriminate Hty|exact Hu]. }
  apply (deposit_breaches_inv NOW cs accs bs d) in Hin
    as (c & a & b & limit & _ & _ & Hb & _ & _ & _ & _ & Hl & Hlate & ->); [|exact Hd].
  cbn. unfold deposit_severity. specialize (H24 b limit Hb Hl). split.
  - destruct (Z.gtb_spec (NOW - created_at c) 172800); [now right|].
    destruct (Z.gtb_spec (NOW - created_at c) 86400); [now left|lia].
  - intros H48. specialize (H48 b limit Hb Hl).
    destruct (Z.gtb_spec (NOW - created_at c) 172800); [reflexivity|lia].
Qed.


(** With the default update SLA, or any of 7 days or more, a NO_UPDATE row
    is never a WARNING; with 14 days or more it is always CRITICAL. *)
Theorem no_update_severity_floor NOW cs accs bs rows br :
  (forall b limit, In b bs -> update_limit b = Some limit -> 7 * 86400 <= limit) ->
  check_sla_breaches NOW cs accs bs = Some rows ->
  In br rows ->
  breach_type br = NO_UPDATE ->
  (severity br = ERROR \/ severity br = CRITICAL)
  /\ ((forall b limit, In b bs -> update_limit b = Some limit -> 14 * 86400 <= limit) ->
      severity br = CRITICAL).
Proof.
  intros H7 Hrows Hin Hty.
  apply check_sla_breaches_Some in Hrows as (d & u & Hd & Hu & ->).
  apply in_app_or in Hin as [Hin|Hin].
  { apply (deposit_breaches_inv NOW cs accs bs d) in Hin
      as (c & a & b & l & _ & _ & _ & _ & _ & _ & _ & _ & _ & ->);
      [discriminate Hty|exact Hd]. }
  apply (update_breaches_inv NOW accs bs u) in Hin
    as (a & b & limit & _ & Hb & _ & Hl & Hlate & ->); [|exact Hu].
  cbn. unfold update_severity. specialize (H7 b limit Hb Hl).
  set (e := NOW - COALESCE (last_contact_date a) (acc_created_at a)) in *. split.
  - destruct (Z.gtb_spec e 1209600); [now right|].
    destruct (Z.gtb_spec e 604800); [now left|lia].
  - intros H14. specialize (H14 b limit Hb Hl).
    destruct (Z.gtb_spec e 1209600); [reflexivity|lia].
Qed.

(** *** Worked inputs *)

(** An account of bank 1 never contacted, created 8 days before the sweep,
    and one contacted the day before. *)
Definition DAY : Z := 86400.
Definition silent : accounts_row := mkAccountRow 30%nat 1%nat None (NOW0 - 8 * DAY).
Definition called : accounts_row :=
  mkAccountRow 31%nat 1%nat (Some (NOW0 - DAY)) (NOW0 - 30 * DAY).

Example sweep_of_two_accounts :
  check_sla_breaches NOW0 [] [silent; called] [bank24]
  = Some [mkBreach 30%nat NO_UPDATE 192 ERROR].
Proof. reflexivity. Qed.

(** A bank whose update SLA is 24856 days: the product with 86400 leaves the
    range, the second query raises, and the DEPOSIT_DELAY row that the first
    query found is lost with it. *)
Example sweep_raises_in_the_second_query :
  deposit_breaches NOW0 [cash50h 10%nat] [account24; mkAccountRow 40%nat 3%nat None 0]
    [bank24; mkBankRow 3%nat None (Some 24856)]
  = Some [mkBreach 10%nat DEPOSIT_DELAY 50 CRITICAL]
  /\ check_sla_breaches NOW0 [cash50h 10%nat]
       [account24; mkAccountRow 40%nat 3%nat None 0]
       [bank24; mkBankRow 3%nat None (Some 24856)]
     = None.
Proof. split; reflexivity. Qed.



Lemma deposit_severity_floor_witness :
  (CRITICAL = ERROR \/ CRITICAL = CRITICAL)
  /\ ((forall b limit, In b [bank24] -> deposit_limit b = Some limit -> 48 * 3600 <= limit) ->
      CRITICAL = CRITICAL).
Proof.
  apply (deposit_severity_floor NOW0 [cash50h 10%nat] [account24] [bank24]
           [mkBreach 10%nat DEPOSIT_DELAY 50 CRITICAL]
           (mkBreach 10%nat DEPOSIT_DELAY 50 CRITICAL)).
  - intros b limit [<-|[]] [= <-]. vm_compute. discriminate.
  - reflexivity.
  - now left.
  - reflexivity.
Defined.

Lemma no_update_severity_floor_witness :
  (ERROR = ERROR \/ ERROR = CRITICAL)
  /\ ((forall b limit, In b [bank24] -> update_limit b = Some limit -> 14 * 86400 <= limit) ->
      ERROR = CRITICAL).
Proof.
  apply (no_update_severity_floor NOW0 [] [silent; called] [bank24]
           [mkBreach 30%nat NO_UPDATE 192 ERROR]
           (mkBreach 30%nat NO_UPDATE 192 ERROR)).
  - intros b limit [<-|[]] [= <-]. vm_compute. discriminate.
  - reflexivity.
  - now left.
  - reflexivity.
Defined.

End SlaMore.

(** ** The alert worker: who is mailed *)

Module AlertMore.

Import Alerts.

Lemma seen_iff (x : string) (seen : list string) :
  existsb (String.eqb x) seen = true <-> In x seen.
Proof.
  rewrite existsb_exists. split.
  - intros (y & Hy & E). apply String.eqb_eq in E. now subst.
  - intros H. exists x. split; [exact H|apply String.eqb_refl].
Qed.

Lemma unique_In (l seen : list string) (x : string) :
  In x (unique seen l) <-> In x l /\ ~ In x seen.
Proof.
  revert seen. induction l as [|y l IH]; intros seen; cbn; [tauto|].
  destruct (existsb (String.eqb y) seen) eqn:E.
  - apply seen_iff in E. rewrite IH. split.
    + intros [H1 H2]. tauto.
    + intros [[<-|H1] H2]; [contradiction|tauto].
  - assert (Hy : ~ In y seen) by (rewrite <- seen_iff; congruence).
    cbn. rewrite IH. cbn. split.
    + intros [<-|[H1 H2]]; [tauto|]. split; [tauto|]. intros H. apply H2. now right.
    + intros [[<-|H1] H2]; [now left|].
      destruct (string_dec y x) as [->|Hne]; [now left|].
      right. split; [exact H1|]. intros [H|H]; [contradiction|contradiction].
Qed.

Lemma unique_NoDup (l seen : list string) : NoDup (unique seen l).
Proof.
  revert seen. induction l as [|y l IH]; intros seen; cbn; [constructor|].
  destruct (existsb (String.eqb y) seen); [apply IH|].
  constructor; [|apply IH]. rewrite unique_In. intros [_ H]. apply H. now left.
Qed.

(** The recipients of an alert are the e-mail addresses of the active
    administrators and, when the job names an agent that exists, the
    non-empty address of the agent's user; no address is listed twice, also
    when the agent is an administrator. *)
Theorem recipients_are_distinct_and_complete (s : WorkerStore) (agentId : option Id) :
  NoDup (getAlertRecipients s agentId)
  /\ forall e,
       In e (getAlertRecipients s agentId) <->
       (exists u, In u (users s) /\ role u = ADMIN /\ isActive u = true /\ email u = e)
       \/ (exists aid a u,
             agentId = Some aid
             /\ find (fun a => Nat.eqb (agent_id a) aid) (agents s) = Some a
             /\ find (fun u => Nat.eqb (user_id u) (agent_userId a)) (users s) = Some u
             /\ email u = e /\ e <> "").
Proof.
  unfold getAlertRecipients. split; [apply unique_NoDup|].
  intros e. rewrite unique_In, in_app_iff, in_map_iff.
  assert (Hadm : (exists u, email u = e
                            /\ In u (filter (fun u => match role u with
                                                      | ADMIN => isActive u
                                                      | _ => false
                                                      end) (users s)))
                 <-> (exists u, In u (users s) /\ role u = ADMIN
                                /\ isActive u = true /\ email u = e)).
  { split.
    - intros (u & He & Hu). apply filter_In in Hu as [Hu Hr].
      exists u. destruct (role u); try discriminate. auto.
    - intros (u & Hu & Hr & Ha & He). exists u. split; [exact He|].
      apply filter_In. rewrite Hr. auto. }
  rewrite Hadm. clear Hadm. split.
  - intros [[H|H] _]; [now left|]. right.
    destruct agentId as [aid|]; [|destruct H].
    destruct (find (fun a => Nat.eqb (agent_id a) aid) (agents s)) as [a|] eqn:Ea;
      [|destruct H].
    destruct (find (fun u => Nat.eqb (user_id u) (agent_userId a)) (users s)) as [u|] eqn:Eu;
      [|destruct H].
    destruct (String.eqb_spec (email u) ""); [destruct H|].
    destruct H as [<-|[]]. exists aid, a, u. auto.
  - intros H. split; [|intros []]. destruct H as [H|(aid & a & u & -> & Ea & Eu & He & Hne)];
      [now left|]. right. rewrite Ea, Eu.
    destruct (String.eqb_spec (email u) ""); [congruence|]. now left.
Qed.

(** The worker always adds the alert record, and adds a mail job exactly when
    there is somebody to mail: with no active administrator and no agent's
    address the alert is recorded and nobody is told.  The mail goes to all
    recipients at once; users and agents are left as they were. *)
Theorem alert_is_recorded_and_mailed_if_anyone_listens now job s :
  let s' := alertWorker now job s in
  let recipients := getAlertRecipients s (job_agentId job) in
  List.length (alerts s') = S (List.length (alerts s))
  /\ (emailQueue s' = emailQueue s <-> recipients = [])
  /\ (recipients <> [] ->
      exists m, emailQueue s' = emailQueue s ++ [m] /\ to m = recipients
                /\ template m = "alert-notification")
  /\ users s' = users s /\ agents s' = agents s.
Proof.
  cbv zeta. unfold alertWorker. cbn.
  destruct (getAlertRecipients s (job_agentId job)) as [|r rs] eqn:E.
  - rewrite length_app, app_nil_r. cbn. repeat split; try tauto; lia.
  - rewrite length_app. cbn. repeat split; try lia; try discriminate.
    + intros H. apply (f_equal (@List.length EmailJob)) in H.
      rewrite length_app in H. cbn in H. lia.
    + intros _. eexists. repeat split.
Qed.

End AlertMore.

(** ** The collection schemas *)

Module ValidationFacts.

Import Ledger Validation.

Lemma present_true (v : option string) :
  present v = true <-> exists t, v = Some t /\ t <> "".
Proof.
  unfold present, Js.truthy. destruct v as [[|c t]|]; split;
    try discriminate; try reflexivity.
  - intros (t & [= <-] & H). contradiction.
  - intros _. eexists. split; [reflexivity|discriminate].
  - intros (t & H & _). discriminate.
Qed.

Lemma zNumberPositive_pos o key n : Gateway.zNumberPositive o key = Some n -> 0 < n.
Proof.
  unfold Gateway.zNumberPositive. destruct (Js.get key o) as [[| |m| | |]|]; try discriminate.
  destruct (Z.ltb_spec 0 m); [|discriminate]. now intros [= <-].
Qed.

Lemma zVerdict_settled o key st :
  zVerdict o key = Some st -> st = APPROVED \/ st = REJECTED.
Proof.
  unfold zVerdict. destruct (Js.get key o) as [[| | |t| |]|]; try discriminate.
  destruct (String.eqb t "APPROVED"); [intros [= <-]; now left|].
  destruct (String.eqb t "REJECTED"); [intros [= <-]; now right|discriminate].
Qed.

Lemma verifyCollectionSchema_settled body input :
  verifyCollectionSchema body = Some input ->
  v_status input = APPROVED \/ v_status input = REJECTED.
Proof.
  unfold verifyCollectionSchema. destruct body as [| | | | |o]; try discriminate.
  unfold Gateway.bind. destruct (zVerdict o "status") as [st|] eqn:Est; [|discriminate].
  destruct (Gateway.zStringOptional o "rejectionReason") as [reason|]; [|discriminate].
  destruct (reasonGiven (mkVerifyInput st reason)); [|discriminate].
  intros [= <-]. cbn. now apply (zVerdict_settled o "status").
Qed.

(** A submission that [createCollectionSchema] accepts has a positive amount,
    a collection date that passes the date-time test, and the reference its
    type calls for, present and not empty: a transaction id for BKASH and
    NAGAD, a slip number for BANK_DEPOSIT, a cash receipt for CASH. *)
Theorem accepted_submission_carries_its_reference isDatetime body data :
  createCollectionSchema isDatetime body = Some data ->
  0 < in_amount data
  /\ isDatetime (in_collectionDate data) = true
  /\ match in_type data with
     | BKASH | NAGAD => exists t, in_txnId data = Some t /\ t <> ""
     | BANK_DEPOSIT => exists t, in_slipNo data = Some t /\ t <> ""
     | CASH => exists t, in_cashReceipt data = Some t /\ t <> ""
     end.
Proof.
  unfold createCollectionSchema. destruct body as [| | | | |o]; try discriminate.
  unfold Gateway.bind.
  destruct (zCollectionType o "type") as [ty|]; [|discriminate].
  destruct (Gateway.zNumberPositive o "amount") as [amount|] eqn:Ea; [|discriminate].
  destruct (zDatetime isDatetime o "collectionDate") as [date|] eqn:Ed; [|discriminate].
  destruct (Gateway.zStringOptional o "txnId") as [txnId|]; [|discriminate].
  destruct (Gateway.zStringOptional o "slipNo") as [slipNo|]; [|discriminate].
  destruct (Gateway.zStringOptional o "cashReceipt") as [cashReceipt|]; [|discriminate].
  destruct (zStringArrayOptional o "proofImages") as [proofImages|]; [|discriminate].
  destruct (requiredFieldsPresent _) eqn:Er; [|discriminate].
  intros [= <-]. cbn. split; [now apply (zNumberPositive_pos o "amount")|]. split.
  - unfold zDatetime in Ed. destruct (Js.get "collectionDate" o) as [[| | |t| |]|];
      try discriminate.
    destruct (isDatetime t) eqn:Et; [|discriminate]. now injection Ed as <-.
  - unfold requiredFieldsPresent in Er. cbn in Er.
    destruct ty; now apply present_true.
Qed.

(** What [verifyCollectionSchema] accepts is a verdict, APPROVED or REJECTED
    and never PENDING, and a rejection always comes with a reason that is
    not empty. *)
Theorem accepted_verdict_is_final_and_reasoned body input :
  verifyCollectionSchema body = Some input ->
  (v_status input = APPROVED \/ v_status input = REJECTED)
  /\ (v_status input = REJECTED ->
      exists reason, v_rejectionReason input = Some reason /\ reason <> "").
Proof.
  intros H. split; [now apply (verifyCollectionSchema_settled body)|].
  unfold verifyCollectionSchema in H. destruct body as [| | | | |o]; try discriminate.
  unfold Gateway.bind in H. destruct (zVerdict o "status") as [st|]; [|discriminate].
  destruct (Gateway.zStringOptional o "rejectionReason") as [reason|]; [|discriminate].
  destruct (reasonGiven (mkVerifyInput st reason)) eqn:Er; [|discriminate].
  injection H as <-. cbn. intros ->. unfold reasonGiven in Er. cbn in Er.
  now apply present_true.
Qed.

(** *** Worked inputs *)

Definition anyDatetime (s : string) : bool :=
  match Iso.getTime s with Some _ => true | None => false end.

Definition bkashSubmission : Js.Json :=
  Js.JObj [ ("type", Js.JStr "BKASH"); ("amount", Js.JNum 10000);
            ("collectionDate", Js.JStr "2024-03-01T12:00:00.000Z");
            ("txnId", Js.JStr "REF-1") ].

Definition rejection : Js.Json :=
  Js.JObj [ ("status", Js.JStr "REJECTED"); ("rejectionReason", Js.JStr "no slip") ].

Definition approvalWithReason : Js.Json :=
  Js.JObj [ ("status", Js.JStr "APPROVED"); ("rejectionReason", Js.JStr "looks fine") ].

Example submission_without_txnId_is_refused :
  createCollectionSchema anyDatetime
    (Js.JObj [ ("type", Js.JStr "BKASH"); ("amount", Js.JNum 10000);
               ("collectionDate", Js.JStr "2024-03-01T12:00:00.000Z");
               ("cashReceipt", Js.JStr "R-1") ]) = None
  /\ verifyCollectionSchema (Js.JObj [ ("status", Js.JStr "REJECTED") ]) = None
  /\ verifyCollectionSchema (Js.JObj [ ("status", Js.JStr "PENDING") ]) = None.
Proof. repeat split. Qed.

Lemma accepted_submission_carries_its_reference_witness :
  let data := mkCollectionInput BKASH 10000 "2024-03-01T12:00:00.000Z" (Some "REF-1")
                                None None None in
  0 < in_amount data
  /\ anyDatetime (in_collectionDate data) = true
  /\ exists t, in_txnId data = Some t /\ t <> "".
Proof.
  apply (accepted_submission_carries_its_reference anyDatetime bkashSubmission
           (mkCollectionInput BKASH 10000 "2024-03-01T12:00:00.000Z" (Some "REF-1")
                              None None None)).
  reflexivity.
Defined.

Lemma accepted_verdict_is_final_and_reasoned_witness :
  let input := mkVerifyInput REJECTED (Some "no slip") in
  (v_status input = APPROVED \/ v_status input = REJECTED)
  /\ (v_status input = REJECTED ->
      exists reason, v_rejectionReason input = Some reason /\ reason <> "").
Proof.
  apply (accepted_verdict_is_final_and_reasoned rejection
           (mkVerifyInput REJECTED (Some "no slip"))).
  reflexivity.
Defined.

End ValidationFacts.

(** ** Manual verification, alone and together with the webhook path *)

Module VerifyFacts.

Import Ledger LedgerFacts Validation Verify.

Lemma find_by_id rows c :
  NoDup (map c_id rows) -> In c rows ->
  find (fun x => Nat.eqb (c_id x) (c_id c)) rows = Some c.
Proof.
  intros Hnd Hin.
  destruct (find (fun x => Nat.eqb (c_id x) (c_id c)) rows) as [y|] eqn:E.
  - apply find_some in E as [Hy Hid]. apply Nat.eqb_eq in Hid.
    f_equal. exact (LedgerMore.same_id_same_row rows y c Hnd Hy Hin Hid).
  - exfalso. pose proof (find_none _ _ E c Hin) as H. cbn in H.
    rewrite Nat.eqb_refl in H. discriminate.
Qed.

(** The shapes of the office after a call of the route. *)
Lemma verifyRoute_store caller now id body o :
  snd (verifyRoute caller now id body o) = o
  \/ exists input existing,
       verifyCollectionSchema body = Some input
       /\ In existing (collections (store o)) /\ c_id existing = id
       /\ c_status existing = PENDING
       /\ store (snd (verifyRoute caller now id body o))
          = mkStore (updateWhereId id (withStatus (v_status input)) (collections (store o)))
                    (webhookLogs (store o)) (reconciliations (store o))
                    (queries (store o)).
Proof.
  unfold verifyRoute.
  destruct (verifyCollectionSchema body) as [input|] eqn:Es; [|now left].
  destruct (find (fun c => Nat.eqb (c_id c) id) (collections (store o))) as [ex|] eqn:Ef;
    [|now left].
  apply find_some in Ef as [Hin Hid]. apply Nat.eqb_eq in Hid.
  destruct (c_status ex) eqn:Est; try now left.
  right. exists input, ex. cbn. auto.
Qed.

(** A call that is not answered 200 -- a body the schema refuses, an id that
    no collection has, a collection already verified -- changes nothing:
    no row, no verification columns, no event log entry. *)
Theorem refused_verification_changes_nothing caller now id body o :
  verifyStatusCode (fst (verifyRoute caller now id body o)) <> 200 ->
  snd (verifyRoute caller now id body o) = o.
Proof.
  unfold verifyRoute.
  destruct (verifyCollectionSchema body) as [input|]; [|reflexivity].
  destruct (find (fun c => Nat.eqb (c_id c) id) (collections (store o))) as [ex|];
    [|reflexivity].
  destruct (c_status ex); cbn; try reflexivity. intros H. now contradiction H.
Qed.

(** With ids unique in the table, a collection that is APPROVED or REJECTED
    cannot be verified again: whatever verdict is sent, the answer is 400
    with the current status and nothing changes.  In particular a collection
    that a webhook approved cannot be rejected through this route. *)
Theorem settled_collection_cannot_be_verified_again caller now body o c input :
  NoDup (map c_id (collections (store o))) ->
  In c (collections (store o)) -> c_status c <> PENDING ->
  verifyCollectionSchema body = Some input ->
  verifyRoute caller now (c_id c) body o = (AlreadyVerified (c_status c), o).
Proof.
  intros Hnd Hin Hs Hb. unfold verifyRoute. rewrite Hb, (find_by_id _ _ Hnd Hin).
  destruct (c_status c); [contradiction|reflexivity|reflexivity].
Qed.

(** A verification that succeeds acted on a PENDING collection; it sets the
    status of the rows with that id to the verdict and touches nothing else
    of the store: no reconciliation is written and the matched flag, the
    transaction id and the webhook data stay as they were.  The row keeps a
    rejection reason only for REJECTED, while the event log records the
    reason as it was sent. *)
Theorem successful_verification caller now id body o c columns o' :
  verifyRoute caller now id body o = (Updated c columns, o') ->
  exists input existing,
    verifyCollectionSchema body = Some input
    /\ In existing (collections (store o)) /\ c_id existing = id
    /\ c_status existing = PENDING
    /\ c = withStatus (v_status input) existing
    /\ c_isMatched c = c_isMatched existing /\ c_txnId c = c_txnId existing
    /\ collections (store o')
       = updateWhereId id (withStatus (v_status input)) (collections (store o))
    /\ reconciliations (store o') = reconciliations (store o)
    /\ webhookLogs (store o') = webhookLogs (store o)
    /\ rejectionReason columns
       = match v_status input with REJECTED => v_rejectionReason input | _ => None end
    /\ exists event,
         eventLogs o' = eventLogs o ++ [event]
         /\ ev_oldStatus event = PENDING /\ ev_newStatus event = v_status input
         /\ ev_newRejectionReason event = v_rejectionReason input.
Proof.
  unfold verifyRoute.
  destruct (verifyCollectionSchema body) as [input|]; [|discriminate].
  destruct (find (fun c => Nat.eqb (c_id c) id) (collections (store o))) as [ex|] eqn:Ef;
    [|discriminate].
  apply find_some in Ef as [Hin Hid]. apply Nat.eqb_eq in Hid.
  destruct (c_status ex) eqn:Est; try discriminate.
  intros [= <- <- <-]. exists input, ex. cbn.
  split; [reflexivity|]. split; [exact Hin|]. split; [exact Hid|].
  split; [exact Est|]. repeat (split; [reflexivity|]).
  eexists. split; [reflexivity|]. cbn. repeat split.
Qed.

Lemma act_keeps_ids uniq D a o :
  map c_id (collections (store (act uniq D a o))) = map c_id (collections (store o)).
Proof.
  destruct a as [provider now txnId amount status date payload|caller now id body]; cbn.
  - apply LedgerMore.delivery_keeps_ids.
  - destruct (verifyRoute_store caller now id body o) as [->|(input & ex & _ & _ & _ & _ & ->)];
      [reflexivity|].
    cbn. now apply LedgerMore.updateWhereId_ids.
Qed.

Lemma act_keeps_settled_rows uniq D a o c :
  NoDup (map c_id (collections (store o))) ->
  In c (collections (store o)) -> c_status c <> PENDING ->
  In c (collections (store (act uniq D a o))).
Proof.
  intros Hnd Hin Hs.
  destruct a as [provider now txnId amount status date payload|caller now id body]; cbn.
  - now apply LedgerMore.delivery_keeps_settled_rows.
  - destruct (verifyRoute_store caller now id body o)
      as [->|(input & ex & _ & Hex & Hid & Hst & ->)]; [exact Hin|].
    cbn. apply LedgerMore.updateWhereId_other; [exact Hin|].
    intros E. rewrite <- Hid in E.
    apply (LedgerMore.same_id_same_row _ _ _ Hnd Hin Hex) in E. congruence.
Qed.

Lemma act_keeps_invariant uniq D a o :
  matchedOnce (store o) /\ claimsSettled (store o) ->
  matchedOnce (store (act uniq D a o)) /\ claimsSettled (store (act uniq D a o)).
Proof.
  intros [H1 H2].
  destruct a as [provider now txnId amount status date payload|caller now id body]; cbn.
  - apply delivery_keeps_invariant. now split.
  - destruct (verifyRoute_store caller now id body o)
      as [->|(input & ex & Hb & Hex & Hid & Hst & ->)]; [now split|].
    split; [exact H1|].
    intros r c Hr Hc Hcid. cbn in Hr, Hc.
    unfold updateWhereId in Hc. apply in_map_iff in Hc as (x & Hx & Hxin).
    destruct (Nat.eqb (c_id x) id); subst c.
    + cbn. destruct (ValidationFacts.verifyCollectionSchema_settled body input Hb)
        as [-> | ->]; discriminate.
    + exact (H2 r x Hr Hxin Hcid).
Qed.

(** APPROVED and REJECTED are final.  With ids unique in the table, a
    collection that has left PENDING -- claimed by a webhook or verified by
    hand -- is left exactly as it is by every sequence of webhook deliveries
    and manual verifications processed one after the other. *)
Theorem settled_status_is_final uniq D actions o c :
  NoDup (map c_id (collections (store o))) ->
  In c (collections (store o)) -> c_status c <> PENDING ->
  In c (collections (store (actAll uniq D actions o))).
Proof.
  revert o. induction actions as [|a actions IH]; intros o Hnd Hin Hs; [exact Hin|].
  cbn [actAll fold_left]. fold (actAll uniq D actions (act uniq D a o)).
  apply IH; [| |exact Hs].
  - now rewrite act_keeps_ids.
  - now apply act_keeps_settled_rows.
Qed.

(** Manual verifications do not disturb the matching: when deliveries and
    verifications are processed one after the other, no two reconciliations
    ever point at the same collection, and every reconciled collection has
    left PENDING. *)
Theorem verification_keeps_matches_single uniq D actions o :
  matchedOnce (store o) -> claimsSettled (store o) ->
  matchedOnce (store (actAll uniq D actions o))
  /\ claimsSettled (store (actAll uniq D actions o)).
Proof.
  revert o. induction actions as [|a actions IH]; intros o H1 H2; [now split|].
  cbn [actAll fold_left]. fold (actAll uniq D actions (act uniq D a o)).
  apply IH; apply act_keeps_invariant; now split.
Qed.

(** *** Worked inputs *)

Definition auditor : Caller := mkCaller 7%nat "10.0.0.1" (Some "curl/8").

Definition office0 : Office := mkOffice (storeOf [LedgerMore.rejected; older]) [] [].

Definition deliveryX1 : Action :=
  Delivered BKASH (T0 + HOUR_MS) "X1" 10000 "SUCCESS" "2024-03-01T13:00:00.000Z"
            (BkashPayload eventX1).

Definition rejectOlder : Action :=
  Verified auditor (T0 + 2 * HOUR_MS) 1%nat ValidationFacts.rejection.

(** The webhook approves collection 1; the rejection sent afterwards is
    answered "already verified". *)
Example approved_by_webhook_then_rejected_by_hand :
  let o := act false Iso.getTime deliveryX1 office0 in
  map c_status (collections (store o)) = [REJECTED; APPROVED]
  /\ fst (verifyRoute auditor (T0 + 2 * HOUR_MS) 1%nat ValidationFacts.rejection o)
     = AlreadyVerified APPROVED.
Proof. vm_compute. split; reflexivity. Qed.

Lemma refused_verification_changes_nothing_witness :
  snd (verifyRoute auditor T0 99%nat ValidationFacts.rejection office0) = office0.
Proof.
  apply (refused_verification_changes_nothing auditor T0 99%nat
           ValidationFacts.rejection office0).
  vm_compute. discriminate.
Defined.

Lemma settled_collection_cannot_be_verified_again_witness :
  verifyRoute auditor T0 5%nat ValidationFacts.approvalWithReason office0
  = (AlreadyVerified REJECTED, office0).
Proof.
  apply (settled_collection_cannot_be_verified_again auditor T0
           ValidationFacts.approvalWithReason office0 LedgerMore.rejected
           (mkVerifyInput APPROVED (Some "looks fine"))).
  - cbn. repeat constructor; cbn; intuition discriminate.
  - now left.
  - discriminate.
  - reflexivity.
Defined.

Lemma successful_verification_witness :
  let out := verifyRoute auditor T0 1%nat ValidationFacts.approvalWithReason office0 in
  exists input existing,
    verifyCollectionSchema ValidationFacts.approvalWithReason = Some input
    /\ In existing (collections (store office0)) /\ c_id existing = 1%nat
    /\ c_status existing = PENDING
    /\ withStatus APPROVED older = withStatus (v_status input) existing
    /\ c_isMatched (withStatus APPROVED older) = c_isMatched existing
    /\ c_txnId (withStatus APPROVED older) = c_txnId existing
    /\ collections (store (snd out))
       = updateWhereId 1%nat (withStatus (v_status input)) (collections (store office0))
    /\ reconciliations (store (snd out)) = reconciliations (store office0)
    /\ webhookLogs (store (snd out)) = webhookLogs (store office0)
    /\ rejectionReason (mkVerified 1%nat None 7%nat T0)
       = match v_status input with REJECTED => v_rejectionReason input | _ => None end
    /\ exists event,
         eventLogs (snd out) = eventLogs office0 ++ [event]
         /\ ev_oldStatus event = PENDING /\ ev_newStatus event = v_status input
         /\ ev_newRejectionReason event = v_rejectionReason input.
Proof.
  apply (successful_verification auditor T0 1%nat ValidationFacts.approvalWithReason
           office0 (withStatus APPROVED older) (mkVerified 1%nat None 7%nat T0)).
  reflexivity.
Defined.

Example approval_drops_the_reason_but_logs_it :
  let o := snd (verifyRoute auditor T0 1%nat ValidationFacts.approvalWithReason office0) in
  map rejectionReason (verified o) = [None]
  /\ map ev_newRejectionReason (eventLogs o) = [Some "looks fine"].
Proof. split; reflexivity. Qed.

Lemma settled_status_is_final_witness :
  In LedgerMore.rejected
     (collections (store (actAll false Iso.getTime [deliveryX1; rejectOlder] office0))).
Proof.
  apply (settled_status_is_final false Iso.getTime [deliveryX1; rejectOlder] office0
           LedgerMore.rejected).
  - cbn. repeat constructor; cbn; intuition discriminate.
  - now left.
  - discriminate.
Defined.

Lemma verification_keeps_matches_single_witness :
  matchedOnce (store (actAll false Iso.getTime [rejectOlder; deliveryX1] office0))
  /\ claimsSettled (store (actAll false Iso.getTime [rejectOlder; deliveryX1] office0)).
Proof.
  apply (verification_keeps_matches_single false Iso.getTime [rejectOlder; deliveryX1]
           office0).
  - constructor.
  - intros r c [].
Defined.

(** Rejected by hand first, collection 1 is no candidate for the event that
    comes next. *)
Example rejected_by_hand_then_not_claimed :
  let o := actAll false Iso.getTime [rejectOlder; deliveryX1] office0 in
  map c_status (collections (store o)) = [REJECTED; REJECTED]
  /\ reconciliations (store o) = [].
Proof. vm_compute. split; reflexivity. Qed.

End VerifyFacts.
